(** * Session authentication core of the Showcase full-stack app

    A shallow embedding of
      - utils/auth.js      (hashPassword, verifyPassword, generateToken),
      - utils/session.js   (session store, cookie adapter),
      - utils/db.js        (createUser, getUserById, getUserByEmail, updateUser,
                            updateLastLogin),
      - utils/auth-api.js  (handleAuthRequest),
      - db/schema.sql      (the tables users and sessions),
    together with the properties of the specification that concern them.

    Conventions.
      - A JavaScript exception is a value: every function that can throw
        returns a [Completion], and a handler runs in the monad [M] of a
        request, which threads the database and the response and keeps the
        writes made before an exception.
      - The Node.js primitives the code calls ([String.prototype.split],
        [trim], [join], [Buffer.from(_, 'hex')], [toString('hex')],
        [crypto.timingSafeEqual], [res.setHeader], [res.writeHead]) are
        written out as functions; the two primitives with no executable
        meaning here, [crypto.pbkdf2Sync] and [JSON.parse], are the members
        of the class [Platform].
      - What a request reads from outside (the clock, CURRENT_TIMESTAMP,
        [crypto.randomBytes], NODE_ENV) is an [Env].
      - Header and cookie strings are Latin-1 strings: one [ascii] per
        character, code points 0..255.
      - The storage engine is the two tables with their constraints; a
        statement fails only on a constraint, not on an unavailable
        database or a disk error.
      - The file has three parts: the program, the vocabulary of the
        properties, and the properties with their proofs. *)

From Stdlib Require Import ZArith List Ascii String Bool Lia.
From stdpp Require Import base option list gmap strings pretty finite.

Open Scope string_scope.

(* ================================================================== *)
(** * JavaScript completions                                           *)
(* ================================================================== *)

Inductive JsError : Type :=
  | TypeError                      (* a property read on undefined, a bad argument type *)
  | RangeError                     (* timingSafeEqual on buffers of different length *)
  | SyntaxError                    (* JSON.parse on malformed text *)
  | SqliteError (constraint : string).   (* a constraint failure of the storage engine *)

Inductive Completion (A : Type) : Type :=
  | Normal (a : A)
  | Throw (e : JsError).
Arguments Normal {A} a.
Arguments Throw {A} e.

Definition returns {A} (c : Completion A) : Prop := exists a, c = Normal a.
Definition throws {A} (c : Completion A) : Prop := exists e, c = Throw e.

Definition cbind {A B} (c : Completion A) (k : A -> Completion B) : Completion B :=
  match c with
  | Normal a => k a
  | Throw e => Throw e
  end.

(* ================================================================== *)
(** * String primitives                                                *)
(* ================================================================== *)

Module Js.

(** [s.split(sep)] for a separator of one character.  The result is never
    empty: ["".split(";")] is [[""]]. *)
Fixpoint split (sep : ascii) (s : string) : list string :=
  match s with
  | EmptyString => [EmptyString]
  | String c s' =>
      if Ascii.eqb c sep then EmptyString :: split sep s'
      else match split sep s' with
           | seg :: segs => String c seg :: segs
           | [] => [String c EmptyString]
           end
  end.

(** [parts.join(sep)]. *)
Fixpoint join (sep : string) (parts : list string) : string :=
  match parts with
  | [] => EmptyString
  | [p] => p
  | p :: ps => p ++ sep ++ join sep ps
  end.

(** White space of [String.prototype.trim] among the code points 0..255:
    TAB, LF, VT, FF, CR, SPACE and NBSP. *)
Definition isWhiteSpace (c : ascii) : bool :=
  let n := nat_of_ascii c in
  ((9 <=? n)%nat && (n <=? 13)%nat) || (n =? 32)%nat || (n =? 160)%nat.

Fixpoint trimStart (s : string) : string :=
  match s with
  | EmptyString => EmptyString
  | String c s' => if isWhiteSpace c then trimStart s' else s
  end.

Fixpoint trimEnd (s : string) : string :=
  match s with
  | EmptyString => EmptyString
  | String c s' =>
      match trimEnd s' with
      | EmptyString => if isWhiteSpace c then EmptyString else String c EmptyString
      | t => String c t
      end
  end.

Definition trim (s : string) : string := trimEnd (trimStart s).


(** Truthiness of a string: only the empty string is falsy. *)
Definition truthy (s : string) : bool := negb (String.eqb s EmptyString).

(** [Number.MAX_SAFE_INTEGER], 2^53 - 1. *)
Definition MAX_SAFE_INTEGER : Z := 9007199254740991.

(** A number that is a safe integer: an integer of magnitude at most
    2^53 - 1.  A number holds these exactly, and [String(n)], which a
    template literal applies, writes them in plain decimal digits (the
    exponent notation starts at 10^21). *)
Record SafeInteger : Type := mkSafeInteger {
  integer : Z;
  integer_safe : Is_true (Z.abs integer <=? MAX_SAFE_INTEGER)%Z;
}.

(** [String(n)] for a safe integer. *)
Definition numberToString (n : SafeInteger) : string := pretty (integer n).

End Js.

(* ================================================================== *)
(** * Buffers and the 'hex' encoding                                   *)
(* ================================================================== *)

Module Buffer.

(** A Buffer is its bytes. *)
Definition t : Type := list Byte.byte.

Definition hexDigit (n : N) : ascii :=
  match n with
  | 0%N => "0" | 1%N => "1" | 2%N => "2" | 3%N => "3"
  | 4%N => "4" | 5%N => "5" | 6%N => "6" | 7%N => "7"
  | 8%N => "8" | 9%N => "9" | 10%N => "a" | 11%N => "b"
  | 12%N => "c" | 13%N => "d" | 14%N => "e" | _ => "f"
  end%char.

(** The value of a hexadecimal digit, in either case; None for any other
    character. *)
Definition hexValue (c : ascii) : option N :=
  let n := N_of_ascii c in
  if ((48 <=? n) && (n <=? 57))%N then Some (n - 48)%N
  else if ((97 <=? n) && (n <=? 102))%N then Some (n - 87)%N
  else if ((65 <=? n) && (n <=? 70))%N then Some (n - 55)%N
  else None.

(** [buf.toString('hex')]: two lower-case digits per byte. *)
Fixpoint toHex (buf : t) : string :=
  match buf with
  | [] => EmptyString
  | b :: buf' =>
      let n := Byte.to_N b in
      String (hexDigit (n / 16)) (String (hexDigit (n mod 16)) (toHex buf'))
  end.

(** [Buffer.from(s, 'hex')]: pairs of digits are decoded from the left and
    the decoding stops, keeping what it has, at the first pair that is not
    two hexadecimal digits; an odd character at the end is dropped. *)
Fixpoint fromHex (s : string) : t :=
  match s with
  | String c1 (String c2 s') =>
      match hexValue c1, hexValue c2 with
      | Some h, Some l =>
          match Byte.of_N (16 * h + l) with
          | Some b => b :: fromHex s'
          | None => []
          end
      | _, _ => []
      end
  | _ => []
  end.

(** [Buffer.from(x, 'hex')] where [x] may be undefined (None): a TypeError
    (ERR_INVALID_ARG_TYPE). *)
Definition from (x : option string) : Completion t :=
  match x with
  | Some s => Normal (fromHex s)
  | None => Throw TypeError
  end.

#[global] Instance byte_eq_dec : EqDecision Byte.byte := Byte.byte_eq_dec.

Definition eqb (a b : t) : bool := bool_decide (a = b :> list Byte.byte).

(** [crypto.timingSafeEqual(a, b)]: a RangeError when the byte lengths
    differ, the equality of the contents otherwise. *)
Definition timingSafeEqual (a b : t) : Completion bool :=
  if (length a =? length b)%nat then Normal (eqb a b) else Throw RangeError.

End Buffer.

(* ================================================================== *)
(** * JSON values and JavaScript objects                               *)
(* ================================================================== *)

(** The values [JSON.parse] returns and [JSON.stringify] is given.  An
    object keeps its properties in insertion order. *)
#[local] Set Warnings "-register-all".
Inductive Json : Type :=
  | JNull
  | JBool (b : bool)
  | JNum (n : Z)
  | JStr (s : string)
  | JArr (items : list Json)
  | JObj (props : list (string * Json)).

Definition JsObject : Type := list (string * Json).

(** [!!v]. *)
Definition truthy (v : Json) : bool :=
  match v with
  | JNull => false
  | JBool b => b
  | JNum n => negb (n =? 0)%Z
  | JStr s => Js.truthy s
  | JArr _ | JObj _ => true
  end.

(** [o[k]]; None is undefined. *)
Fixpoint getProp (o : JsObject) (k : string) : option Json :=
  match o with
  | [] => None
  | (k', v) :: o' => if String.eqb k' k then Some v else getProp o' k
  end.

(** [delete o[k]]. *)
Fixpoint deleteProp (k : string) (o : JsObject) : JsObject :=
  match o with
  | [] => []
  | (k', v) :: o' => if String.eqb k' k then deleteProp k o' else (k', v) :: deleteProp k o'
  end.

(** [o[k] = v]: an existing property keeps its place, a new one goes last. *)
Fixpoint setProp (k : string) (v : Json) (o : JsObject) : JsObject :=
  match o with
  | [] => [(k, v)]
  | (k', v') :: o' => if String.eqb k' k then (k', v) :: o' else (k', v') :: setProp k v o'
  end.

(** [!!o[k]], with undefined falsy. *)
Definition truthyProp (o : JsObject) (k : string) : bool :=
  match getProp o k with
  | Some v => truthy v
  | None => false
  end.

(* ================================================================== *)
(** * The platform                                                     *)
(* ================================================================== *)

(** What the code takes from Node.js without this development giving it a
    meaning:
      - [crypto.pbkdf2Sync(password, salt, iterations, keylen, digest)],
        a function of its arguments whose result has [keylen] bytes;
      - [JSON.parse(text)], None when it throws a SyntaxError. *)
Class Platform : Type := {
  pbkdf2Sync : string -> string -> N -> nat -> string -> Buffer.t;
  pbkdf2Sync_length :
    forall password salt iterations keylen digest,
      length (pbkdf2Sync password salt iterations keylen digest) = keylen;
  JSON_parse : string -> option Json;
}.

(* ================================================================== *)
(** * utils/auth.js                                                    *)
(* ================================================================== *)

Section Auth.
Context `{Platform}.

(** [hashPassword(password)], given the bytes [crypto.randomBytes(16)]
    returned. *)
Definition hashPassword (randomBytes16 : Buffer.t) (password : string) : string :=
  let salt := Buffer.toHex randomBytes16 in
  let hash := Buffer.toHex (pbkdf2Sync password salt 100000 64 "sha512") in
  salt ++ ":" ++ hash.

(** [verifyPassword(password, storedHash)].  [const [salt, originalHash] =
    storedHash.split(':')] takes the first two segments; [originalHash] is
    undefined when there is no second one. *)
Definition verifyPassword (password storedHash : string) : Completion bool :=
  match Js.split ":" storedHash with
  | [] => Throw TypeError
  | salt :: more =>
      let originalHash := head more in
      let hash := Buffer.toHex (pbkdf2Sync password salt 100000 64 "sha512") in
      cbind (Buffer.from originalHash) (fun a =>
      cbind (Buffer.from (Some hash)) (fun b =>
      Buffer.timingSafeEqual a b))
  end.

End Auth.

(* ================================================================== *)
(** * The storage engine: db/schema.sql and the statements of the code *)
(* ================================================================== *)

(** A row of [users].  NULL is None.  The timestamps written by
    CURRENT_TIMESTAMP are kept as the text SQLite stores. *)
Record UserRow : Type := mkUserRow {
  u_id : Z;
  u_email : string;
  u_password_hash : string;
  u_full_name : option string;
  u_meta : option string;
  u_created_at : string;
  u_updated_at : string;
  u_last_login : option string;
  u_is_active : option Z;
  u_role : string;
}.

(** A row of [sessions].  [expires_at] holds the text of
    [Date.prototype.toISOString], "YYYY-MM-DDTHH:mm:ss.sssZ", which for the
    years 0000 to 9999 has a fixed width and is ordered as text the way the
    instants are ordered; the row keeps the instant, in milliseconds since
    the epoch, and the comparisons of the statements are comparisons of
    instants. *)
Record SessionRow : Type := mkSessionRow {
  s_id : Z;
  s_user_id : Z;
  s_token : string;
  s_expires_at : Z;
  s_created_at : string;
}.

(** The database file: the two tables and their AUTOINCREMENT counters. *)
Record DB : Type := mkDB {
  users : list UserRow;
  sessions : list SessionRow;
  users_seq : Z;
  sessions_seq : Z;
}.

Module Sql.

(** SELECT * FROM users WHERE email = ? *)
Definition selectUserByEmail (email : string) (d : DB) : option UserRow :=
  List.find (fun u => String.eqb (u_email u) email) (users d).

(** SELECT ... FROM users WHERE id = ? *)
Definition selectUserById (id : Z) (d : DB) : option UserRow :=
  List.find (fun u => (u_id u =? id)%Z) (users d).

(** INSERT INTO users (email, password_hash, full_name, meta) VALUES (?, ?, ?, ?)
    The UNIQUE constraint on [email] rejects a second row with the same
    email; the other columns take their defaults.  The result is
    [lastInsertRowid]. *)
Definition insertUser (email passwordHash : string) (fullName : option string)
    (metaJson ts : string) (d : DB) : Completion Z * DB :=
  match selectUserByEmail email d with
  | Some _ => (Throw (SqliteError "UNIQUE constraint failed: users.email"), d)
  | None =>
      let id := (users_seq d + 1)%Z in
      let row := {| u_id := id; u_email := email; u_password_hash := passwordHash;
                    u_full_name := fullName; u_meta := Some metaJson;
                    u_created_at := ts; u_updated_at := ts; u_last_login := None;
                    u_is_active := Some 1%Z; u_role := "user" |} in
      (Normal id,
       {| users := users d ++ [row]; sessions := sessions d;
          users_seq := id; sessions_seq := sessions_seq d |})
  end.

(** UPDATE users SET last_login = CURRENT_TIMESTAMP WHERE id = ?
    followed by the trigger update_users_timestamp. *)
Definition updateLastLogin (id : Z) (ts : string) (d : DB) : DB :=
  {| users := map (fun u =>
                if (u_id u =? id)%Z
                then {| u_id := u_id u; u_email := u_email u;
                        u_password_hash := u_password_hash u;
                        u_full_name := u_full_name u; u_meta := u_meta u;
                        u_created_at := u_created_at u; u_updated_at := ts;
                        u_last_login := Some ts; u_is_active := u_is_active u;
                        u_role := u_role u |}
                else u) (users d);
     sessions := sessions d;
     users_seq := users_seq d; sessions_seq := sessions_seq d |}.

(** INSERT INTO sessions (user_id, token, expires_at) VALUES (?, ?, ?)
    The foreign key on [user_id] (node:sqlite enforces foreign keys unless
    told otherwise) and the UNIQUE constraint on [token] can reject the row. *)
Definition insertSession (userId : Z) (token : string) (expiresAt : Z) (ts : string)
    (d : DB) : Completion unit * DB :=
  match selectUserById userId d with
  | None => (Throw (SqliteError "FOREIGN KEY constraint failed"), d)
  | Some _ =>
      if existsb (fun r => String.eqb (s_token r) token) (sessions d)
      then (Throw (SqliteError "UNIQUE constraint failed: sessions.token"), d)
      else
        let id := (sessions_seq d + 1)%Z in
        let row := {| s_id := id; s_user_id := userId; s_token := token;
                      s_expires_at := expiresAt; s_created_at := ts |} in
        (Normal tt,
         {| users := users d; sessions := sessions d ++ [row];
            users_seq := users_seq d; sessions_seq := id |})
  end.

(** SELECT * FROM sessions WHERE token = ? AND expires_at > ? *)
Definition selectLiveSession (token : string) (now : Z) (d : DB) : option SessionRow :=
  List.find (fun r => String.eqb (s_token r) token && (now <? s_expires_at r)%Z) (sessions d).

Definition withSessions (f : list SessionRow -> list SessionRow) (d : DB) : DB :=
  {| users := users d; sessions := f (sessions d);
     users_seq := users_seq d; sessions_seq := sessions_seq d |}.

(** DELETE FROM sessions WHERE token = ? *)
Definition deleteSessionByToken (token : string) : DB -> DB :=
  withSessions (List.filter (fun r => negb (String.eqb (s_token r) token))).

(** DELETE FROM sessions WHERE user_id = ? *)
Definition deleteSessionsByUser (userId : Z) : DB -> DB :=
  withSessions (List.filter (fun r => negb (s_user_id r =? userId)%Z)).

(** DELETE FROM sessions WHERE expires_at < ? *)
Definition deleteSessionsBefore (now : Z) : DB -> DB :=
  withSessions (List.filter (fun r => negb (s_expires_at r <? now)%Z)).

End Sql.

(* ================================================================== *)
(** * Responses, the world of a request, and its monad                 *)
(* ================================================================== *)

(** What has been written to [res].  [r_body] is the value handed to
    [JSON.stringify] for [res.end]. *)
Record Response : Type := mkResponse {
  r_status : option Z;
  r_headers : list (string * string);
  r_body : option Json;
}.

Definition emptyResponse : Response :=
  {| r_status := None; r_headers := []; r_body := None |}.

(** [res.setHeader(name, value)] replaces a header of the same name. *)
Definition setHeader (name value : string) (r : Response) : Response :=
  {| r_status := r_status r;
     r_headers := List.filter (fun h => negb (String.eqb (fst h) name)) (r_headers r)
                  ++ [(name, value)];
     r_body := r_body r |}.

(** [res.writeHead(status, { 'Content-Type': 'application/json' })]. *)
Definition writeHeadJson (status : Z) (r : Response) : Response :=
  let r' := setHeader "Content-Type" "application/json" r in
  {| r_status := Some status; r_headers := r_headers r'; r_body := r_body r' |}.

(** [res.end(JSON.stringify(v))]. *)
Definition endJson (v : Json) (r : Response) : Response :=
  {| r_status := r_status r; r_headers := r_headers r; r_body := Some v |}.

(** What a request reads from outside the program: the clock, the text of
    CURRENT_TIMESTAMP, [crypto.randomBytes] and [process.env.NODE_ENV].
    [randomBytes n] is what the call [crypto.randomBytes(n)] made while the
    request is handled returns: a handler makes at most one call for a
    length (16 in [hashPassword], 32 in [createSession]).  An [Env] stands
    for one request; two draws that are to be independent are given two
    environments, or the bytes themselves as in [hashPassword]. *)
Record Env : Type := mkEnv {
  now : Z;
  current_timestamp : string;
  randomBytes : nat -> Buffer.t;
  NODE_ENV : option string;
}.

Record World : Type := mkWorld {
  db : DB;
  res : Response;
}.

(** A computation that reads and writes the database and the response and
    may throw.  A thrown exception keeps the writes made before it. *)
Definition M (A : Type) : Type := World -> Completion A * World.

Definition ret {A} (a : A) : M A := fun w => (Normal a, w).
Definition throw {A} (e : JsError) : M A := fun w => (Throw e, w).
Definition bind {A B} (m : M A) (k : A -> M B) : M B :=
  fun w => match m w with
           | (Normal a, w') => k a w'
           | (Throw e, w') => (Throw e, w')
           end.
Definition tryCatch {A} (m : M A) (handler : JsError -> M A) : M A :=
  fun w => match m w with
           | (Normal a, w') => (Normal a, w')
           | (Throw e, w') => handler e w'
           end.
Definition lift {A} (c : Completion A) : M A := fun w => (c, w).

Notation "'let!' x ':=' m 'in' k" := (bind m (fun x => k))
  (at level 10, x name, m at level 100, k at level 200).
Notation "'do!' m 'in' k" := (bind m (fun _ => k))
  (at level 10, m at level 100, k at level 200).

(** A statement run against the database. *)
Definition query {A} (q : DB -> A) : M A := fun w => (Normal (q (db w)), w).
Definition exec (f : DB -> DB) : M unit :=
  fun w => (Normal tt, {| db := f (db w); res := res w |}).
Definition execThrowing {A} (f : DB -> Completion A * DB) : M A :=
  fun w => let '(c, d) := f (db w) in (c, {| db := d; res := res w |}).
(** A write to the response. *)
Definition respond (f : Response -> Response) : M unit :=
  fun w => (Normal tt, {| db := db w; res := f (res w) |}).

(** [res.writeHead(status, ...); res.end(JSON.stringify(v))]. *)
Definition sendJson (status : Z) (v : Json) : M unit :=
  do! respond (writeHeadJson status) in respond (endJson v).

(* ================================================================== *)
(** * utils/db.js: the user functions                                  *)
(* ================================================================== *)

Definition sqlText (o : option string) : Json :=
  match o with Some s => JStr s | None => JNull end.
Definition sqlInteger (o : option Z) : Json :=
  match o with Some n => JNum n | None => JNull end.

(** The object [stmt.get] builds from a row of
    SELECT id, email, full_name, meta, created_at, last_login, is_active, role. *)
Definition publicColumns (u : UserRow) : JsObject :=
  [ ("id", JNum (u_id u)); ("email", JStr (u_email u));
    ("full_name", sqlText (u_full_name u)); ("meta", sqlText (u_meta u));
    ("created_at", JStr (u_created_at u)); ("last_login", sqlText (u_last_login u));
    ("is_active", sqlInteger (u_is_active u)); ("role", JStr (u_role u)) ].

(** The object [stmt.get] builds from a row of SELECT *. *)
Definition allColumns (u : UserRow) : JsObject :=
  [ ("id", JNum (u_id u)); ("email", JStr (u_email u));
    ("password_hash", JStr (u_password_hash u));
    ("full_name", sqlText (u_full_name u)); ("meta", sqlText (u_meta u));
    ("created_at", JStr (u_created_at u)); ("updated_at", JStr (u_updated_at u));
    ("last_login", sqlText (u_last_login u));
    ("is_active", sqlInteger (u_is_active u)); ("role", JStr (u_role u)) ].

Section Db.
Context `{Platform}.

(** [if (user && user.meta) { user.meta = JSON.parse(user.meta); }] on a
    row that was found. *)
Definition parseMeta (user : JsObject) : Completion JsObject :=
  match getProp user "meta" with
  | Some (JStr text) =>
      if Js.truthy text
      then match JSON_parse text with
           | Some v => Normal (setProp "meta" v user)
           | None => Throw SyntaxError
           end
      else Normal user
  | _ => Normal user
  end.

Definition loadUser (columns : UserRow -> JsObject) (row : option UserRow)
  : M (option JsObject) :=
  match row with
  | Some u => let! user := lift (parseMeta (columns u)) in ret (Some user)
  | None => ret None
  end.

(** [createUser(email, passwordHash, fullName, meta)], with [metaJson] the
    text of [JSON.stringify(meta)].  None is null. *)
Definition createUser (env : Env) (email passwordHash : string)
    (fullName : option string) (metaJson : string) : M (option Z) :=
  tryCatch
    (let! id := execThrowing
                  (Sql.insertUser email passwordHash fullName metaJson
                     (current_timestamp env)) in
     ret (Some id))
    (fun _ => ret None).

(** [getUserById(id)]; None is null or undefined. *)
Definition getUserById (id : Z) : M (option JsObject) :=
  tryCatch
    (let! row := query (Sql.selectUserById id) in loadUser publicColumns row)
    (fun _ => ret None).

(** [getUserByEmail(email)]. *)
Definition getUserByEmail (email : string) : M (option JsObject) :=
  tryCatch
    (let! row := query (Sql.selectUserByEmail email) in loadUser allColumns row)
    (fun _ => ret None).

(** [updateLastLogin(userId)]. *)
Definition updateLastLogin (env : Env) (userId : Z) : M bool :=
  tryCatch
    (do! exec (Sql.updateLastLogin userId (current_timestamp env)) in ret true)
    (fun _ => ret false).

End Db.

(* ================================================================== *)
(** * utils/session.js                                                 *)
(* ================================================================== *)

(** What [JSON.parse(body)] and the destructuring of its result give the
    handlers; None is a property that is absent (undefined).  [password] is
    any JSON value.  The model covers the bodies in which [email] and
    [fullName] are JSON strings or absent: they are the values the handlers
    bind to the statements. *)
Inductive Body : Type :=
  | Malformed                        (* JSON.parse throws, or the value is null *)
  | Fields (email : option string) (password : option Json) (fullName : option string).

Record Request : Type := mkRequest {
  req_method : string;
  req_pathname : string;             (* url.pathname *)
  req_cookie : option string;        (* req.headers.cookie; None is undefined *)
  req_body : Body;
}.

Definition COOKIE_NAME : string := "session_token".
(** 24 hours, in milliseconds. *)
Definition SESSION_DURATION : Z := 24 * 60 * 60 * 1000.

(** The [options] argument of [setSessionCookie]; None is a property that
    is absent (undefined), for which the destructuring takes the default.
    The model covers the options in which [maxAge] is a safe integer and
    [sameSite] and [path] are strings; [httpOnly] and [secure] are given by
    their truth value, which is all the template takes of them. *)
Record CookieOptions : Type := mkCookieOptions {
  maxAge : option Js.SafeInteger;
  httpOnly : option bool;
  secure : option bool;
  sameSite : option string;
  path : option string;
}.

(** [{}], the default of the [options] parameter. *)
Definition noOptions : CookieOptions :=
  {| maxAge := None; httpOnly := None; secure := None; sameSite := None; path := None |}.

(** The Set-Cookie value [setSessionCookie] builds. *)
Definition sessionCookie (env : Env) (token : string) (options : CookieOptions) : string :=
  let maxAge := default (Js.mkSafeInteger (SESSION_DURATION / 1000) I) (maxAge options) in
  let httpOnly := default true (httpOnly options) in
  let secure := default (bool_decide (NODE_ENV env = Some "production")) (secure options) in
  let sameSite := default "Lax" (sameSite options) in
  let path := default "/" (path options) in
  COOKIE_NAME ++ "=" ++ token ++ "; Max-Age=" ++ Js.numberToString maxAge ++ "; Path=" ++ path
    ++ "; SameSite=" ++ sameSite
    ++ (if httpOnly then "; HttpOnly" else "")
    ++ (if secure then "; Secure" else "").

(** [setSessionCookie(res, token, options)]. *)
Definition setSessionCookie (env : Env) (token : string) (options : CookieOptions) : M unit :=
  respond (setHeader "Set-Cookie" (sessionCookie env token options)).

(** [clearSessionCookie(res)]. *)
Definition clearSessionCookie : M unit :=
  respond (setHeader "Set-Cookie" (COOKIE_NAME ++ "=; Max-Age=0; Path=/")).

(** [cookies[k] = v] on an object created by [{}], for a string [v]: an own
    property is written, except under the key [__proto__], whose setter on
    Object.prototype ignores a value that is not an object. *)
Definition setProperty (cookies : gmap string string) (k v : string) : gmap string string :=
  if decide (k = "__proto__") then cookies else <[k := v]> cookies.

(** The callback [parseCookies] gives to [forEach]:
      const [name, ...rest] = cookie.split('=');
      cookies[name.trim()] = rest.join('=').trim();
    Destructuring an empty array would leave [name] undefined, on which
    [.trim()] throws a TypeError. *)
Definition parseCookie (cookies : gmap string string) (cookie : string)
  : Completion (gmap string string) :=
  match Js.split "=" cookie with
  | [] => Throw TypeError
  | name :: rest => Normal (setProperty cookies (Js.trim name) (Js.trim (Js.join "=" rest)))
  end.

(** [forEach]: the callback runs on the elements from left to right and an
    exception leaves the loop. *)
Fixpoint forEach {A S} (f : S -> A -> Completion S) (l : list A) (s : S) : Completion S :=
  match l with
  | [] => Normal s
  | x :: l' => cbind (f s x) (forEach f l')
  end.

(** [parseCookies(req)]. *)
Definition parseCookies (req : Request) : Completion (gmap string string) :=
  match req_cookie req with
  | None => Normal ∅
  | Some cookieHeader =>
      if Js.truthy cookieHeader
      then forEach parseCookie (Js.split ";" cookieHeader) ∅
      else Normal ∅
  end.

(** [getSessionToken(req)]: [cookies[COOKIE_NAME] || null]; None is null. *)
Definition getSessionToken (req : Request) : Completion (option string) :=
  cbind (parseCookies req) (fun cookies =>
    Normal match cookies !! COOKIE_NAME with
           | Some v => if Js.truthy v then Some v else None
           | None => None
           end).

(** The name and the value a segment of the Cookie header is stored under. *)
Definition segmentName (cookie : string) : string :=
  match Js.split "=" cookie with
  | name :: _ => Js.trim name
  | [] => EmptyString
  end.
Definition segmentValue (cookie : string) : string :=
  match Js.split "=" cookie with
  | _ :: rest => Js.trim (Js.join "=" rest)
  | [] => EmptyString
  end.

Section Session.
Context `{Platform}.

(** [createSession(userId, db)]. *)
Definition createSession (env : Env) (userId : Z) : M string :=
  let token := Buffer.toHex (randomBytes env 32) in
  let expiresAt := (now env + SESSION_DURATION)%Z in
  do! execThrowing (Sql.insertSession userId token expiresAt (current_timestamp env)) in
  ret token.

(** [validateSession(token, db)]; None is null. *)
Definition validateSession (env : Env) (token : string) : M (option JsObject) :=
  if negb (Js.truthy token) then ret None
  else
    let! session := query (Sql.selectLiveSession token (now env)) in
    match session with
    | None => ret None
    | Some session =>
        let! user := getUserById (s_user_id session) in
        match user with
        | None => ret None
        | Some user => if negb (truthyProp user "is_active") then ret None else ret (Some user)
        end
    end.

(** [deleteSession(token, db)]. *)
Definition deleteSession (token : string) : M unit :=
  exec (Sql.deleteSessionByToken token).

(** [deleteAllUserSessions(userId, db)]. *)
Definition deleteAllUserSessions (userId : Z) : M unit :=
  exec (Sql.deleteSessionsByUser userId).

(** [cleanupExpiredSessions(db)]. *)
Definition cleanupExpiredSessions (env : Env) : M unit :=
  exec (Sql.deleteSessionsBefore (now env)).

(** [getCurrentUser(req, db)]. *)
Definition getCurrentUser (env : Env) (req : Request) : M (option JsObject) :=
  let! token := lift (getSessionToken req) in
  match token with
  | None => ret None
  | Some token => validateSession env token
  end.

End Session.

(* ================================================================== *)
(** * utils/auth-api.js                                                *)
(* ================================================================== *)

Definition errorBody (message : string) : Json := JObj [("error", JStr message)].
Definition successBody (user : JsObject) : Json :=
  JObj [("success", JBool true); ("user", JObj user)].

(** [!s] for a property that is a string or undefined. *)
Definition missing (s : option string) : bool :=
  match s with
  | Some s => negb (Js.truthy s)
  | None => true
  end.

(** [!v] for a property that is any JSON value or undefined. *)
Definition falsy (v : option Json) : bool :=
  match v with
  | Some v => negb (truthy v)
  | None => true
  end.

(** The [password] argument of [crypto.pbkdf2Sync], which [hashPassword]
    and [verifyPassword] pass on as they get it: a string is taken; for a
    number, a boolean, null, an array or an object pbkdf2Sync throws a
    TypeError (ERR_INVALID_ARG_TYPE). *)
Definition passwordArgument (password : Json) : Completion string :=
  match password with
  | JStr s => Normal s
  | _ => Throw TypeError
  end.

(** [fullName || null]. *)
Definition orNull (s : option string) : option string :=
  match s with
  | Some s => if Js.truthy s then Some s else None
  | None => None
  end.

Section AuthApi.
Context `{Platform}.

(** [delete user.password_hash] on the result of a lookup: a TypeError when
    the lookup returned null or undefined. *)
Definition deletePasswordHash (user : option JsObject) : M JsObject :=
  match user with
  | Some user => ret (deleteProp "password_hash" user)
  | None => throw TypeError
  end.

(** Registration from the line "Hash password" on: what runs once the
    input was validated and the lookup by email found no user. *)
Definition registerUser (env : Env) (email password : string) (fullName : option string)
  : M unit :=
  let passwordHash := hashPassword (randomBytes env 16) password in
  let! userId := createUser env email passwordHash (orNull fullName) "{}" in
  match userId with
  | Some userId =>
      if (userId =? 0)%Z then sendJson 500 (errorBody "Failed to create user")
      else
        let! token := createSession env userId in
        do! setSessionCookie env token noOptions in
        let! user := getUserByEmail email in
        let! user := deletePasswordHash user in
        sendJson 200 (successBody user)
  | None => sendJson 500 (errorBody "Failed to create user")
  end.

(** POST /api/auth/register: the callback of [req.on('end')]. *)
Definition register (env : Env) (req : Request) : M unit :=
  tryCatch
    match req_body req with
    | Malformed => throw SyntaxError
    | Fields email password fullName =>
        if missing email || falsy password
        then sendJson 400 (errorBody "Email and password are required")
        else
          let email := default "" email in
          let password := default JNull password in
          let! existingUser := getUserByEmail email in
          match existingUser with
          | Some _ => sendJson 400 (errorBody "Email already registered")
          | None =>
              let! password := lift (passwordArgument password) in
              registerUser env email password fullName
          end
    end
    (fun _ => sendJson 400 (errorBody "Invalid request")).

(** Login from the line "Create session" on: the user was found, the
    password verified and the account is active. *)
Definition openSession (env : Env) (user : JsObject) : M unit :=
  match getProp user "id" with
  | Some (JNum id) =>
      let! token := createSession env id in
      do! setSessionCookie env token noOptions in
      let! _ := updateLastLogin env id in
      sendJson 200 (successBody (deleteProp "password_hash" user))
  | _ => throw TypeError
  end.

(** POST /api/auth/login: the callback of [req.on('end')]. *)
Definition login (env : Env) (req : Request) : M unit :=
  tryCatch
    match req_body req with
    | Malformed => throw SyntaxError
    | Fields email password _ =>
        if missing email || falsy password
        then sendJson 400 (errorBody "Email and password are required")
        else
          let email := default "" email in
          let password := default JNull password in
          let! user := getUserByEmail email in
          match user with
          | None => sendJson 401 (errorBody "Invalid credentials")
          | Some user =>
              let! isValid :=
                match getProp user "password_hash" with
                | Some (JStr storedHash) =>
                    let! password := lift (passwordArgument password) in
                    lift (verifyPassword password storedHash)
                | _ => throw TypeError
                end in
              if negb isValid then sendJson 401 (errorBody "Invalid credentials")
              else if negb (truthyProp user "is_active")
              then sendJson 403 (errorBody "Account is inactive")
              else openSession env user
          end
    end
    (fun _ => sendJson 400 (errorBody "Invalid request")).

(** POST /api/auth/logout. *)
Definition logout (req : Request) : M unit :=
  let! token := lift (getSessionToken req) in
  do! match token with
      | Some token => deleteSession token
      | None => ret tt
      end in
  do! clearSessionCookie in
  sendJson 200 (JObj [("success", JBool true)]).

(** GET /api/auth/me. *)
Definition me (env : Env) (req : Request) : M unit :=
  let! token := lift (getSessionToken req) in
  let! user := match token with
               | Some token => validateSession env token
               | None => ret None
               end in
  match user with
  | None => sendJson 401 (errorBody "Not authenticated")
  | Some user => sendJson 200 (JObj (deleteProp "password_hash" user))
  end.

(** [handleAuthRequest(req, res, url)], with the callbacks of the two
    asynchronous routes run to their end. *)
Definition handleAuthRequest (env : Env) (req : Request) : M bool :=
  if String.eqb (req_pathname req) "/api/auth/register" && String.eqb (req_method req) "POST"
  then do! register env req in ret true
  else if String.eqb (req_pathname req) "/api/auth/login" && String.eqb (req_method req) "POST"
  then do! login env req in ret true
  else if String.eqb (req_pathname req) "/api/auth/logout" && String.eqb (req_method req) "POST"
  then do! logout req in ret true
  else if String.eqb (req_pathname req) "/api/auth/me" && String.eqb (req_method req) "GET"
  then do! me env req in ret true
  else ret false.

End AuthApi.

(* ================================================================== *)
(** * utils/auth.js: generateToken                                     *)
(* ================================================================== *)

(** [generateToken(length = 32)]; None is an argument left out.  [env]
    gives the bytes this call draws. *)
Definition generateToken (env : Env) (length : option nat) : string :=
  Buffer.toHex (randomBytes env (default 32 length)).

(* ================================================================== *)
(** * utils/db.js: updateUser                                          *)
(* ================================================================== *)

(** The [data] argument of [updateUser].  None is a property that is absent
    (undefined); [full_name] and [is_active] can also be null (Some None).
    [data.meta] is given by the text [JSON.stringify(data.meta)] yields.
    The model covers the arguments in which [email], [full_name] and [role]
    are strings and [is_active] is a number. *)
Record UserData : Type := mkUserData {
  data_email : option string;
  data_full_name : option (option string);
  data_meta : option string;
  data_is_active : option (option Z);
  data_role : option string;
}.

(** One "column = ?" of the statement [updateUser] builds, with its value. *)
Inductive Assignment : Type :=
  | SetEmail (email : string)
  | SetFullName (fullName : option string)
  | SetMeta (metaJson : string)
  | SetIsActive (isActive : option Z)
  | SetRole (role : string).

(** The arrays [fields] and [values] as [updateUser] fills them: [email]
    and [role] when truthy, the others when not undefined. *)
Definition assignments (data : UserData) : list Assignment :=
  (match data_email data with
   | Some email => if Js.truthy email then [SetEmail email] else []
   | None => []
   end
   ++ match data_full_name data with Some v => [SetFullName v] | None => [] end
   ++ match data_meta data with Some v => [SetMeta v] | None => [] end
   ++ match data_is_active data with Some v => [SetIsActive v] | None => [] end
   ++ match data_role data with
      | Some role => if Js.truthy role then [SetRole role] else []
      | None => []
      end)%list.

Module SqlUpdate.

Definition assign (u : UserRow) (a : Assignment) : UserRow :=
  {| u_id := u_id u;
     u_email := match a with SetEmail v => v | _ => u_email u end;
     u_password_hash := u_password_hash u;
     u_full_name := match a with SetFullName v => v | _ => u_full_name u end;
     u_meta := match a with SetMeta v => Some v | _ => u_meta u end;
     u_created_at := u_created_at u;
     u_updated_at := u_updated_at u;
     u_last_login := u_last_login u;
     u_is_active := match a with SetIsActive v => v | _ => u_is_active u end;
     u_role := match a with SetRole v => v | _ => u_role u end |}.

(** The row after the SET clause and the trigger update_users_timestamp. *)
Definition updated (sets : list Assignment) (ts : string) (u : UserRow) : UserRow :=
  let u' := fold_left assign sets u in
  {| u_id := u_id u'; u_email := u_email u'; u_password_hash := u_password_hash u';
     u_full_name := u_full_name u'; u_meta := u_meta u';
     u_created_at := u_created_at u'; u_updated_at := ts;
     u_last_login := u_last_login u'; u_is_active := u_is_active u';
     u_role := u_role u' |}.

(** CHECK(role IN ('user', 'admin', 'moderator')) *)
Definition roleAllowed (role : string) : bool :=
  String.eqb role "user" || String.eqb role "admin" || String.eqb role "moderator".

Definition setsEmail (sets : list Assignment) : bool :=
  existsb (fun a => match a with SetEmail _ => true | _ => false end) sets.
Definition setsRole (sets : list Assignment) : bool :=
  existsb (fun a => match a with SetRole _ => true | _ => false end) sets.

Definition rowsWithEmail (email : string) (rows : list UserRow) : nat :=
  length (List.filter (fun u => String.eqb (u_email u) email) rows).

(** UPDATE users SET ... WHERE id = ?
    The rows with the id take the new values.  The statement fails, and
    changes nothing, when a row it writes breaks the CHECK on [role] or,
    having a new email, shares it with another row (UNIQUE). *)
Definition statement (id : Z) (sets : list Assignment) (ts : string) (d : DB)
  : Completion unit * DB :=
  let rows := map (fun u => if (u_id u =? id)%Z then updated sets ts u else u)
                (users d) in
  if setsRole sets
     && existsb (fun u => (u_id u =? id)%Z && negb (roleAllowed (u_role u))) rows
  then (Throw (SqliteError "CHECK constraint failed: role"), d)
  else if setsEmail sets
          && existsb (fun u => (u_id u =? id)%Z
                               && (1 <? rowsWithEmail (u_email u) rows)%nat) rows
  then (Throw (SqliteError "UNIQUE constraint failed: users.email"), d)
  else (Normal tt,
        {| users := rows; sessions := sessions d;
           users_seq := users_seq d; sessions_seq := sessions_seq d |}).

End SqlUpdate.

(** [updateUser(id, data)]. *)
Definition updateUser (env : Env) (id : Z) (data : UserData) : M bool :=
  tryCatch
    match assignments data with
    | [] => ret false
    | sets =>
        do! execThrowing (SqlUpdate.statement id sets (current_timestamp env)) in
        ret true
    end
    (fun _ => ret false).

(* ================================================================== *)
(** * A platform and inputs to run the definitions on                  *)
(* ================================================================== *)

Module Demo.

(** A stand-in for PBKDF2 that can be evaluated: the bytes of the password
    and of the salt, cut or padded with zeros to [keylen] bytes. *)
Definition kdf (password salt : string) (iterations : N) (keylen : nat) (digest : string)
  : Buffer.t :=
  take keylen (list_byte_of_string (password ++ salt) ++ repeat Byte.x00 keylen).

(** A stand-in for [JSON.parse] that reads the two texts the schema and
    [createUser] write into [meta]. *)
Definition parse (text : string) : option Json :=
  if String.eqb text "{}" then Some (JObj [])
  else if String.eqb text "null" then Some JNull
  else None.

#[global] Instance platform : Platform.
Proof.
  refine {| pbkdf2Sync := kdf; JSON_parse := parse |}.
  intros password salt iterations keylen digest.
  unfold kdf. rewrite length_take, length_app, repeat_length. lia.
Defined.

Definition env : Env :=
  {| now := 1000; current_timestamp := "2024-01-01 00:00:00";
     randomBytes := fun n => repeat Byte.x2a n; NODE_ENV := None |}.

Definition emptyDB : DB :=
  {| users := []; sessions := []; users_seq := 0; sessions_seq := 0 |}.

Definition POST (pathname : string) (body : Body) : Request :=
  {| req_method := "POST"; req_pathname := pathname; req_cookie := None; req_body := body |}.

Definition GET (pathname : string) (cookie : option string) : Request :=
  {| req_method := "GET"; req_pathname := pathname; req_cookie := cookie;
     req_body := Malformed |}.

Definition start (d : DB) : World := {| db := d; res := emptyResponse |}.

End Demo.

Module Sample.

Definition alice (active : Z) : UserRow :=
  {| u_id := 1; u_email := "a@b.com";
     u_password_hash := hashPassword (randomBytes Demo.env 16) "Secret123!";
     u_full_name := None; u_meta := Some "{}";
     u_created_at := "2024-01-01 00:00:00"; u_updated_at := "2024-01-01 00:00:00";
     u_last_login := None; u_is_active := Some active; u_role := "user" |}.

(** A token of an earlier session. *)
Definition token : string := Buffer.toHex (repeat Byte.x17 32).

Definition session (expires : Z) : SessionRow :=
  {| s_id := 1; s_user_id := 1; s_token := token; s_expires_at := expires;
     s_created_at := "2024-01-01 00:00:00" |}.

(** One user, active or not, and one session of theirs. *)
Definition store (active expires : Z) : DB :=
  {| users := [alice active]; sessions := [session expires];
     users_seq := 1; sessions_seq := 1 |}.

End Sample.

(** The world after the registration of a@b.com on an empty store, the
    cookie it was issued, and the world after a logout with that cookie. *)
Definition registered : World :=
  snd (handleAuthRequest Demo.env
         (Demo.POST "/api/auth/register" (Fields (Some "a@b.com") (Some (JStr "Secret123!")) None))
         (Demo.start Demo.emptyDB)).

Definition issuedCookie : string :=
  "session_token=" ++ Buffer.toHex (randomBytes Demo.env 32).

Definition afterLogout : World :=
  snd (handleAuthRequest Demo.env
         {| req_method := "POST"; req_pathname := "/api/auth/logout";
            req_cookie := Some issuedCookie; req_body := Malformed |}
         (Demo.start (db registered))).

(* ================================================================== *)
(** * The vocabulary of the properties                                 *)
(* ================================================================== *)

(** ** Cookies *)

(** The segment of a Cookie header that decides the value of a name: the
    last one stored under it. *)
Fixpoint lastNamed (name : string) (segments : list string) : option string :=
  match segments with
  | [] => None
  | seg :: segments' =>
      match lastNamed name segments' with
      | Some seg' => Some seg'
      | None => if String.eqb (segmentName seg) name then Some seg else None
      end
  end.

Definition storeSegment (cookies : gmap string string) (seg : string) : gmap string string :=
  setProperty cookies (segmentName seg) (segmentValue seg).

(** The value of a response header. *)
Definition getHeader (name : string) (r : Response) : option string :=
  snd <$> List.find (fun h => String.eqb (fst h) name) (r_headers r).



Definition withHttpOnly (flag : bool) : CookieOptions :=
  {| maxAge := None; httpOnly := Some flag; secure := None; sameSite := None; path := None |}.

(** The names of the attributes of a Set-Cookie value: the value is cut at
    every ';', the first segment is the cookie pair, and an attribute is
    named by what stands before its first '=', trimmed. *)
Definition attributeNames (header : string) : list string :=
  map segmentName (tail (Js.split ";" header)).

(** Options that bring an attribute in through the text of [path]. *)
Definition pathWithAttribute : CookieOptions :=
  {| maxAge := None; httpOnly := Some false; secure := None; sameSite := None;
     path := Some "/; HttpOnly" |}.

(** ** Stored hashes *)

(** A character that is not in a string. *)
Fixpoint absent (c : ascii) (s : string) : Prop :=
  match s with
  | EmptyString => True
  | String c' s' => c' <> c /\ absent c s'
  end.

(** The digest part of a stored hash: the second segment of
    [storedHash.split(':')], None when there is no ':' in it. *)
Definition digestPart (storedHash : string) : option string :=
  head (tail (Js.split ":" storedHash)).

Definition saltPart (storedHash : string) : string :=
  default EmptyString (head (Js.split ":" storedHash)).

(** The key [verifyPassword] derives for a password and a stored hash. *)
Definition derivedKey `{Platform} (password storedHash : string) : Buffer.t :=
  pbkdf2Sync password (saltPart storedHash) 100000 64 "sha512".

(** The 256 bytes. *)
Definition allBytes : list Byte.byte :=
  omap Byte.of_N (N.of_nat <$> seq 0 256).

(** The buffers of a given length, each once. *)
Fixpoint buffersOf (n : nat) : list Buffer.t :=
  match n with
  | O => [[]]
  | S n' => b ← allBytes; cons b <$> buffersOf n'
  end.

(** ** Users and sessions *)

(** What the two lookups return, as a function of the table. *)
Definition loaded `{Platform} (columns : UserRow -> JsObject) (row : option UserRow)
  : option JsObject :=
  match row with
  | Some u => match parseMeta (columns u) with
              | Normal user => Some user
              | Throw _ => None
              end
  | None => None
  end.

(** The active flag of a row: [is_active] is neither NULL nor 0. *)
Definition isActive (u : UserRow) : bool :=
  match u_is_active u with
  | Some n => negb (n =? 0)%Z
  | None => false
  end.

(** A session row answers for a token at an instant. *)
Definition liveFor (token : string) (instant : Z) (s : SessionRow) : Prop :=
  s_token s = token /\ (instant < s_expires_at s)%Z.

(** The [meta] of a row, when it is a text that is not empty, is JSON. *)
Definition metaReadable `{Platform} (u : UserRow) : Prop :=
  forall text, u_meta u = Some text -> text <> EmptyString -> JSON_parse text <> None.

(** What the schema and the writers of the two tables guarantee of a store:
    tokens are unique (UNIQUE) and not empty ([createSession] writes 64
    hexadecimal digits), user ids are unique (PRIMARY KEY), and [meta]
    holds JSON ([createUser] writes the text of JSON.stringify). *)
Record storeInvariant `{Platform} (d : DB) : Prop := {
  tokens_unique : List.NoDup (map s_token (sessions d));
  tokens_not_empty : forall s, In s (sessions d) -> s_token s <> EmptyString;
  ids_unique : List.NoDup (map u_id (users d));
  meta_is_json : forall u, In u (users d) -> metaReadable u;
}.

(** [validateSession] as a function of the store. *)
Definition validated `{Platform} (env : Env) (token : string) (d : DB)
  : option JsObject :=
  if Js.truthy token then
    match Sql.selectLiveSession token (now env) d with
    | Some s =>
        match loaded publicColumns (Sql.selectUserById (s_user_id s) d) with
        | Some user => if truthyProp user "is_active" then Some user else None
        | None => None
        end
    | None => None
    end
  else None.

(** [u] is the active owner of a session that answers for [token] at
    [instant]. *)
Definition authenticates (d : DB) (token : string) (instant : Z) (u : UserRow) : Prop :=
  exists s, In s (sessions d) /\ liveFor token instant s
            /\ In u (users d) /\ u_id u = s_user_id s /\ isActive u = true.

(** The ids of the users were issued by the AUTOINCREMENT counter. *)
Definition idsIssued (d : DB) : Prop :=
  forall u, In u (users d) -> (u_id u <= users_seq d)%Z.

Definition wellFormed `{Platform} (d : DB) : Prop := storeInvariant d /\ idsIssued d.

(** A store with one session that expires at a given instant. *)
Definition expiresAt (env : Env) (instant : Z) : SessionRow :=
  {| s_id := 1; s_user_id := 1; s_token := "2a"; s_expires_at := instant;
     s_created_at := current_timestamp env |}.

Definition withSession (r : SessionRow) : DB :=
  {| users := []; sessions := [r]; users_seq := 1; sessions_seq := 1 |}.

(** ** Requests *)

(** [post m w Q E]: run from [w], [m] returns a value and a world that
    satisfy [Q], or throws leaving a world that satisfies [E]. *)
Definition post {A} (m : M A) (w : World) (Q : A -> World -> Prop) (E : World -> Prop)
  : Prop :=
  match m w with
  | (Normal a, w') => Q a w'
  | (Throw _, w') => E w'
  end.

(** The response was written by one [sendJson] whose status and body
    satisfy [P]. *)
Definition sent (P : Z -> Json -> Prop) (w : World) : Prop :=
  exists status body,
    r_status (res w) = Some status /\ r_body (res w) = Some body /\ P status body.

(** The world keeps a well-formed store whether the computation returns or
    throws. *)
Definition keeps `{Platform} {A} (m : M A) : Prop :=
  forall w, wellFormed (db w) ->
    post m w (fun _ w' => wellFormed (db w')) (fun w' => wellFormed (db w')).

(** The routes of [handleAuthRequest]. *)
Inductive Route : Type := Register | Login | Logout | Me | Elsewhere.

Definition isRoute (pathname method : string) (req : Request) : bool :=
  String.eqb (req_pathname req) pathname && String.eqb (req_method req) method.

Definition routeOf (req : Request) : Route :=
  if isRoute "/api/auth/register" "POST" req then Register
  else if isRoute "/api/auth/login" "POST" req then Login
  else if isRoute "/api/auth/logout" "POST" req then Logout
  else if isRoute "/api/auth/me" "GET" req then Me
  else Elsewhere.

(** A success (status 200) carries a user object, inside [{success, user}]
    or as the body itself, and the object has no property [password_hash]. *)
Definition hidesPasswordHash (wrapped : bool) (status : Z) (body : Json) : Prop :=
  status = 200%Z ->
  exists user : JsObject,
    body = (if wrapped then successBody user else JObj user)
    /\ getProp user "password_hash" = None.

(** The world after [sendJson] of an error, the store untouched. *)
Definition invalidCredentials (w : World) : World :=
  {| db := db w;
     res := endJson (errorBody "Invalid credentials") (writeHeadJson 401 (res w)) |}.

Definition answered (status : Z) (message : string) (w : World) : World :=
  {| db := db w; res := endJson (errorBody message) (writeHeadJson status (res w)) |}.

(** ** Rows written by the endpoints *)

(** The row [createUser] inserts for a registration. *)
Definition registeredRow `{Platform} (env : Env) (d : DB) (email password : string)
    (fullName : option string) : UserRow :=
  {| u_id := users_seq d + 1; u_email := email;
     u_password_hash := hashPassword (randomBytes env 16) password;
     u_full_name := orNull fullName; u_meta := Some "{}";
     u_created_at := current_timestamp env; u_updated_at := current_timestamp env;
     u_last_login := None; u_is_active := Some 1%Z; u_role := "user" |}.

(** The row [createSession] inserts for a user. *)
Definition openedSession (env : Env) (d : DB) (userId : Z) : SessionRow :=
  {| s_id := sessions_seq d + 1; s_user_id := userId;
     s_token := Buffer.toHex (randomBytes env 32);
     s_expires_at := now env + SESSION_DURATION;
     s_created_at := current_timestamp env |}.

(** ** Characters *)

(** Every character of a string passes a test. *)
Fixpoint everyChar (p : ascii -> bool) (s : string) : Prop :=
  match s with
  | EmptyString => True
  | String c s' => p c = true /\ everyChar p s'
  end.

(** The digits [toString('hex')] writes: 0-9 and a-f. *)
Definition isLowerHexDigit (c : ascii) : bool :=
  let n := N_of_ascii c in
  (((48 <=? n) && (n <=? 57)) || ((97 <=? n) && (n <=? 102)))%N.

(** The characters that end a cookie pair or are trimmed from it. *)
Definition isCookieDelimiter (c : ascii) : bool :=
  Ascii.eqb c ";" || Ascii.eqb c "=" || Js.isWhiteSpace c.

(** ** Arguments of [updateUser] *)

(** [{}]. *)
Definition noData : UserData :=
  {| data_email := None; data_full_name := None; data_meta := None;
     data_is_active := None; data_role := None |}.

(** [{is_active: flag}]. *)
Definition onlyActive (flag : option Z) : UserData :=
  {| data_email := None; data_full_name := None; data_meta := None;
     data_is_active := Some flag; data_role := None |}.

(** [{email}]. *)
Definition onlyEmail (email : string) : UserData :=
  {| data_email := Some email; data_full_name := None; data_meta := None;
     data_is_active := None; data_role := None |}.

(** The row a user row becomes when [updateUser] writes [data] to it. *)
Definition rewritten (env : Env) (data : UserData) (u : UserRow) : UserRow :=
  SqlUpdate.updated (assignments data) (current_timestamp env) u.

(* ================================================================== *)
(** * Properties of the string primitives                              *)
(* ================================================================== *)

Lemma split_nonempty sep s : Js.split sep s <> [].
Proof.
  destruct s as [|c s]; simpl; [discriminate|].
  destruct (Ascii.eqb c sep); [discriminate|].
  destruct (Js.split sep s); discriminate.
Qed.

Lemma truthy_false s : Js.truthy s = false <-> s = EmptyString.
Proof.
  unfold Js.truthy. destruct s; simpl; split; intros; congruence.
Qed.

(* ================================================================== *)
(** * The cookie adapter, reading side                                 *)
(* ================================================================== *)

Lemma parseCookie_normal cookies seg :
  parseCookie cookies seg = Normal (storeSegment cookies seg).
Proof.
  unfold parseCookie, storeSegment, segmentName, segmentValue.
  pose proof (split_nonempty "=" seg) as Hne.
  destruct (Js.split "=" seg); [contradiction|reflexivity].
Qed.

Lemma forEach_parseCookie segments : forall cookies,
  forEach parseCookie segments cookies = Normal (fold_left storeSegment segments cookies).
Proof.
  induction segments as [|seg segments IH]; intros cookies; simpl; [reflexivity|].
  rewrite parseCookie_normal. simpl. apply IH.
Qed.

Lemma lookup_storeSegment (cookies : gmap string string) seg k :
  k <> "__proto__" ->
  storeSegment cookies seg !! k
  = if String.eqb (segmentName seg) k then Some (segmentValue seg) else cookies !! k.
Proof.
  intros Hk. unfold storeSegment, setProperty.
  destruct (String.eqb_spec (segmentName seg) k) as [->|Hne].
  - rewrite decide_False by assumption. apply lookup_insert_eq.
  - case_decide; [reflexivity|]. apply lookup_insert_ne. assumption.
Qed.

Lemma lookup_fold_storeSegment segments : forall (cookies : gmap string string) k,
  k <> "__proto__" ->
  fold_left storeSegment segments cookies !! k
  = match lastNamed k segments with
    | Some seg => Some (segmentValue seg)
    | None => cookies !! k
    end.
Proof.
  induction segments as [|seg segments IH]; intros cookies k Hk; simpl; [reflexivity|].
  rewrite IH by assumption.
  destruct (lastNamed k segments); [reflexivity|].
  rewrite lookup_storeSegment by assumption.
  destruct (String.eqb (segmentName seg) k); reflexivity.
Qed.

Lemma lastNamed_none name segments :
  (forall seg, In seg segments -> segmentName seg <> name) ->
  lastNamed name segments = None.
Proof.
  induction segments as [|seg segments IH]; intros Hall; simpl; [reflexivity|].
  rewrite IH by (intros; apply Hall; right; assumption).
  destruct (String.eqb_spec (segmentName seg) name) as [Heq|]; [|reflexivity].
  exfalso. apply (Hall seg); [left; reflexivity|assumption].
Qed.

(** The token [getSessionToken] returns, read off the header. *)
Lemma getSessionToken_header req h :
  req_cookie req = Some h ->
  getSessionToken req
  = Normal match lastNamed COOKIE_NAME (Js.split ";" h) with
           | Some seg => if Js.truthy (segmentValue seg) then Some (segmentValue seg) else None
           | None => None
           end.
Proof.
  intros Hh. unfold getSessionToken, parseCookies. rewrite Hh.
  destruct (Js.truthy h) eqn:Hth.
  - rewrite forEach_parseCookie. simpl.
    rewrite lookup_fold_storeSegment by discriminate.
    destruct (lastNamed COOKIE_NAME (Js.split ";" h)); reflexivity.
  - apply truthy_false in Hth. subst h. reflexivity.
Qed.

Lemma getSessionToken_no_header req :
  req_cookie req = None -> getSessionToken req = Normal None.
Proof.
  intros Hh. unfold getSessionToken, parseCookies. rewrite Hh. reflexivity.
Qed.

Lemma getSessionToken_returns req : returns (getSessionToken req).
Proof.
  destruct (req_cookie req) as [h|] eqn:Hh.
  - rewrite (getSessionToken_header req h Hh). eexists. reflexivity.
  - rewrite getSessionToken_no_header by assumption. eexists. reflexivity.
Qed.

Example getSessionToken_abc123 :
  getSessionToken (Demo.GET "/api/auth/me" (Some "foo=bar; session_token=abc123; baz=qux"))
  = Normal (Some "abc123").
Proof. vm_compute. reflexivity. Qed.

Example getSessionToken_stray_equals :
  getSessionToken (Demo.GET "/" (Some ";;=; a==b ;session_token = x=y= ;=")) = Normal (Some "x=y=").
Proof. vm_compute. reflexivity. Qed.

Example getSessionToken_last_wins :
  getSessionToken (Demo.GET "/" (Some "session_token=a; session_token=b")) = Normal (Some "b").
Proof. vm_compute. reflexivity. Qed.

(** C9.  [getSessionToken] returns "abc123" on the Cookie header
    "foo=bar; session_token=abc123; baz=qux"; it returns null on a header
    none of whose segments is named session_token; it returns null when the
    request has no Cookie header; and on every request, whatever its header
    holds, it returns and does not throw. *)
Theorem getSessionToken_extract :
  getSessionToken (Demo.GET "/api/auth/me" (Some "foo=bar; session_token=abc123; baz=qux"))
    = Normal (Some "abc123")
  /\ (forall req h,
        req_cookie req = Some h ->
        (forall seg, In seg (Js.split ";" h) -> segmentName seg <> COOKIE_NAME) ->
        getSessionToken req = Normal None)
  /\ (forall req, req_cookie req = None -> getSessionToken req = Normal None)
  /\ (forall req, returns (getSessionToken req)).
Proof.
  split; [vm_compute; reflexivity|].
  split.
  { intros req h Hh Hnone. rewrite (getSessionToken_header req h Hh).
    rewrite lastNamed_none by assumption. reflexivity. }
  split; [apply getSessionToken_no_header|apply getSessionToken_returns].
Qed.

(** C10.  When the session_token cookie of the Cookie header has an empty
    value (the last segment named session_token carries nothing but white
    space after its first '='), [getSessionToken] returns null, as it does
    for a request without the cookie. *)
Theorem getSessionToken_empty_value req h seg :
  req_cookie req = Some h ->
  lastNamed COOKIE_NAME (Js.split ";" h) = Some seg ->
  segmentValue seg = EmptyString ->
  getSessionToken req = Normal None.
Proof.
  intros Hh Hseg Hval. rewrite (getSessionToken_header req h Hh), Hseg, Hval. reflexivity.
Qed.

Lemma getSessionToken_empty_value_witness :
  getSessionToken (Demo.GET "/api/auth/me" (Some "session_token=")) = Normal None.
Proof.
  apply (getSessionToken_empty_value _ "session_token=" "session_token=");
    vm_compute; reflexivity.
Defined.

Example getSessionToken_blank_value :
  getSessionToken (Demo.GET "/" (Some "a=b; session_token=  ; c=d")) = Normal None.
Proof. vm_compute. reflexivity. Qed.

(* ================================================================== *)
(** * The 'hex' encoding                                               *)
(* ================================================================== *)

Lemma fromHex_toHex_cons b s :
  Buffer.fromHex (Buffer.toHex [b] ++ s) = b :: Buffer.fromHex s.
Proof. destruct b; reflexivity. Qed.

Lemma toHex_cons b buf : Buffer.toHex (b :: buf) = Buffer.toHex [b] ++ Buffer.toHex buf.
Proof. reflexivity. Qed.

(** Decoding what [toString('hex')] wrote gives the bytes back. *)
Lemma fromHex_toHex buf : Buffer.fromHex (Buffer.toHex buf) = buf.
Proof.
  induction buf as [|b buf IH]; [reflexivity|].
  rewrite toHex_cons, fromHex_toHex_cons, IH. reflexivity.
Qed.

Lemma toHex_no_colon buf : absent ":" (Buffer.toHex buf).
Proof.
  induction buf as [|b buf IH]; simpl; [exact I|].
  repeat split; try assumption; destruct b; discriminate.
Qed.

Lemma split_absent sep s : absent sep s -> Js.split sep s = [s].
Proof.
  induction s as [|c s IH]; simpl; [reflexivity|].
  intros [Hc Hs]. rewrite (IH Hs).
  destruct (Ascii.eqb_spec c sep); [contradiction|reflexivity].
Qed.

Lemma split_at_first sep a b :
  absent sep a -> Js.split sep (a ++ String sep b) = a :: Js.split sep b.
Proof.
  induction a as [|c a IH]; simpl.
  - intros _. rewrite Ascii.eqb_refl. reflexivity.
  - intros [Hc Ha]. rewrite (IH Ha).
    destruct (Ascii.eqb_spec c sep); [contradiction|reflexivity].
Qed.

Lemma timingSafeEqual_same_length (a b : Buffer.t) :
  length a = length b -> Buffer.timingSafeEqual a b = Normal (bool_decide (a = b)).
Proof.
  intros Hlen. unfold Buffer.timingSafeEqual. rewrite Hlen, Nat.eqb_refl. reflexivity.
Qed.

Lemma timingSafeEqual_other_length (a b : Buffer.t) :
  length a <> length b -> Buffer.timingSafeEqual a b = Throw RangeError.
Proof.
  intros Hlen. unfold Buffer.timingSafeEqual.
  destruct (Nat.eqb_spec (length a) (length b)); [contradiction|reflexivity].
Qed.

(* ================================================================== *)
(** * The credential hasher                                            *)
(* ================================================================== *)

Section Hasher.
Context `{Platform}.

Lemma verifyPassword_unfold password storedHash :
  verifyPassword password storedHash
  = match digestPart storedHash with
    | None => Throw TypeError
    | Some digest =>
        Buffer.timingSafeEqual (Buffer.fromHex digest) (derivedKey password storedHash)
    end.
Proof.
  unfold verifyPassword, digestPart, derivedKey, saltPart.
  pose proof (split_nonempty ":" storedHash) as Hne.
  destruct (Js.split ":" storedHash) as [|salt more]; [contradiction|].
  simpl. destruct more as [|digest more]; simpl; [reflexivity|].
  rewrite fromHex_toHex. reflexivity.
Qed.

Lemma split_hashPassword rnd password :
  Js.split ":" (hashPassword rnd password)
  = [ Buffer.toHex rnd;
      Buffer.toHex (pbkdf2Sync password (Buffer.toHex rnd) 100000 64 "sha512") ].
Proof.
  unfold hashPassword. cbv zeta.
  change (Buffer.toHex rnd ++ ":" ++ ?h) with (Buffer.toHex rnd ++ String ":" h).
  rewrite split_at_first by apply toHex_no_colon.
  rewrite split_absent by apply toHex_no_colon. reflexivity.
Qed.

(** What [verifyPassword] answers on a hash [hashPassword] made. *)
Lemma verifyPassword_hashPassword rnd p p2 :
  verifyPassword p (hashPassword rnd p2)
  = Normal (bool_decide (pbkdf2Sync p2 (Buffer.toHex rnd) 100000 64 "sha512"
                         = pbkdf2Sync p (Buffer.toHex rnd) 100000 64 "sha512")).
Proof.
  rewrite verifyPassword_unfold.
  unfold digestPart, derivedKey, saltPart. rewrite split_hashPassword. simpl.
  rewrite fromHex_toHex. apply timingSafeEqual_same_length.
  rewrite !pbkdf2Sync_length. reflexivity.
Qed.

End Hasher.

(** ** Malformed stored hashes *)

Lemma digestPart_no_separator storedHash :
  absent ":" storedHash -> digestPart storedHash = None.
Proof.
  intros Habs. unfold digestPart. rewrite split_absent by assumption. reflexivity.
Qed.

Example verifyPassword_no_separator :
  verifyPassword "Secret123!" "2a2a2a2a2a2a2a2a2a2a2a2a2a2a2a2a" = Throw TypeError.
Proof. vm_compute. reflexivity. Qed.

Example verifyPassword_short_digest :
  verifyPassword "Secret123!" "2a2a:5365" = Throw RangeError.
Proof. vm_compute. reflexivity. Qed.

Example verifyPassword_digest_not_hex :
  verifyPassword "Secret123!" "2a2a:this is not hexadecimal" = Throw RangeError.
Proof. vm_compute. reflexivity. Qed.

(** A digest followed by characters that are not hexadecimal decodes to the
    digest: the stored hash is malformed and the password verifies. *)
Example verifyPassword_trailing_garbage :
  verifyPassword "Secret123!" (hashPassword (randomBytes Demo.env 16) "Secret123!" ++ "zz")
  = Normal true.
Proof. vm_compute. reflexivity. Qed.

(** C1, as the code has it.  [verifyPassword] has no handler of its own:
    on a stored hash without ':' it throws a TypeError; on one whose digest
    part does not decode to exactly 64 bytes (a digest that is too short or
    too long, or that stops being hexadecimal early) it throws a RangeError;
    on any other stored hash it returns, without throwing, whether the
    decoded digest is the key derived from the password, which is false for
    every 64-byte digest that differs from that key. *)
Theorem verifyPassword_malformed `{Platform} (password storedHash : string) :
  (digestPart storedHash = None ->
     verifyPassword password storedHash = Throw TypeError)
  /\ (forall digest, digestPart storedHash = Some digest ->
        length (Buffer.fromHex digest) <> 64 ->
        verifyPassword password storedHash = Throw RangeError)
  /\ (forall digest, digestPart storedHash = Some digest ->
        length (Buffer.fromHex digest) = 64 ->
        verifyPassword password storedHash
        = Normal (bool_decide (Buffer.fromHex digest = derivedKey password storedHash))).
Proof.
  rewrite verifyPassword_unfold. repeat split.
  - intros ->. reflexivity.
  - intros digest -> Hlen. apply timingSafeEqual_other_length.
    unfold derivedKey. rewrite pbkdf2Sync_length. assumption.
  - intros digest -> Hlen. apply timingSafeEqual_same_length.
    unfold derivedKey. rewrite pbkdf2Sync_length. assumption.
Qed.

(** C1 fails as stated: on a stored hash with no ':' separator the call
    throws, and on one whose digest is not hexadecimal it throws too. *)
Lemma verifyPassword_throws_on_malformed :
  verifyPassword "Secret123!" "2a2a2a2a2a2a2a2a2a2a2a2a2a2a2a2a" = Throw TypeError
  /\ verifyPassword "Secret123!" "2a2a:this is not hexadecimal" = Throw RangeError
  /\ verifyPassword "Secret123!" "2a2a:5365" = Throw RangeError.
Proof. repeat split; vm_compute; reflexivity. Qed.

(** ** Hashing, then verifying *)

Lemma elem_of_allBytes b : b ∈ allBytes.
Proof.
  unfold allBytes. apply list_elem_of_omap. exists (Byte.to_N b). split.
  - apply list_elem_of_fmap. exists (N.to_nat (Byte.to_N b)). split.
    + symmetry. apply N2Nat.id.
    + apply elem_of_seq. pose proof (Byte.to_N_bounded b). lia.
  - apply Byte.of_to_N.
Qed.

Lemma NoDup_allBytes : NoDup allBytes.
Proof. apply (bool_decide_unpack _). vm_compute. exact I. Qed.

Lemma length_allBytes : length allBytes = 256.
Proof. reflexivity. Qed.

Lemma length_bind_uniform {A B} (f : A -> list B) (l : list A) m :
  (forall x, length (f x) = m) -> length (l ≫= f) = length l * m.
Proof.
  intros Hf. induction l as [|x l IH]; [reflexivity|].
  change ((x :: l) ≫= f) with (f x ++ (l ≫= f))%list.
  rewrite length_app, Hf, IH. reflexivity.
Qed.

(** The buffers of a length: all of them, [256 ^ n] many, none twice. *)
Lemma elem_of_buffersOf n : forall buf : Buffer.t, length buf = n <-> buf ∈ buffersOf n.
Proof.
  induction n as [|n IH]; intros buf.
  - simpl. rewrite list_elem_of_singleton. destruct buf; simpl; split; intros; congruence.
  - change (buffersOf (S n)) with (allBytes ≫= (fun b => cons b <$> buffersOf n)).
    rewrite list_elem_of_bind. split.
    + destruct buf as [|b buf]; [discriminate|]. intros [= Hlen].
      exists b. split; [|apply elem_of_allBytes].
      apply list_elem_of_fmap. exists buf. split; [reflexivity|]. apply IH. assumption.
    + intros (b & Hin & _). apply list_elem_of_fmap in Hin as (buf' & -> & Hin).
      apply IH in Hin. simpl. congruence.
Qed.

Lemma length_buffersOf n : length (buffersOf n) = 256 ^ n.
Proof.
  induction n as [|n IH]; [reflexivity|].
  change (buffersOf (S n)) with (allBytes ≫= (fun b => cons b <$> buffersOf n)).
  rewrite (length_bind_uniform _ _ (256 ^ n)), length_allBytes; [reflexivity|].
  intros b. rewrite length_fmap. assumption.
Qed.

Lemma NoDup_buffersOf n : NoDup (buffersOf n).
Proof.
  induction n as [|n IH]; [apply NoDup_singleton|].
  change (buffersOf (S n)) with (allBytes ≫= (fun b => cons b <$> buffersOf n)).
  apply NoDup_bind; [| |apply NoDup_allBytes].
  - intros b1 b2 buf _ _ H1 H2.
    apply list_elem_of_fmap in H1 as (t1 & -> & _).
    apply list_elem_of_fmap in H2 as (t2 & [= -> _] & _). reflexivity.
  - intros b _. apply NoDup_fmap_2; [|assumption]. intros t1 t2 [= ->]. reflexivity.
Qed.

Lemma length_string_of_list_byte buf : String.length (string_of_list_byte buf) = length buf.
Proof.
  unfold string_of_list_byte.
  induction buf as [|b buf IH]; simpl; [reflexivity|]. rewrite IH. reflexivity.
Qed.

(** A function from the buffers of a length into those of a smaller length
    takes some value twice. *)
Lemma buffers_pigeonhole (key : Buffer.t -> Buffer.t) (n m : nat) :
  n < m -> (forall buf, length (key buf) = n) ->
  exists b1 b2, b1 <> b2 /\ length b1 = m /\ length b2 = m /\ key b1 = key b2.
Proof.
  intros Hnm Hkey.
  destruct (list_pigeonhole (key <$> buffersOf m) (buffersOf n))
    as (i & j & x & Hij & Hi & Hj).
  - intros k Hk. apply list_elem_of_fmap in Hk as (buf & -> & _).
    apply elem_of_buffersOf, Hkey.
  - rewrite length_fmap, !length_buffersOf. apply Nat.pow_lt_mono_r; lia.
  - apply list_lookup_fmap_Some in Hi as (b1 & -> & H1).
    apply list_lookup_fmap_Some in Hj as (b2 & Heq & H2).
    exists b1, b2. split; [|split; [|split]].
    + intros ->. pose proof (NoDup_lookup _ i j b2 (NoDup_buffersOf m) H1 H2). lia.
    + apply elem_of_buffersOf. eapply list_elem_of_lookup_2. eassumption.
    + apply elem_of_buffersOf. eapply list_elem_of_lookup_2. eassumption.
    + assumption.
Qed.

(** Whatever function of 64 bytes derives the keys, two different passwords
    of 65 characters share a key under any given salt. *)
Lemma derived_keys_collide `{Platform} (salt : string) :
  exists p p2, p <> p2 /\ String.length p = 65 /\ String.length p2 = 65
    /\ pbkdf2Sync p salt 100000 64 "sha512" = pbkdf2Sync p2 salt 100000 64 "sha512".
Proof.
  destruct (buffers_pigeonhole
              (fun buf => pbkdf2Sync (string_of_list_byte buf) salt 100000 64 "sha512")
              64 65) as (b1 & b2 & Hne & Hl1 & Hl2 & Hkey).
  - lia.
  - intros buf. apply pbkdf2Sync_length.
  - exists (string_of_list_byte b1), (string_of_list_byte b2).
    rewrite !length_string_of_list_byte.
    split; [|split; [|split]]; try assumption.
    intros Heq. apply Hne.
    rewrite <- (list_byte_of_string_of_list_byte b1),
            <- (list_byte_of_string_of_list_byte b2), Heq. reflexivity.
Qed.

(** C2, as the code has it.  For every password [p] and every salt,
    [verifyPassword p (hashPassword p)] returns true; and for passwords
    [p] and [p2], [verifyPassword p (hashPassword p2)] returns, without
    throwing, false exactly when the keys derived from [p] and from [p2]
    under the salt of the hash differ, and true when they are equal. *)
Theorem verifyPassword_hashPassword_keys `{Platform} (rnd : Buffer.t) (p p2 : string) :
  let salt := Buffer.toHex rnd in
  verifyPassword p (hashPassword rnd p) = Normal true
  /\ (verifyPassword p (hashPassword rnd p2) = Normal false
      <-> pbkdf2Sync p2 salt 100000 64 "sha512" <> pbkdf2Sync p salt 100000 64 "sha512")
  /\ (verifyPassword p (hashPassword rnd p2) = Normal true
      <-> pbkdf2Sync p2 salt 100000 64 "sha512" = pbkdf2Sync p salt 100000 64 "sha512").
Proof.
  cbv zeta. rewrite !verifyPassword_hashPassword. repeat split.
  - rewrite bool_decide_eq_true_2; reflexivity.
  - intros [= Hd]. apply bool_decide_eq_false in Hd. assumption.
  - intros Hne. rewrite bool_decide_eq_false_2; [reflexivity|assumption].
  - intros [= Hd]. apply bool_decide_eq_true in Hd. assumption.
  - intros Heq. rewrite bool_decide_eq_true_2; [reflexivity|assumption].
Qed.

(** C2 fails as stated: no key derivation with a 64-byte result makes
    [verifyPassword p (hashPassword p2)] false for all distinct [p], [p2],
    not even among the passwords of 65 characters; under every salt some
    two distinct passwords verify against each other's hash. *)
Lemma verifyPassword_distinct_passwords_collide :
  ~ exists P : Platform, forall (rnd : Buffer.t) (p p2 : string),
      String.length p = 65 -> String.length p2 = 65 -> p <> p2 ->
      @verifyPassword P p (@hashPassword P rnd p2) = Normal false.
Proof.
  intros [P Hclaim].
  destruct (@derived_keys_collide P (Buffer.toHex []))
    as (p & p2 & Hne & Hp & Hp2 & Hkey).
  specialize (Hclaim [] p p2 Hp Hp2 Hne).
  rewrite verifyPassword_hashPassword in Hclaim.
  rewrite bool_decide_eq_true_2 in Hclaim; [discriminate|]. symmetry. exact Hkey.
Qed.

(* ================================================================== *)
(** * The monad of a request                                           *)
(* ================================================================== *)

Lemma sendJson_run status v w :
  sendJson status v w
  = (Normal tt, {| db := db w; res := endJson v (writeHeadJson status (res w)) |}).
Proof. reflexivity. Qed.

Lemma find_replaced name value (headers : list (string * string)) :
  List.find (fun h => String.eqb (fst h) name)
    (List.filter (fun h => negb (String.eqb (fst h) name)) headers ++ [(name, value)])
  = Some (name, value).
Proof.
  induction headers as [|[n v] headers IH]; simpl.
  - rewrite String.eqb_refl. reflexivity.
  - destruct (String.eqb n name) eqn:Hn; simpl; [assumption|].
    rewrite Hn. assumption.
Qed.

Lemma getHeader_setHeader name value r :
  getHeader name (setHeader name value r) = Some value.
Proof. unfold getHeader, setHeader. simpl. rewrite find_replaced. reflexivity. Qed.

(* ================================================================== *)
(** * The cookie adapter, writing side                                 *)
(* ================================================================== *)

Lemma append_cons c (a b : string) : String c a ++ b = String c (a ++ b).
Proof. reflexivity. Qed.

Lemma append_empty (b : string) : EmptyString ++ b = b.
Proof. reflexivity. Qed.

Lemma append_assoc (a b c : string) : (a ++ b) ++ c = a ++ (b ++ c).
Proof.
  induction a as [|x a IH]; [reflexivity|].
  rewrite !append_cons, IH. reflexivity.
Qed.






Example setSessionCookie_default_header :
  getHeader "Set-Cookie"
    (res (snd (setSessionCookie Demo.env "abc123" noOptions (Demo.start Demo.emptyDB))))
  = Some "session_token=abc123; Max-Age=86400; Path=/; SameSite=Lax; HttpOnly".
Proof. vm_compute. reflexivity. Qed.


Lemma absent_append c a b : absent c a -> absent c b -> absent c (a ++ b).
Proof.
  intros Ha Hb. induction a as [|x a IH]; [exact Hb|].
  rewrite append_cons. destruct Ha as [Hx Ha]. split; [exact Hx|auto].
Qed.








(** The path is written as it is given: a path that holds "; HttpOnly"
    puts that text in the header, whatever [httpOnly] says. *)
Example setSessionCookie_path_verbatim :
  sessionCookie Demo.env "abc123" pathWithAttribute
  = "session_token=abc123; Max-Age=86400; Path=/; HttpOnly; SameSite=Lax"
  /\ attributeNames (sessionCookie Demo.env "abc123" pathWithAttribute)
     = ["Max-Age"; "Path"; "HttpOnly"; "SameSite"].
Proof. split; vm_compute; reflexivity. Qed.

(** The attributes of the default header and of the one without HttpOnly. *)
Example setSessionCookie_attributes :
  attributeNames (sessionCookie Demo.env "abc123" noOptions)
  = ["Max-Age"; "Path"; "SameSite"; "HttpOnly"]
  /\ attributeNames (sessionCookie Demo.env "abc123" (withHttpOnly false))
     = ["Max-Age"; "Path"; "SameSite"].
Proof. split; vm_compute; reflexivity. Qed.

(* ================================================================== *)
(** * The session store                                                *)
(* ================================================================== *)

(** C7, as the code has it.  [cleanupExpiredSessions] deletes the session
    rows whose [expires_at] is strictly earlier than now and no other row:
    a row stays exactly when now <= expires_at, the row that expires at
    this very instant included.  It leaves the users alone and does not
    throw. *)
Theorem cleanupExpiredSessions_strict `{Platform} (env : Env) (w : World) :
  exists w',
    cleanupExpiredSessions env w = (Normal tt, w')
    /\ res w' = res w
    /\ users (db w') = users (db w)
    /\ forall r, In r (sessions (db w'))
                 <-> In r (sessions (db w)) /\ (now env <= s_expires_at r)%Z.
Proof.
  eexists. split; [reflexivity|]. simpl.
  split; [reflexivity|]. split; [reflexivity|].
  intros r. rewrite filter_In, negb_true_iff, Z.ltb_ge. reflexivity.
Qed.

(** C7 fails as stated: a row whose [expires_at] equals now survives the
    sweep. *)
Lemma cleanupExpiredSessions_keeps_boundary :
  let row := expiresAt Demo.env (now Demo.env) in
  s_expires_at row = now Demo.env
  /\ sessions (db (snd (cleanupExpiredSessions Demo.env (Demo.start (withSession row)))))
     = [row].
Proof. split; reflexivity. Qed.

(** ** Objects *)

Lemma getProp_deleteProp k o : getProp (deleteProp k o) k = None.
Proof.
  induction o as [|[k' v] o IH]; simpl; [reflexivity|].
  destruct (String.eqb k' k) eqn:Hk; simpl; [assumption|].
  rewrite Hk. assumption.
Qed.

Lemma getProp_setProp_ne k k' v o :
  k <> k' -> getProp (setProp k v o) k' = getProp o k'.
Proof.
  intros Hne. induction o as [|[k0 v0] o IH]; simpl.
  - destruct (String.eqb_spec k k'); [contradiction|reflexivity].
  - destruct (String.eqb_spec k0 k) as [->|Hk0]; simpl.
    + destruct (String.eqb_spec k k'); [contradiction|reflexivity].
    + rewrite IH. reflexivity.
Qed.

(** ** Reading a user *)

Section Users.
Context `{Platform}.

Lemma loadUser_caught columns row w :
  tryCatch (loadUser columns row) (fun _ => ret None) w = (Normal (loaded columns row), w).
Proof.
  unfold tryCatch, loadUser, loaded, bind, lift, ret.
  destruct row as [u|]; [|reflexivity].
  destruct (parseMeta (columns u)); reflexivity.
Qed.

Lemma getUserById_run id w :
  getUserById id w = (Normal (loaded publicColumns (Sql.selectUserById id (db w))), w).
Proof.
  unfold getUserById, tryCatch, bind, query.
  pose proof (loadUser_caught publicColumns (Sql.selectUserById id (db w)) w) as Hrun.
  unfold tryCatch in Hrun.
  destruct (loadUser publicColumns (Sql.selectUserById id (db w)) w) as [[a|e] w'];
    exact Hrun.
Qed.

Lemma getUserByEmail_run email w :
  getUserByEmail email w
  = (Normal (loaded allColumns (Sql.selectUserByEmail email (db w))), w).
Proof.
  unfold getUserByEmail, tryCatch, bind, query.
  pose proof (loadUser_caught allColumns (Sql.selectUserByEmail email (db w)) w) as Hrun.
  unfold tryCatch in Hrun.
  destruct (loadUser allColumns (Sql.selectUserByEmail email (db w)) w) as [[a|e] w'];
    exact Hrun.
Qed.

(** [parseMeta] touches the property [meta] only. *)
Lemma parseMeta_getProp o user k :
  parseMeta o = Normal user -> k <> "meta" -> getProp user k = getProp o k.
Proof.
  unfold parseMeta. intros Hparse Hk.
  destruct (getProp o "meta") as [[| | |text| |]|]; try (injection Hparse as <-; reflexivity).
  destruct (Js.truthy text); [|injection Hparse as <-; reflexivity].
  destruct (JSON_parse text); [|discriminate].
  injection Hparse as <-. apply getProp_setProp_ne. congruence.
Qed.

End Users.

(** ** Validating a session *)

Lemma parseMeta_returns `{Platform} (u : UserRow) :
  metaReadable u ->
  returns (parseMeta (publicColumns u)) /\ returns (parseMeta (allColumns u)).
Proof.
  intros Hmeta. unfold parseMeta. simpl.
  destruct (u_meta u) as [text|] eqn:Htext; simpl; [|split; eexists; reflexivity].
  destruct (Js.truthy text) eqn:Ht; [|split; eexists; reflexivity].
  destruct (JSON_parse text) eqn:Hparse; [split; eexists; reflexivity|].
  exfalso. apply (Hmeta text Htext); [|assumption].
  intros ->. discriminate.
Qed.

Lemma NoDup_map_eq {A B} (f : A -> B) (l : list A) a b :
  List.NoDup (map f l) -> In a l -> In b l -> f a = f b -> a = b.
Proof.
  induction l as [|x l IH]; simpl; [contradiction|].
  intros Hnd Ha Hb Hf. apply List.NoDup_cons_iff in Hnd as [Hx Hnd].
  destruct Ha as [->|Ha], Hb as [->|Hb]; [reflexivity| | |auto].
  - exfalso. apply Hx. rewrite Hf. apply in_map. assumption.
  - exfalso. apply Hx. rewrite <- Hf. apply in_map. assumption.
Qed.

Section Validate.
Context `{Platform}.

Lemma validateSession_run env token w :
  validateSession env token w = (Normal (validated env token (db w)), w).
Proof.
  unfold validateSession, validated.
  destruct (Js.truthy token); [|reflexivity]. simpl.
  unfold bind, query. destruct (Sql.selectLiveSession token (now env) (db w)) as [s|];
    [|reflexivity].
  rewrite getUserById_run.
  destruct (loaded publicColumns (Sql.selectUserById (s_user_id s) (db w))) as [user|];
    [|reflexivity].
  destruct (truthyProp user "is_active"); reflexivity.
Qed.

Lemma selectLiveSession_some token instant d s :
  Sql.selectLiveSession token instant d = Some s ->
  In s (sessions d) /\ liveFor token instant s.
Proof.
  unfold Sql.selectLiveSession, liveFor. intros Hfind.
  apply find_some in Hfind as [Hin Hs]. apply andb_true_iff in Hs as [Ht He].
  apply String.eqb_eq in Ht. apply Z.ltb_lt in He. auto.
Qed.

Lemma selectLiveSession_none token instant d s :
  Sql.selectLiveSession token instant d = None ->
  In s (sessions d) -> ~ liveFor token instant s.
Proof.
  unfold Sql.selectLiveSession, liveFor. intros Hfind Hin [Ht He].
  pose proof (find_none _ _ Hfind s Hin) as Hs. simpl in Hs.
  apply andb_false_iff in Hs as [Hs|Hs].
  - apply String.eqb_neq in Hs. contradiction.
  - apply Z.ltb_ge in Hs. lia.
Qed.

Lemma selectUserById_some id d u :
  Sql.selectUserById id d = Some u -> In u (users d) /\ u_id u = id.
Proof.
  unfold Sql.selectUserById. intros Hfind.
  apply find_some in Hfind as [Hin Hu]. apply Z.eqb_eq in Hu. auto.
Qed.

Lemma selectUserById_none id d u :
  Sql.selectUserById id d = None -> In u (users d) -> u_id u <> id.
Proof.
  unfold Sql.selectUserById. intros Hfind Hin.
  pose proof (find_none _ _ Hfind u Hin) as Hu. simpl in Hu.
  apply Z.eqb_neq in Hu. assumption.
Qed.

Lemma truthyProp_is_active u user :
  parseMeta (publicColumns u) = Normal user ->
  truthyProp user "is_active" = isActive u.
Proof.
  intros Hparse. unfold truthyProp.
  rewrite (parseMeta_getProp _ _ "is_active" Hparse) by discriminate.
  unfold isActive. simpl. destruct (u_is_active u); reflexivity.
Qed.

(** The user [validateSession] returns is the owner's row, read through the
    public columns, and there is one only for a live session of an active
    owner. *)
Lemma validated_some env token d user :
  validated env token d = Some user ->
  exists s u, In s (sessions d) /\ liveFor token (now env) s
    /\ In u (users d) /\ u_id u = s_user_id s /\ isActive u = true
    /\ parseMeta (publicColumns u) = Normal user.
Proof.
  unfold validated. destruct (Js.truthy token); [|discriminate].
  destruct (Sql.selectLiveSession token (now env) d) as [s|] eqn:Hs; [|discriminate].
  destruct (Sql.selectUserById (s_user_id s) d) as [u|] eqn:Hu; simpl; [|discriminate].
  destruct (parseMeta (publicColumns u)) as [user'|] eqn:Hparse; [|discriminate].
  rewrite (truthyProp_is_active u user' Hparse).
  destruct (isActive u) eqn:Hactive; [|discriminate].
  intros [= <-]. apply selectLiveSession_some in Hs as [Hin Hlive].
  apply selectUserById_some in Hu as [Hinu Hid]. exists s, u. auto 10.
Qed.

Lemma validated_owner env token d s u :
  storeInvariant d ->
  In s (sessions d) -> liveFor token (now env) s ->
  In u (users d) -> u_id u = s_user_id s ->
  validated env token d
  = match parseMeta (publicColumns u) with
    | Normal user => if isActive u then Some user else None
    | Throw _ => None
    end.
Proof.
  intros Hinv Hs Hlive Hu Hid. unfold validated.
  assert (Js.truthy token = true) as ->.
  { destruct (Js.truthy token) eqn:Ht; [reflexivity|]. apply truthy_false in Ht.
    destruct Hlive as [Htok _]. exfalso.
    apply (tokens_not_empty d Hinv s Hs). congruence. }
  destruct (Sql.selectLiveSession token (now env) d) as [s'|] eqn:Hs'.
  - apply selectLiveSession_some in Hs' as [Hin' [Htok' _]].
    assert (s' = s) as ->.
    { apply (NoDup_map_eq s_token (sessions d)); try assumption.
      - apply (tokens_unique d Hinv).
      - destruct Hlive as [Htok _]. congruence. }
    destruct (Sql.selectUserById (s_user_id s) d) as [u'|] eqn:Hu'.
    + apply selectUserById_some in Hu' as [Hinu' Hid'].
      assert (u' = u) as ->.
      { apply (NoDup_map_eq u_id (users d)); try assumption.
        - apply (ids_unique d Hinv).
        - congruence. }
      simpl. destruct (parseMeta (publicColumns u)) as [user|] eqn:Hparse; [|reflexivity].
      rewrite (truthyProp_is_active u user Hparse). reflexivity.
    + exfalso. apply (selectUserById_none _ _ u Hu' Hu). assumption.
  - exfalso. apply (selectLiveSession_none _ _ _ s Hs' Hs). assumption.
Qed.

End Validate.

(** C3.  On a store that satisfies the constraints of the schema,
    [validateSession] returns the owning user (the row read through the
    public columns, with [meta] parsed) exactly when a session row with the
    token exists whose [expires_at] is strictly later than now and whose
    owner's [is_active] is true; in every other case it returns null, and in
    particular for a live session of a user who is not active.  It leaves
    the store and the response as they were. *)
Theorem validateSession_owner_active `{Platform} (env : Env) (token : string) (w : World) :
  storeInvariant (db w) ->
  exists result,
    validateSession env token w = (Normal result, w)
    /\ (forall u, authenticates (db w) token (now env) u ->
          exists user, result = Some user /\ parseMeta (publicColumns u) = Normal user)
    /\ (forall user, result = Some user ->
          exists u, authenticates (db w) token (now env) u
                    /\ parseMeta (publicColumns u) = Normal user)
    /\ ((~ exists u, authenticates (db w) token (now env) u) -> result = None)
    /\ (forall s u, In s (sessions (db w)) -> liveFor token (now env) s ->
          In u (users (db w)) -> u_id u = s_user_id s -> isActive u = false ->
          result = None).
Proof.
  intros Hinv. exists (validated env token (db w)).
  split; [apply validateSession_run|].
  assert (forall user, validated env token (db w) = Some user ->
            exists u, authenticates (db w) token (now env) u
                      /\ parseMeta (publicColumns u) = Normal user) as Hsome.
  { intros user Hv. apply validated_some in Hv as (s & u & Hs & Hl & Hu & Hid & Ha & Hp).
    exists u. split; [exists s; auto|assumption]. }
  split; [|split; [exact Hsome|split]].
  - intros u (s & Hs & Hl & Hu & Hid & Ha).
    rewrite (validated_owner env token (db w) s u Hinv Hs Hl Hu Hid), Ha.
    destruct (parseMeta_returns u (meta_is_json (db w) Hinv u Hu)) as [[user ->] _].
    exists user. auto.
  - intros Hnone. destruct (validated env token (db w)) as [user|] eqn:Hv; [|reflexivity].
    exfalso. apply Hnone. destruct (Hsome user eq_refl) as (u & Hu & _). exists u. exact Hu.
  - intros s u Hs Hl Hu Hid Ha.
    rewrite (validated_owner env token (db w) s u Hinv Hs Hl Hu Hid), Ha.
    destruct (parseMeta (publicColumns u)); reflexivity.
Qed.

Lemma sample_store_invariant active expires :
  storeInvariant (Sample.store active expires).
Proof.
  split; simpl.
  - repeat constructor. intros [].
  - intros s [<-|[]]. discriminate.
  - repeat constructor. intros [].
  - intros u [<-|[]] text [= <-] _. discriminate.
Defined.


Lemma validateSession_owner_active_witness :
  exists result,
    validateSession Demo.env Sample.token (Demo.start (Sample.store 1 2000))
      = (Normal result, Demo.start (Sample.store 1 2000))
    /\ (forall u, authenticates (Sample.store 1 2000) Sample.token 1000 u ->
          exists user, result = Some user /\ parseMeta (publicColumns u) = Normal user)
    /\ (forall user, result = Some user ->
          exists u, authenticates (Sample.store 1 2000) Sample.token 1000 u
                    /\ parseMeta (publicColumns u) = Normal user)
    /\ ((~ exists u, authenticates (Sample.store 1 2000) Sample.token 1000 u) -> result = None)
    /\ (forall s u, In s (sessions (Sample.store 1 2000)) -> liveFor Sample.token 1000 s ->
          In u (users (Sample.store 1 2000)) -> u_id u = s_user_id s -> isActive u = false ->
          result = None).
Proof.
  exact (validateSession_owner_active Demo.env Sample.token (Demo.start (Sample.store 1 2000))
           (sample_store_invariant 1 2000)).
Defined.

Example validateSession_live :
  fst (validateSession Demo.env Sample.token (Demo.start (Sample.store 1 2000)))
  = Normal (Some [ ("id", JNum 1); ("email", JStr "a@b.com"); ("full_name", JNull);
                   ("meta", JObj []); ("created_at", JStr "2024-01-01 00:00:00");
                   ("last_login", JNull); ("is_active", JNum 1); ("role", JStr "user") ]).
Proof. vm_compute. reflexivity. Qed.

Example validateSession_expired_now :
  fst (validateSession Demo.env Sample.token (Demo.start (Sample.store 1 1000))) = Normal None.
Proof. vm_compute. reflexivity. Qed.

Example validateSession_deactivated :
  fst (validateSession Demo.env Sample.token (Demo.start (Sample.store 0 2000))) = Normal None.
Proof. vm_compute. reflexivity. Qed.

(* ================================================================== *)
(** * Reasoning about a request                                        *)
(* ================================================================== *)

Lemma post_ret {A} (a : A) w (Q : A -> World -> Prop) E : Q a w -> post (ret a) w Q E.
Proof. intros HQ. exact HQ. Qed.

Lemma post_throw {A} e w (Q : A -> World -> Prop) (E : World -> Prop) :
  E w -> post (throw e) w Q E.
Proof. intros HE. exact HE. Qed.

Lemma post_bind {A B} (m : M A) (k : A -> M B) w (Q : B -> World -> Prop) E :
  post m w (fun a w' => post (k a) w' Q E) E -> post (bind m k) w Q E.
Proof.
  unfold post, bind. destruct (m w) as [[a|e] w']; intros Hm; exact Hm.
Qed.

Lemma post_tryCatch {A} (m : M A) handler w (Q : A -> World -> Prop) E :
  post m w Q (fun w' => forall e, post (handler e) w' Q E) -> post (tryCatch m handler) w Q E.
Proof.
  unfold post, tryCatch. destruct (m w) as [[a|e] w']; intros Hm; [exact Hm|apply Hm].
Qed.

Lemma post_run {A} (m : M A) w a w' (Q : A -> World -> Prop) E :
  m w = (Normal a, w') -> Q a w' -> post m w Q E.
Proof. unfold post. intros -> HQ. exact HQ. Qed.

Lemma post_lift {A} (c : Completion A) w (Q : A -> World -> Prop) (E : World -> Prop) :
  match c with Normal a => Q a w | Throw _ => E w end -> post (lift c) w Q E.
Proof. unfold post, lift. destruct c; intros Hc; exact Hc. Qed.

Lemma post_execThrowing {A} (f : DB -> Completion A * DB) w (Q : A -> World -> Prop)
    (E : World -> Prop) :
  (forall c d, f (db w) = (c, d) ->
     match c with
     | Normal a => Q a {| db := d; res := res w |}
     | Throw _ => E {| db := d; res := res w |}
     end) ->
  post (execThrowing f) w Q E.
Proof.
  unfold post, execThrowing. intros Hf. destruct (f (db w)) as [c d] eqn:Hrun.
  specialize (Hf c d eq_refl). destruct c; exact Hf.
Qed.

Lemma post_sendJson status v w (P : Z -> Json -> Prop) E :
  P status v -> post (sendJson status v) w (fun _ => sent P) E.
Proof.
  intros HP. unfold post. rewrite sendJson_run. exists status, v. auto.
Qed.

Lemma error_hidesPasswordHash wrapped status message :
  status <> 200%Z -> hidesPasswordHash wrapped status (errorBody message).
Proof. intros Hne Heq. contradiction. Qed.

Lemma stripped_hidesPasswordHash wrapped user :
  hidesPasswordHash wrapped 200
    (if wrapped then successBody (deleteProp "password_hash" user)
     else JObj (deleteProp "password_hash" user)).
Proof. intros _. eexists. split; [reflexivity|apply getProp_deleteProp]. Qed.

Ltac failure := apply post_sendJson, error_hidesPasswordHash; discriminate.

Section Exposure.
Context `{Platform}.

Lemma register_hidesPasswordHash env req w :
  post (register env req) w (fun _ => sent (hidesPasswordHash true)) (fun _ => False).
Proof.
  unfold register. apply post_tryCatch.
  assert (forall w' (e : JsError),
            post (sendJson 400 (errorBody "Invalid request")) w'
              (fun _ => sent (hidesPasswordHash true)) (fun _ => False)) as Hcatch
    by (intros; failure).
  destruct (req_body req) as [|email password fullName]; [apply post_throw; auto|].
  destruct (missing email || falsy password); [failure|].
  cbv zeta. apply post_bind. eapply post_run; [apply getUserByEmail_run|].
  destruct (loaded allColumns _) as [existing|]; [failure|].
  apply post_bind, post_lift.
  destruct (passwordArgument _) as [text|]; [|auto].
  unfold registerUser. cbv zeta. apply post_bind. unfold createUser.
  apply post_tryCatch, post_bind, post_execThrowing. intros c d Hinsert.
  destruct c as [userId|e]; [|intros e'; apply post_ret; failure].
  apply post_ret. destruct (userId =? 0)%Z; [failure|].
  apply post_bind. unfold createSession. cbv zeta. apply post_bind.
  apply post_execThrowing. intros c' d' Hsession. destruct c' as [[]|e]; [|auto].
  apply post_ret, post_bind. eapply (post_run (setSessionCookie _ _ _)); [reflexivity|].
  apply post_bind. eapply post_run; [apply getUserByEmail_run|].
  apply post_bind. destruct (loaded allColumns _) as [user|]; [|apply post_throw; auto].
  apply post_ret, post_sendJson, (stripped_hidesPasswordHash true).
Qed.

Lemma login_hidesPasswordHash env req w :
  post (login env req) w (fun _ => sent (hidesPasswordHash true)) (fun _ => False).
Proof.
  unfold login. apply post_tryCatch.
  assert (forall w' (e : JsError),
            post (sendJson 400 (errorBody "Invalid request")) w'
              (fun _ => sent (hidesPasswordHash true)) (fun _ => False)) as Hcatch
    by (intros; failure).
  destruct (req_body req) as [|email password fullName]; [apply post_throw; auto|].
  destruct (missing email || falsy password); [failure|].
  cbv zeta. apply post_bind. eapply post_run; [apply getUserByEmail_run|].
  destruct (loaded allColumns _) as [user|]; [|failure].
  apply post_bind.
  destruct (getProp user "password_hash") as [[| | |storedHash| |]|];
    try (apply post_throw; auto).
  apply post_bind, post_lift.
  destruct (passwordArgument _) as [text|]; [|auto].
  apply post_lift. destruct (verifyPassword _ storedHash) as [isValid|]; [|auto].
  destruct isValid; simpl; [|failure].
  destruct (truthyProp user "is_active"); simpl; [|failure].
  unfold openSession.
  destruct (getProp user "id") as [[| |id| | |]|]; try (apply post_throw; auto).
  apply post_bind. unfold createSession. cbv zeta. apply post_bind.
  apply post_execThrowing. intros c d Hsession. destruct c as [[]|e]; [|auto].
  apply post_ret, post_bind. eapply (post_run (setSessionCookie _ _ _)); [reflexivity|].
  apply post_bind. eapply (post_run (updateLastLogin _ _)); [reflexivity|].
  apply post_sendJson, (stripped_hidesPasswordHash true).
Qed.

Lemma me_hidesPasswordHash env req w :
  post (me env req) w (fun _ => sent (hidesPasswordHash false)) (fun _ => False).
Proof.
  unfold me. apply post_bind, post_lift.
  destruct (getSessionToken_returns req) as [token ->].
  apply post_bind.
  assert (forall user w',
            post match user with
                 | Some user => sendJson 200 (JObj (deleteProp "password_hash" user))
                 | None => sendJson 401 (errorBody "Not authenticated")
                 end w' (fun _ => sent (hidesPasswordHash false)) (fun _ => False)) as Hsend.
  { intros [user|] w'; [|failure].
    apply post_sendJson, (stripped_hidesPasswordHash false). }
  destruct token as [token|].
  - eapply post_run; [apply validateSession_run|]. apply Hsend.
  - apply post_ret. apply (Hsend None).
Qed.

Lemma logout_returns req w :
  post (logout req) w (fun _ _ => True) (fun _ => False).
Proof.
  unfold logout. apply post_bind, post_lift.
  destruct (getSessionToken_returns req) as [token ->].
  apply post_bind.
  destruct token as [token|];
    (eapply (post_run _ _ tt); [reflexivity|]);
    (apply post_bind; eapply (post_run clearSessionCookie); [reflexivity|]);
    (eapply post_run; [apply sendJson_run|]); exact I.
Qed.

End Exposure.

Lemma post_returns {A} (m : M A) w (Q : A -> World -> Prop) :
  post m w Q (fun _ => False) -> exists a w', m w = (Normal a, w') /\ Q a w'.
Proof.
  unfold post. destruct (m w) as [[a|e] w']; [|contradiction]. intros HQ. eauto.
Qed.

Lemma post_mono {A} (m : M A) w (Q Q' : A -> World -> Prop) (E E' : World -> Prop) :
  post m w Q E ->
  (forall a w', Q a w' -> Q' a w') -> (forall w', E w' -> E' w') ->
  post m w Q' E'.
Proof.
  unfold post. destruct (m w) as [[a|e] w']; intros Hm HQ HE; auto.
Qed.

(** C4.  Whatever the request and the store, [handleAuthRequest] returns
    (it does not throw), and on the routes register, login and me a
    response with status 200 carries the user object, inside
    [{success: true, user}] for register and login and as the body itself
    for me, without the property [password_hash]. *)
Theorem handleAuthRequest_hides_password_hash `{Platform}
    (env : Env) (req : Request) (w : World) :
  exists handled w',
    handleAuthRequest env req w = (Normal handled, w')
    /\ match routeOf req with
       | Register | Login => handled = true /\ sent (hidesPasswordHash true) w'
       | Me => handled = true /\ sent (hidesPasswordHash false) w'
       | Logout => handled = true
       | Elsewhere => handled = false /\ w' = w
       end.
Proof.
  apply post_returns. unfold handleAuthRequest, routeOf, isRoute.
  destruct (String.eqb (req_pathname req) "/api/auth/register" && _).
  { apply post_bind. eapply post_mono; [apply register_hidesPasswordHash| |auto].
    intros [] w' Hsent. apply post_ret. auto. }
  destruct (String.eqb (req_pathname req) "/api/auth/login" && _).
  { apply post_bind. eapply post_mono; [apply login_hidesPasswordHash| |auto].
    intros [] w' Hsent. apply post_ret. auto. }
  destruct (String.eqb (req_pathname req) "/api/auth/logout" && _).
  { apply post_bind. eapply post_mono; [apply logout_returns| |auto].
    intros [] w' _. apply post_ret. reflexivity. }
  destruct (String.eqb (req_pathname req) "/api/auth/me" && _).
  { apply post_bind. eapply post_mono; [apply me_hidesPasswordHash| |auto].
    intros [] w' Hsent. apply post_ret. auto. }
  apply post_ret. auto.
Qed.

Example register_success :
  let w' := snd (handleAuthRequest Demo.env
                   (Demo.POST "/api/auth/register"
                      (Fields (Some "a@b.com") (Some (JStr "Secret123!")) None))
                   (Demo.start Demo.emptyDB)) in
  r_status (res w') = Some 200%Z
  /\ r_body (res w')
     = Some (successBody
               [ ("id", JNum 1); ("email", JStr "a@b.com"); ("full_name", JNull);
                 ("meta", JObj []); ("created_at", JStr "2024-01-01 00:00:00");
                 ("updated_at", JStr "2024-01-01 00:00:00"); ("last_login", JNull);
                 ("is_active", JNum 1); ("role", JStr "user") ])
  /\ getHeader "Set-Cookie" (res w')
     = Some ("session_token=" ++ Buffer.toHex (randomBytes Demo.env 32)
             ++ "; Max-Age=86400; Path=/; SameSite=Lax; HttpOnly").
Proof. vm_compute. repeat split; reflexivity. Qed.

(* ================================================================== *)
(** * Login with bad credentials                                       *)
(* ================================================================== *)

Lemma falsy_present s : s <> EmptyString -> falsy (Some (JStr s)) = false.
Proof.
  intros Hs. unfold falsy. simpl. destruct (Js.truthy s) eqn:Ht; [reflexivity|].
  apply truthy_false in Ht. contradiction.
Qed.

Lemma missing_present s : s <> EmptyString -> missing (Some s) = false.
Proof.
  intros Hs. unfold missing. destruct (Js.truthy s) eqn:Ht; [reflexivity|].
  apply truthy_false in Ht. contradiction.
Qed.

(** C5, as the code has it.  For a login request whose email and password
    are strings that are not empty, the response is the same, status 401
    with the body [{error: "Invalid credentials"}] and nothing else written,
    whether no user has the email or the user exists and [verifyPassword]
    returns false; the store is left as it was. *)
Theorem login_invalid_credentials `{Platform} (env : Env) (req : Request) (w : World)
    (email password : string) (fullName : option string) :
  req_pathname req = "/api/auth/login" -> req_method req = "POST" ->
  req_body req = Fields (Some email) (Some (JStr password)) fullName ->
  email <> EmptyString -> password <> EmptyString ->
  Sql.selectUserByEmail email (db w) = None
  \/ (exists u, Sql.selectUserByEmail email (db w) = Some u
                /\ verifyPassword password (u_password_hash u) = Normal false) ->
  handleAuthRequest env req w = (Normal true, invalidCredentials w)
  /\ db (invalidCredentials w) = db w
  /\ r_status (res (invalidCredentials w)) = Some 401%Z
  /\ r_body (res (invalidCredentials w))
     = Some (JObj [("error", JStr "Invalid credentials")]).
Proof.
  intros Hpath Hmethod Hbody Hemail Hpassword Hcase.
  split; [|split; [reflexivity|split; reflexivity]].
  unfold handleAuthRequest. rewrite Hpath, Hmethod. simpl.
  unfold bind at 1. unfold login, tryCatch. rewrite Hbody.
  rewrite missing_present, falsy_present by assumption. simpl.
  unfold bind at 1. rewrite getUserByEmail_run.
  destruct Hcase as [->|(u & -> & Hverify)]; [reflexivity|].
  simpl. destruct (parseMeta (allColumns u)) as [user|] eqn:Hparse; [|reflexivity].
  unfold bind at 1.
  rewrite (parseMeta_getProp _ _ "password_hash" Hparse) by discriminate.
  simpl. unfold lift. rewrite Hverify. reflexivity.
Qed.

Lemma login_invalid_credentials_witness :
  handleAuthRequest Demo.env
    (Demo.POST "/api/auth/login" (Fields (Some "a@b.com") (Some (JStr "Wrong456?")) None))
    (Demo.start (Sample.store 1 2000))
  = (Normal true, invalidCredentials (Demo.start (Sample.store 1 2000)))
  /\ db (invalidCredentials (Demo.start (Sample.store 1 2000)))
     = db (Demo.start (Sample.store 1 2000))
  /\ r_status (res (invalidCredentials (Demo.start (Sample.store 1 2000)))) = Some 401%Z
  /\ r_body (res (invalidCredentials (Demo.start (Sample.store 1 2000))))
     = Some (JObj [("error", JStr "Invalid credentials")]).
Proof.
  apply (login_invalid_credentials Demo.env
           (Demo.POST "/api/auth/login"
              (Fields (Some "a@b.com") (Some (JStr "Wrong456?")) None))
           (Demo.start (Sample.store 1 2000)) "a@b.com" "Wrong456?" None);
    try reflexivity; try discriminate.
  right. exists (Sample.alice 1). split; vm_compute; reflexivity.
Defined.

(** C5 fails as stated: a password that is not a string, here the number
    123, passes the check of the input; for an email a user has,
    [verifyPassword] hands it to pbkdf2Sync, which throws, and the catch of
    the handler answers 400 [{error: "Invalid request"}]; for an email no
    user has the answer is 401 [{error: "Invalid credentials"}].  The two
    responses differ. *)
Lemma login_password_not_a_string :
  Sql.selectUserByEmail "a@b.com" (Sample.store 1 2000) = Some (Sample.alice 1)
  /\ Sql.selectUserByEmail "nobody@b.com" (Sample.store 1 2000) = None
  /\ handleAuthRequest Demo.env
       (Demo.POST "/api/auth/login" (Fields (Some "a@b.com") (Some (JNum 123)) None))
       (Demo.start (Sample.store 1 2000))
     = (Normal true,
        {| db := Sample.store 1 2000;
           res := endJson (JObj [("error", JStr "Invalid request")])
                    (writeHeadJson 400 emptyResponse) |})
  /\ handleAuthRequest Demo.env
       (Demo.POST "/api/auth/login" (Fields (Some "nobody@b.com") (Some (JNum 123)) None))
       (Demo.start (Sample.store 1 2000))
     = (Normal true,
        {| db := Sample.store 1 2000;
           res := endJson (JObj [("error", JStr "Invalid credentials")])
                    (writeHeadJson 401 emptyResponse) |})
  /\ r_status
       (res (snd (handleAuthRequest Demo.env
                    (Demo.POST "/api/auth/login"
                       (Fields (Some "a@b.com") (Some (JNum 123)) None))
                    (Demo.start (Sample.store 1 2000)))))
     <> r_status
          (res (snd (handleAuthRequest Demo.env
                       (Demo.POST "/api/auth/login"
                          (Fields (Some "nobody@b.com") (Some (JNum 123)) None))
                       (Demo.start (Sample.store 1 2000))))).
Proof. repeat split; vm_compute; solve [reflexivity|discriminate]. Qed.

(** The same holds on every platform and store: with a password that is
    not a string, a login for an email a user has is answered 400, and one
    for an email no user has 401. *)
Lemma login_password_not_a_string_everywhere `{Platform} (env : Env) (req : Request)
    (w : World) (email : string) (password : Json) (fullName : option string) :
  req_pathname req = "/api/auth/login" -> req_method req = "POST" ->
  req_body req = Fields (Some email) (Some password) fullName ->
  email <> EmptyString -> truthy password = true ->
  (forall s, password <> JStr s) ->
  (forall u, Sql.selectUserByEmail email (db w) = Some u -> metaReadable u ->
     handleAuthRequest env req w = (Normal true, answered 400 "Invalid request" w))
  /\ (Sql.selectUserByEmail email (db w) = None ->
      handleAuthRequest env req w = (Normal true, invalidCredentials w)).
Proof.
  intros Hpath Hmethod Hbody Hemail Htruthy Hother.
  assert (handleAuthRequest env req w
          = (let! user := getUserByEmail email in
             match user with
             | None => do! sendJson 401 (errorBody "Invalid credentials") in ret true
             | Some user =>
                 match getProp user "password_hash" with
                 | Some (JStr _) =>
                     do! sendJson 400 (errorBody "Invalid request") in ret true
                 | _ => do! sendJson 400 (errorBody "Invalid request") in ret true
                 end
             end) w) as ->.
  { unfold handleAuthRequest. rewrite Hpath, Hmethod. simpl.
    unfold bind at 1. unfold login, tryCatch. rewrite Hbody.
    rewrite missing_present by assumption. unfold falsy. rewrite Htruthy. simpl.
    unfold bind at 1. unfold bind at 3. rewrite getUserByEmail_run.
    destruct (loaded allColumns (Sql.selectUserByEmail email (db w))) as [user|];
      [|reflexivity].
    unfold bind at 1.
    destruct (getProp user "password_hash") as [[| | |storedHash| |]|]; try reflexivity.
    unfold bind at 1, lift.
    destruct password as [| | |s| |]; try reflexivity. destruct (Hother s eq_refl). }
  split; [|intros Hnone; unfold bind at 1; rewrite getUserByEmail_run, Hnone; reflexivity].
  intros u Hsome Hmeta. unfold bind at 1. rewrite getUserByEmail_run, Hsome. simpl.
  destruct (parseMeta (allColumns u)) as [user|] eqn:Hparse.
  - rewrite (parseMeta_getProp _ _ "password_hash" Hparse) by discriminate. reflexivity.
  - destruct (parseMeta_returns u Hmeta) as [_ [user Hreturns]]. congruence.
Qed.

(** Registration meets the same exception: [hashPassword] hands the number
    to pbkdf2Sync before any row is written. *)
Example register_password_not_a_string :
  handleAuthRequest Demo.env
    (Demo.POST "/api/auth/register" (Fields (Some "new@b.com") (Some (JNum 123)) None))
    (Demo.start (Sample.store 1 2000))
  = (Normal true, answered 400 "Invalid request" (Demo.start (Sample.store 1 2000))).
Proof. vm_compute. reflexivity. Qed.

Example login_unknown_email :
  handleAuthRequest Demo.env
    (Demo.POST "/api/auth/login" (Fields (Some "nobody@b.com") (Some (JStr "Secret123!")) None))
    (Demo.start (Sample.store 1 2000))
  = (Normal true, invalidCredentials (Demo.start (Sample.store 1 2000))).
Proof. vm_compute. reflexivity. Qed.

Example login_success :
  let w' := snd (handleAuthRequest Demo.env
                   (Demo.POST "/api/auth/login"
                      (Fields (Some "a@b.com") (Some (JStr "Secret123!")) None))
                   (Demo.start (Sample.store 1 2000))) in
  r_status (res w') = Some 200%Z
  /\ (exists user, r_body (res w') = Some (successBody user)
                   /\ getProp user "password_hash" = None
                   /\ getProp user "email" = Some (JStr "a@b.com")).
Proof. vm_compute. split; [reflexivity|]. eexists. repeat split; reflexivity. Qed.

(** A stored hash that [verifyPassword] throws on is answered otherwise
    than bad credentials: the handler's catch writes 400. *)
Example login_malformed_stored_hash :
  let broken := {| u_id := 1; u_email := "a@b.com"; u_password_hash := "not a hash";
                   u_full_name := None; u_meta := Some "{}";
                   u_created_at := "2024-01-01 00:00:00";
                   u_updated_at := "2024-01-01 00:00:00";
                   u_last_login := None; u_is_active := Some 1%Z; u_role := "user" |} in
  let d := {| users := [broken]; sessions := []; users_seq := 1; sessions_seq := 0 |} in
  let w' := snd (handleAuthRequest Demo.env
                   (Demo.POST "/api/auth/login"
                      (Fields (Some "a@b.com") (Some (JStr "Secret123!")) None))
                   (Demo.start d)) in
  r_status (res w') = Some 400%Z /\ r_body (res w') = Some (errorBody "Invalid request").
Proof. vm_compute. split; reflexivity. Qed.

(* ================================================================== *)
(** * Registration with an email that is taken                         *)
(* ================================================================== *)

(** C6, as the code has it.  When the insert of the user fails on the
    uniqueness constraint of [email] (a row with the email is in the table
    by the time of the insert), [createUser] catches the failure and
    returns null, and the registration answers 500 with
    [{error: "Failed to create user"}], the store unchanged.  The 400
    [{error: "Email already registered"}] is the answer of the check made
    before the insert, when that lookup returns the user. *)
Theorem registerUser_email_taken `{Platform} (env : Env) (w : World)
    (email password : string) (fullName : option string) (u : UserRow) :
  Sql.selectUserByEmail email (db w) = Some u ->
  (forall passwordHash metaJson ts,
     fst (Sql.insertUser email passwordHash (orNull fullName) metaJson ts (db w))
     = Throw (SqliteError "UNIQUE constraint failed: users.email"))
  /\ registerUser env email password fullName w
     = (Normal tt, answered 500 "Failed to create user" w)
  /\ (forall req,
        req_body req = Fields (Some email) (Some (JStr password)) fullName ->
        email <> EmptyString -> password <> EmptyString ->
        returns (parseMeta (allColumns u)) ->
        register env req w = (Normal tt, answered 400 "Email already registered" w)).
Proof.
  intros Hfound. split; [|split].
  - intros passwordHash metaJson ts. unfold Sql.insertUser. rewrite Hfound. reflexivity.
  - unfold registerUser, createUser. cbv zeta. unfold bind at 1.
    unfold tryCatch, bind, execThrowing, Sql.insertUser. rewrite Hfound.
    destruct w as [d r]. reflexivity.
  - intros req Hbody Hemail Hpassword [user Hparse].
    unfold register, tryCatch. rewrite Hbody.
    rewrite missing_present, falsy_present by assumption. simpl.
    unfold bind at 1. rewrite getUserByEmail_run, Hfound. simpl. rewrite Hparse.
    reflexivity.
Qed.

Lemma registerUser_email_taken_witness :
  (forall passwordHash metaJson ts,
     fst (Sql.insertUser "a@b.com" passwordHash (orNull None) metaJson ts (Sample.store 1 2000))
     = Throw (SqliteError "UNIQUE constraint failed: users.email"))
  /\ registerUser Demo.env "a@b.com" "Secret123!" None (Demo.start (Sample.store 1 2000))
     = (Normal tt, answered 500 "Failed to create user" (Demo.start (Sample.store 1 2000)))
  /\ (forall req,
        req_body req = Fields (Some "a@b.com") (Some (JStr "Secret123!")) None ->
        "a@b.com" <> EmptyString -> "Secret123!" <> EmptyString ->
        returns (parseMeta (allColumns (Sample.alice 1))) ->
        register Demo.env req (Demo.start (Sample.store 1 2000))
        = (Normal tt, answered 400 "Email already registered"
                        (Demo.start (Sample.store 1 2000)))).
Proof.
  apply (registerUser_email_taken Demo.env (Demo.start (Sample.store 1 2000))
           "a@b.com" "Secret123!" None (Sample.alice 1)).
  reflexivity.
Defined.

(** C6 fails as stated: with the email already in the table at the time of
    the insert, the registration answers 500, not the 400 of a duplicate
    email. *)
Lemma registerUser_email_taken_500 :
  let w' := snd (registerUser Demo.env "a@b.com" "Secret123!" None
                   (Demo.start (Sample.store 1 2000))) in
  r_status (res w') = Some 500%Z
  /\ r_body (res w') = Some (errorBody "Failed to create user")
  /\ r_body (res w') <> Some (errorBody "Email already registered").
Proof. vm_compute. repeat split; try reflexivity. discriminate. Qed.

(** The same through the whole handler, without another writer: the row
    with the email is there but its [meta] is not JSON, so the lookup before
    the insert returns null and the insert meets the constraint. *)
Example register_email_taken_unreadable_meta :
  let row := {| u_id := 1; u_email := "a@b.com"; u_password_hash := "2a:2a";
                u_full_name := None; u_meta := Some "{";
                u_created_at := "2024-01-01 00:00:00";
                u_updated_at := "2024-01-01 00:00:00";
                u_last_login := None; u_is_active := Some 1%Z; u_role := "user" |} in
  let d := {| users := [row]; sessions := []; users_seq := 1; sessions_seq := 0 |} in
  handleAuthRequest Demo.env
    (Demo.POST "/api/auth/register" (Fields (Some "a@b.com") (Some (JStr "Secret123!")) None))
    (Demo.start d)
  = (Normal true, answered 500 "Failed to create user" (Demo.start d)).
Proof. vm_compute. reflexivity. Qed.

(* ================================================================== *)
(** * The store invariant is kept                                      *)
(* ================================================================== *)

Lemma NoDup_snoc {A} (l : list A) x : List.NoDup l -> ~ In x l -> List.NoDup (l ++ [x]).
Proof.
  induction l as [|y l IH]; simpl; intros Hnd Hx.
  - constructor; [intros []|constructor].
  - apply List.NoDup_cons_iff in Hnd as [Hy Hnd]. constructor.
    + rewrite in_app_iff. intros [Hin|[->|[]]]; [contradiction|]. apply Hx. left. reflexivity.
    + apply IH; [assumption|]. intros Hin. apply Hx. right. assumption.
Qed.

Lemma NoDup_map_filter {A B} (f : A -> B) (p : A -> bool) (l : list A) :
  List.NoDup (map f l) -> List.NoDup (map f (List.filter p l)).
Proof.
  induction l as [|x l IH]; simpl; intros Hnd; [constructor|].
  apply List.NoDup_cons_iff in Hnd as [Hx Hnd].
  destruct (p x); simpl; [|auto]. constructor; [|auto].
  intros Hin. apply Hx. apply in_map_iff in Hin as (y & Hy & Hin).
  apply filter_In in Hin as [Hin _]. apply in_map_iff. eauto.
Qed.

Lemma toHex_not_empty buf : buf <> [] -> Buffer.toHex buf <> EmptyString.
Proof. destruct buf; [contradiction|discriminate]. Qed.

Section Kept.
Context `{Platform}.
Hypothesis parse_empty_object : JSON_parse "{}" <> None.

Lemma insertSession_wellFormed userId token expires ts d :
  token <> EmptyString -> wellFormed d ->
  wellFormed (snd (Sql.insertSession userId token expires ts d)).
Proof.
  intros Htoken [Hinv Hids]. unfold Sql.insertSession.
  destruct (Sql.selectUserById userId d); [|split; assumption].
  destruct (existsb _ (sessions d)) eqn:Hfresh; [split; assumption|].
  split; [|exact Hids]. destruct Hinv as [Htu Hte Hiu Hmj]. split; simpl; try assumption.
  - rewrite map_app. apply NoDup_snoc; [assumption|].
    intros Hin. apply in_map_iff in Hin as (s & Hs & Hin).
    assert (existsb (fun r => String.eqb (s_token r) token) (sessions d) = true) as Hex.
    { apply existsb_exists. exists s. split; [assumption|]. apply String.eqb_eq. assumption. }
    congruence.
  - intros s Hin. apply in_app_iff in Hin as [Hin|[<-|[]]]; [auto|assumption].
Qed.

Lemma insertUser_wellFormed email passwordHash fullName ts d :
  wellFormed d ->
  wellFormed (snd (Sql.insertUser email passwordHash fullName "{}" ts d)).
Proof.
  intros [Hinv Hids]. unfold Sql.insertUser.
  destruct (Sql.selectUserByEmail email d); [split; assumption|].
  destruct Hinv as [Htu Hte Hiu Hmj]. split; [split|]; simpl; try assumption.
  - rewrite map_app. apply NoDup_snoc; [assumption|].
    intros Hin. apply in_map_iff in Hin as (u & Hu & Hin).
    specialize (Hids u Hin). simpl in Hu. lia.
  - intros u Hin. apply in_app_iff in Hin as [Hin|[<-|[]]]; [auto|].
    intros text [= <-] _. assumption.
  - intros u Hin. simpl. apply in_app_iff in Hin as [Hin|[<-|[]]]; simpl; [|lia].
    specialize (Hids u Hin). lia.
Qed.

Lemma filterSessions_wellFormed p d :
  wellFormed d -> wellFormed (Sql.withSessions (List.filter p) d).
Proof.
  intros [[Htu Hte Hiu Hmj] Hids]. split; [split|]; simpl; try assumption.
  - apply NoDup_map_filter. assumption.
  - intros s Hin. apply filter_In in Hin as [Hin _]. auto.
Qed.

Lemma updateLastLogin_wellFormed id ts d :
  wellFormed d -> wellFormed (Sql.updateLastLogin id ts d).
Proof.
  intros [[Htu Hte Hiu Hmj] Hids].
  assert (forall u', In u' (users (Sql.updateLastLogin id ts d)) ->
            exists u, In u (users d) /\ u_id u' = u_id u /\ u_meta u' = u_meta u) as Hrow.
  { simpl. intros u' Hin. apply in_map_iff in Hin as (u & <- & Hin).
    exists u. destruct (u_id u =? id)%Z; auto. }
  split; [split|]; try assumption.
  - simpl. rewrite map_map.
    erewrite map_ext; [exact Hiu|]. intros u. destruct (u_id u =? id)%Z; reflexivity.
  - intros u' Hin. destruct (Hrow u' Hin) as (u & Hu & _ & Hmeta).
    unfold metaReadable. rewrite Hmeta. apply (Hmj u Hu).
  - intros u' Hin. destruct (Hrow u' Hin) as (u & Hu & Hid & _).
    rewrite Hid. apply (Hids u Hu).
Qed.

Lemma keeps_ret {A} (a : A) : keeps (ret a).
Proof. intros w Hw. exact Hw. Qed.

Lemma keeps_throw {A} e : keeps (@throw A e).
Proof. intros w Hw. exact Hw. Qed.

Lemma keeps_lift {A} (c : Completion A) : keeps (lift c).
Proof. intros w Hw. unfold post, lift. destruct c; exact Hw. Qed.

Lemma keeps_bind {A B} (m : M A) (k : A -> M B) :
  keeps m -> (forall a, keeps (k a)) -> keeps (bind m k).
Proof.
  intros Hm Hk w Hw. apply post_bind.
  eapply post_mono; [apply Hm; assumption| |auto].
  intros a w' Hw'. apply Hk. assumption.
Qed.

Lemma keeps_tryCatch {A} (m : M A) handler :
  keeps m -> (forall e, keeps (handler e)) -> keeps (tryCatch m handler).
Proof.
  intros Hm Hh w Hw. apply post_tryCatch.
  eapply post_mono; [apply Hm; assumption|auto|].
  intros w' Hw' e. apply Hh. assumption.
Qed.

Lemma keeps_query {A} (q : DB -> A) : keeps (query q).
Proof. intros w Hw. exact Hw. Qed.

Lemma keeps_respond f : keeps (respond f).
Proof. intros w Hw. exact Hw. Qed.

Lemma keeps_exec f : (forall d, wellFormed d -> wellFormed (f d)) -> keeps (exec f).
Proof. intros Hf w Hw. apply Hf. exact Hw. Qed.

Lemma keeps_execThrowing {A} (f : DB -> Completion A * DB) :
  (forall d, wellFormed d -> wellFormed (snd (f d))) -> keeps (execThrowing f).
Proof.
  intros Hf w Hw. unfold post, execThrowing.
  specialize (Hf (db w) Hw). destruct (f (db w)) as [[a|e] d]; exact Hf.
Qed.

Lemma keeps_sendJson status v : keeps (sendJson status v).
Proof. apply keeps_bind; [apply keeps_respond|intros _; apply keeps_respond]. Qed.

Lemma keeps_loadUser columns row : keeps (loadUser columns row).
Proof.
  destruct row as [u|]; simpl; [|apply keeps_ret].
  apply keeps_bind; [apply keeps_lift|intros user; apply keeps_ret].
Qed.

Create HintDb keeps.
#[local] Hint Resolve keeps_ret keeps_throw keeps_lift keeps_query keeps_respond
  keeps_sendJson keeps_loadUser : keeps.

Ltac keep :=
  repeat first
    [ progress (intros)
    | solve [auto with keeps]
    | apply keeps_bind | apply keeps_tryCatch
    | match goal with
      | |- keeps (match ?x with _ => _ end) => destruct x
      | |- keeps (if ?b then _ else _) => destruct b
      end ].

Lemma keeps_getUserByEmail email : keeps (getUserByEmail email).
Proof. unfold getUserByEmail. keep. Qed.

Lemma keeps_getUserById id : keeps (getUserById id).
Proof. unfold getUserById. keep. Qed.

Lemma keeps_createUser env email passwordHash fullName :
  keeps (createUser env email passwordHash fullName "{}").
Proof.
  unfold createUser. keep. apply keeps_execThrowing. intros d. apply insertUser_wellFormed.
Qed.

Lemma keeps_createSession env userId :
  randomBytes env 32 <> [] -> keeps (createSession env userId).
Proof.
  intros Hrandom. unfold createSession. cbv zeta. keep.
  apply keeps_execThrowing. intros d. apply insertSession_wellFormed.
  apply toHex_not_empty. assumption.
Qed.

Lemma keeps_validateSession env token : keeps (validateSession env token).
Proof. unfold validateSession. pose proof keeps_getUserById. keep. Qed.

Lemma keeps_deleteSession token : keeps (deleteSession token).
Proof. apply keeps_exec. intros d. apply filterSessions_wellFormed. Qed.

Lemma keeps_deleteAllUserSessions userId : keeps (deleteAllUserSessions userId).
Proof. apply keeps_exec. intros d. apply filterSessions_wellFormed. Qed.

Lemma keeps_cleanupExpiredSessions env : keeps (cleanupExpiredSessions env).
Proof. apply keeps_exec. intros d. apply filterSessions_wellFormed. Qed.

Lemma keeps_updateLastLogin env userId : keeps (updateLastLogin env userId).
Proof.
  unfold updateLastLogin. keep. apply keeps_exec. intros d. apply updateLastLogin_wellFormed.
Qed.

#[local] Hint Resolve keeps_getUserByEmail keeps_getUserById keeps_createUser
  keeps_createSession keeps_validateSession keeps_deleteSession
  keeps_updateLastLogin : keeps.

(** Every request leaves a well-formed store well-formed, whether it is
    answered or not. *)
Theorem handleAuthRequest_keeps_store env req :
  randomBytes env 32 <> [] -> keeps (handleAuthRequest env req).
Proof.
  intros Hrandom.
  unfold handleAuthRequest, register, registerUser, login, openSession, logout, me,
    deletePasswordHash, setSessionCookie, clearSessionCookie.
  cbv zeta. keep.
Qed.

End Kept.

Lemma emptyDB_wellFormed `{Platform} : wellFormed Demo.emptyDB.
Proof.
  split; [split|]; simpl; try constructor; intros ? [].
Qed.

(* ================================================================== *)
(** * A session from registration to logout                            *)
(* ================================================================== *)

Example registered_store_wellFormed : wellFormed (db registered).
Proof.
  pose proof (handleAuthRequest_keeps_store (H := Demo.platform)) as Hkeeps.
  specialize (Hkeeps ltac:(discriminate) Demo.env
                (Demo.POST "/api/auth/register"
                   (Fields (Some "a@b.com") (Some (JStr "Secret123!")) None))
                ltac:(discriminate) (Demo.start Demo.emptyDB) emptyDB_wellFormed).
  unfold post in Hkeeps. unfold registered.
  destruct (handleAuthRequest _ _ _) as [[a|e] w']; exact Hkeeps.
Qed.

Example me_after_register :
  let w' := snd (handleAuthRequest Demo.env (Demo.GET "/api/auth/me" (Some issuedCookie))
                   (Demo.start (db registered))) in
  r_status (res w') = Some 200%Z
  /\ r_body (res w')
     = Some (JObj [ ("id", JNum 1); ("email", JStr "a@b.com"); ("full_name", JNull);
                    ("meta", JObj []); ("created_at", JStr "2024-01-01 00:00:00");
                    ("last_login", JNull); ("is_active", JNum 1); ("role", JStr "user") ]).
Proof. vm_compute. split; reflexivity. Qed.

Example register_twice :
  let w' := snd (handleAuthRequest Demo.env
                   (Demo.POST "/api/auth/register"
                      (Fields (Some "a@b.com") (Some (JStr "Other456?")) None))
                   (Demo.start (db registered))) in
  r_status (res w') = Some 400%Z
  /\ r_body (res w') = Some (errorBody "Email already registered")
  /\ db w' = db registered.
Proof. vm_compute. repeat split; reflexivity. Qed.

Example me_after_logout :
  sessions (db afterLogout) = []
  /\ r_body (res afterLogout) = Some (JObj [("success", JBool true)])
  /\ getHeader "Set-Cookie" (res afterLogout) = Some "session_token=; Max-Age=0; Path=/"
  /\ r_status (res (snd (handleAuthRequest Demo.env
                           (Demo.GET "/api/auth/me" (Some issuedCookie))
                           (Demo.start (db afterLogout)))))
     = Some 401%Z.
Proof. vm_compute. repeat split; reflexivity. Qed.

Example logout_without_cookie :
  let w' := snd (handleAuthRequest Demo.env (Demo.POST "/api/auth/logout" Malformed)
                   (Demo.start Demo.emptyDB)) in
  r_status (res w') = Some 200%Z /\ r_body (res w') = Some (JObj [("success", JBool true)]).
Proof. vm_compute. split; reflexivity. Qed.

(* ================================================================== *)
(** * Further properties of the session store                          *)
(* ================================================================== *)

Lemma find_filter_implied {A} (p q : A -> bool) (l : list A) :
  (forall x, p x = true -> q x = true) ->
  List.find p (List.filter q l) = List.find p l.
Proof.
  intros Hpq. induction l as [|x l IH]; simpl; [reflexivity|].
  destruct (q x) eqn:Hq; simpl.
  - destruct (p x); [reflexivity|assumption].
  - destruct (p x) eqn:Hp; [|assumption]. rewrite (Hpq x Hp) in Hq. discriminate.
Qed.

Lemma find_filter_excluded {A} (p q : A -> bool) (l : list A) :
  (forall x, p x = true -> q x = false) ->
  List.find p (List.filter q l) = None.
Proof.
  intros Hpq. induction l as [|x l IH]; simpl; [reflexivity|].
  destruct (q x) eqn:Hq; simpl; [|assumption].
  destruct (p x) eqn:Hp; [|assumption]. rewrite (Hpq x Hp) in Hq. discriminate.
Qed.

Lemma filter_filter_same {A} (q : A -> bool) (l : list A) :
  List.filter q (List.filter q l) = List.filter q l.
Proof.
  induction l as [|x l IH]; simpl; [reflexivity|].
  destruct (q x) eqn:Hq; simpl; [rewrite Hq, IH; reflexivity|assumption].
Qed.

Section Store.
Context `{Platform}.

(** [validated] reads the sessions through [selectLiveSession] only. *)
Lemma validated_same_session env token d d' :
  users d' = users d ->
  Sql.selectLiveSession token (now env) d' = Sql.selectLiveSession token (now env) d ->
  validated env token d' = validated env token d.
Proof.
  intros Husers Hlive. unfold validated, Sql.selectUserById. rewrite Hlive, Husers.
  reflexivity.
Qed.

Lemma validated_no_session env token d :
  Sql.selectLiveSession token (now env) d = None -> validated env token d = None.
Proof.
  intros Hlive. unfold validated. rewrite Hlive. destruct (Js.truthy token); reflexivity.
Qed.

(** X1.  A sweep never changes what a validation made at the same instant
    or later answers: the rows [cleanupExpiredSessions] deletes at an
    instant are rows no token validates against from that instant on. *)
Theorem cleanupExpiredSessions_keeps_validation (sweep env : Env) (token : string)
    (w : World) :
  (now sweep <= now env)%Z ->
  fst (validateSession env token (snd (cleanupExpiredSessions sweep w)))
  = fst (validateSession env token w).
Proof.
  intros Hlater. rewrite !validateSession_run. simpl. f_equal.
  apply validated_same_session; [reflexivity|].
  unfold Sql.selectLiveSession. simpl. apply find_filter_implied.
  intros r Hr. apply andb_true_iff in Hr as [_ Hr]. apply Z.ltb_lt in Hr.
  apply negb_true_iff, Z.ltb_ge. lia.
Qed.

(** X2.  [deleteSession] revokes a token and nothing else: it deletes the
    rows with the token and only them, leaves the users and the response
    alone, the token no longer validates, every other token validates as
    before, and deleting again changes nothing. *)
Theorem deleteSession_revokes (env : Env) (token : string) (w : World) :
  exists w',
    deleteSession token w = (Normal tt, w')
    /\ res w' = res w
    /\ users (db w') = users (db w)
    /\ (forall r, In r (sessions (db w'))
                  <-> In r (sessions (db w)) /\ s_token r <> token)
    /\ fst (validateSession env token w') = Normal None
    /\ (forall other, other <> token ->
          fst (validateSession env other w') = fst (validateSession env other w))
    /\ deleteSession token w' = (Normal tt, w').
Proof.
  eexists. split; [reflexivity|]. simpl.
  split; [reflexivity|]. split; [reflexivity|]. split; [|split; [|split]].
  - intros r. rewrite filter_In, negb_true_iff. rewrite String.eqb_neq. reflexivity.
  - rewrite validateSession_run. simpl. f_equal. apply validated_no_session.
    unfold Sql.selectLiveSession. simpl. apply find_filter_excluded.
    intros r Hr. apply andb_true_iff in Hr as [Hr _]. rewrite Hr. reflexivity.
  - intros other Hother. rewrite !validateSession_run. simpl. f_equal.
    apply validated_same_session; [reflexivity|].
    unfold Sql.selectLiveSession. simpl. apply find_filter_implied.
    intros r Hr. apply andb_true_iff in Hr as [Hr _]. apply String.eqb_eq in Hr.
    apply negb_true_iff, String.eqb_neq. congruence.
  - unfold deleteSession, exec, Sql.deleteSessionByToken, Sql.withSessions. simpl.
    rewrite filter_filter_same. reflexivity.
Qed.

Lemma loaded_publicColumns_id row user :
  loaded publicColumns row = Some user ->
  exists u, row = Some u /\ getProp user "id" = Some (JNum (u_id u)).
Proof.
  unfold loaded. destruct row as [u|]; [|discriminate].
  destruct (parseMeta (publicColumns u)) as [user'|] eqn:Hparse; [|discriminate].
  intros [= <-]. exists u. split; [reflexivity|].
  rewrite (parseMeta_getProp _ _ "id" Hparse) by discriminate. reflexivity.
Qed.

(** X3.  [deleteAllUserSessions] logs a user out everywhere: it deletes
    the session rows of the user and only them, leaves the users alone, and
    afterwards no token at all validates to that user. *)
Theorem deleteAllUserSessions_logs_out (env : Env) (userId : Z) (w : World) :
  exists w',
    deleteAllUserSessions userId w = (Normal tt, w')
    /\ res w' = res w
    /\ users (db w') = users (db w)
    /\ (forall r, In r (sessions (db w'))
                  <-> In r (sessions (db w)) /\ s_user_id r <> userId)
    /\ (forall token user,
          fst (validateSession env token w') = Normal (Some user) ->
          exists id, getProp user "id" = Some (JNum id) /\ id <> userId).
Proof.
  eexists. split; [reflexivity|]. simpl.
  split; [reflexivity|]. split; [reflexivity|].
  assert (forall r, In r (List.filter (fun r => negb (s_user_id r =? userId)%Z)
                            (sessions (db w)))
                    <-> In r (sessions (db w)) /\ s_user_id r <> userId) as Hrows.
  { intros r. rewrite filter_In, negb_true_iff, Z.eqb_neq. reflexivity. }
  split; [exact Hrows|].
  intros token user. rewrite validateSession_run. simpl. intros [= Hv].
  unfold validated in Hv. destruct (Js.truthy token); [|discriminate].
  destruct (Sql.selectLiveSession token (now env) _) as [s|] eqn:Hs; [|discriminate].
  apply selectLiveSession_some in Hs as [Hin _]. simpl in Hin. apply Hrows in Hin as [_ Hne].
  destruct (loaded publicColumns _) as [user'|] eqn:Hload; [|discriminate].
  destruct (truthyProp user' "is_active"); [|discriminate]. injection Hv as <-.
  apply loaded_publicColumns_id in Hload as (u & Hu & Hid).
  apply selectUserById_some in Hu as [_ Hu]. exists (u_id u). split; [assumption|]. congruence.
Qed.

End Store.

Lemma cleanupExpiredSessions_keeps_validation_witness :
  fst (validateSession Demo.env Sample.token
         (snd (cleanupExpiredSessions Demo.env (Demo.start (Sample.store 1 2000)))))
  = fst (validateSession Demo.env Sample.token (Demo.start (Sample.store 1 2000))).
Proof.
  apply (cleanupExpiredSessions_keeps_validation Demo.env Demo.env). simpl. lia.
Defined.

Section Lifetime.
Context `{Platform}.

Lemma selectUserById_found id d u :
  In u (users d) -> u_id u = id -> exists u', Sql.selectUserById id d = Some u'.
Proof.
  intros Hin Hid. destruct (Sql.selectUserById id d) as [u'|] eqn:Hfind; [eauto|].
  exfalso. apply (selectUserById_none id d u Hfind Hin Hid).
Qed.

Lemma fresh_token_not_stored token (rows : list SessionRow) :
  (forall s, In s rows -> s_token s <> token) ->
  existsb (fun r => String.eqb (s_token r) token) rows = false.
Proof.
  intros Hfresh. destruct (existsb _ rows) eqn:Hex; [|reflexivity].
  apply existsb_exists in Hex as (s & Hin & Heq). apply String.eqb_eq in Heq.
  exfalso. apply (Hfresh s Hin Heq).
Qed.

Lemma insertSession_run userId token expires ts d u :
  Sql.selectUserById userId d = Some u ->
  (forall s, In s (sessions d) -> s_token s <> token) ->
  Sql.insertSession userId token expires ts d
  = (Normal tt,
     {| users := users d;
        sessions := sessions d ++ [ {| s_id := sessions_seq d + 1; s_user_id := userId;
                                       s_token := token; s_expires_at := expires;
                                       s_created_at := ts |} ];
        users_seq := users_seq d; sessions_seq := sessions_seq d + 1 |}).
Proof.
  intros Huser Hfresh. unfold Sql.insertSession.
  rewrite Huser, (fresh_token_not_stored token _ Hfresh). reflexivity.
Qed.

Lemma insertSession_storeInvariant userId token expires ts d :
  token <> EmptyString -> storeInvariant d ->
  storeInvariant (snd (Sql.insertSession userId token expires ts d)).
Proof.
  intros Htoken Hinv. unfold Sql.insertSession.
  destruct (Sql.selectUserById userId d); [|assumption].
  destruct (existsb _ (sessions d)) eqn:Hfresh; [assumption|].
  destruct Hinv as [Htu Hte Hiu Hmj]. split; simpl; try assumption.
  - rewrite map_app. apply NoDup_snoc; [assumption|].
    intros Hin. apply in_map_iff in Hin as (s & Hs & Hin).
    assert (existsb (fun r => String.eqb (s_token r) token) (sessions d) = true) as Hex.
    { apply existsb_exists. exists s. split; [assumption|]. apply String.eqb_eq. assumption. }
    congruence.
  - intros s Hin. apply in_app_iff in Hin as [Hin|[<-|[]]]; [auto|assumption].
Qed.

Lemma selectLiveSession_absent token instant d :
  (forall r, In r (sessions d) -> ~ liveFor token instant r) ->
  Sql.selectLiveSession token instant d = None.
Proof.
  intros Hnone. destruct (Sql.selectLiveSession token instant d) as [s|] eqn:Hs;
    [|reflexivity].
  apply selectLiveSession_some in Hs as [Hin Hlive]. exfalso. apply (Hnone s Hin Hlive).
Qed.

(** X4.  A session lives for 24 hours.  On a store that satisfies the
    invariant, [createSession] for an active user, with a token that is not
    in the table yet, returns the token; from then on [validateSession]
    returns that user at every instant before the creation instant plus
    [SESSION_DURATION], and null at that instant and at every later one. *)
Theorem createSession_then_validateSession (env : Env) (w : World) (u : UserRow) :
  storeInvariant (db w) ->
  In u (users (db w)) -> isActive u = true ->
  randomBytes env 32 <> [] ->
  (forall s, In s (sessions (db w)) -> s_token s <> Buffer.toHex (randomBytes env 32)) ->
  exists token w' user,
    createSession env (u_id u) w = (Normal token, w')
    /\ parseMeta (publicColumns u) = Normal user
    /\ (forall later, (now later < now env + SESSION_DURATION)%Z ->
          fst (validateSession later token w') = Normal (Some user))
    /\ (forall later, (now env + SESSION_DURATION <= now later)%Z ->
          fst (validateSession later token w') = Normal None).
Proof.
  intros Hinv Hu Hactive Hrandom Hfresh.
  destruct (selectUserById_found (u_id u) (db w) u Hu eq_refl) as [u' Hu'].
  destruct (parseMeta_returns u (meta_is_json (db w) Hinv u Hu)) as [[user Hparse] _].
  set (token := Buffer.toHex (randomBytes env 32)) in *.
  set (row := {| s_id := sessions_seq (db w) + 1; s_user_id := u_id u; s_token := token;
                 s_expires_at := now env + SESSION_DURATION;
                 s_created_at := current_timestamp env |}).
  pose proof (insertSession_storeInvariant (u_id u) token (now env + SESSION_DURATION)
                (current_timestamp env) (db w)
                (toHex_not_empty _ Hrandom) Hinv) as Hinv'.
  pose proof (insertSession_run (u_id u) token (now env + SESSION_DURATION)
                (current_timestamp env) (db w) u' Hu' Hfresh) as Hrun.
  rewrite Hrun in Hinv'. simpl in Hinv'.
  exists token. eexists. exists user. split; [|split; [exact Hparse|split]].
  - unfold createSession. cbv zeta. unfold bind, execThrowing. fold token.
    rewrite Hrun. reflexivity.
  - intros later Hlater. rewrite validateSession_run. simpl. f_equal.
    rewrite (validated_owner later token _ row u Hinv'); simpl.
    + rewrite Hparse, Hactive. reflexivity.
    + apply in_app_iff. right. left. reflexivity.
    + split; [reflexivity|assumption].
    + assumption.
    + reflexivity.
  - intros later Hlater. rewrite validateSession_run. simpl. f_equal.
    apply validated_no_session, selectLiveSession_absent. simpl.
    intros r Hin [Htok Hlive].
    apply in_app_iff in Hin as [Hin|[<-|[]]].
    + apply (Hfresh r Hin Htok).
    + simpl in Hlive. lia.
Qed.

End Lifetime.

Lemma createSession_then_validateSession_witness :
  exists token w' user,
    createSession Demo.env (u_id (Sample.alice 1)) (Demo.start (Sample.store 1 2000))
      = (Normal token, w')
    /\ parseMeta (publicColumns (Sample.alice 1)) = Normal user
    /\ (forall later, (now later < now Demo.env + SESSION_DURATION)%Z ->
          fst (validateSession later token w') = Normal (Some user))
    /\ (forall later, (now Demo.env + SESSION_DURATION <= now later)%Z ->
          fst (validateSession later token w') = Normal None).
Proof.
  apply (createSession_then_validateSession Demo.env (Demo.start (Sample.store 1 2000))
           (Sample.alice 1)).
  - apply (sample_store_invariant 1 2000).
  - left. reflexivity.
  - reflexivity.
  - discriminate.
  - intros s [<-|[]]. vm_compute. discriminate.
Defined.

(* ================================================================== *)
(** * Further properties of the auth endpoints                         *)
(* ================================================================== *)

Lemma find_app_first {A} (p : A -> bool) (l k : list A) x :
  List.find p l = Some x -> List.find p (l ++ k) = Some x.
Proof.
  induction l as [|y l IH]; simpl; [discriminate|].
  destruct (p y); [trivial|assumption].
Qed.

Lemma find_app_second {A} (p : A -> bool) (l k : list A) :
  List.find p l = None -> List.find p (l ++ k) = List.find p k.
Proof.
  induction l as [|y l IH]; simpl; [reflexivity|].
  destruct (p y); [discriminate|assumption].
Qed.

Lemma getHeader_setHeader_other name name' value r :
  name <> name' -> getHeader name (setHeader name' value r) = getHeader name r.
Proof.
  intros Hne. unfold getHeader, setHeader. simpl. f_equal.
  assert (List.find (fun h => String.eqb (fst h) name)
            (List.filter (fun h => negb (String.eqb (fst h) name')) (r_headers r))
          = List.find (fun h => String.eqb (fst h) name) (r_headers r)) as Hfind.
  { apply find_filter_implied. intros h Hh. apply String.eqb_eq in Hh.
    apply negb_true_iff, String.eqb_neq. congruence. }
  destruct (List.find _ (r_headers r)) as [h|] eqn:Hr.
  - apply find_app_first. assumption.
  - rewrite find_app_second by assumption. simpl.
    destruct (String.eqb_spec name' name); [congruence|reflexivity].
Qed.

Lemma getHeader_sendJson name status v r :
  name <> "Content-Type" ->
  getHeader name (endJson v (writeHeadJson status r)) = getHeader name r.
Proof.
  intros Hne. unfold endJson, writeHeadJson. simpl.
  apply (getHeader_setHeader_other name "Content-Type" _ r Hne).
Qed.

Section Endpoints.
Context `{Platform}.

Lemma handleAuthRequest_route env req :
  handleAuthRequest env req
  = match routeOf req with
    | Register => do! register env req in ret true
    | Login => do! login env req in ret true
    | Logout => do! logout req in ret true
    | Me => do! me env req in ret true
    | Elsewhere => ret false
    end.
Proof.
  unfold handleAuthRequest, routeOf, isRoute.
  destruct (String.eqb (req_pathname req) "/api/auth/register" && _); [reflexivity|].
  destruct (String.eqb (req_pathname req) "/api/auth/login" && _); [reflexivity|].
  destruct (String.eqb (req_pathname req) "/api/auth/logout" && _); [reflexivity|].
  destruct (String.eqb (req_pathname req) "/api/auth/me" && _); reflexivity.
Qed.

Lemma handled {A} (m : M A) w a w' :
  m w = (Normal a, w') -> (do! m in ret true) w = (Normal true, w').
Proof. intros Hm. unfold bind. rewrite Hm. reflexivity. Qed.

Lemma handleAuthRequest_never_throws env req w :
  post (handleAuthRequest env req) w (fun _ _ => True) (fun _ => False).
Proof.
  rewrite handleAuthRequest_route.
  destruct (routeOf req); try (apply post_bind; eapply post_mono;
    [first [apply register_hidesPasswordHash | apply login_hidesPasswordHash
           | apply logout_returns | apply me_hidesPasswordHash]
    | intros [] ? _; exact I | auto]).
  exact I.
Qed.

(** X5.  Every request leaves a well-formed store well-formed:
    [handleAuthRequest] returns and the store it leaves has unique, non-empty
    tokens, unique user ids issued by the counter, and [meta] texts that
    parse, provided [JSON.parse("{}")] succeeds and [randomBytes(32)] is not
    empty. *)
Theorem handleAuthRequest_preserves_store (env : Env) (req : Request) (w : World) :
  JSON_parse "{}" <> None -> randomBytes env 32 <> [] ->
  wellFormed (db w) ->
  exists handled w',
    handleAuthRequest env req w = (Normal handled, w') /\ wellFormed (db w').
Proof.
  intros Hparse Hrandom Hw.
  pose proof (handleAuthRequest_keeps_store Hparse env req Hrandom w Hw) as Hkeeps.
  pose proof (handleAuthRequest_never_throws env req w) as Hreturns.
  unfold post in Hkeeps, Hreturns.
  destruct (handleAuthRequest env req w) as [[a|e] w']; [eauto|contradiction].
Qed.

(** X6.  Logout never fails.  Whatever the request carries, the answer is
    200 [{success: true}] with the cookie cleared ("session_token=;
    Max-Age=0; Path=/"); the session rows with the token of the request's
    cookie are deleted, no other row and no user is touched, and a second
    logout leaves the store as the first one left it. *)
Theorem logout_always_succeeds (env : Env) (req : Request) (w : World) :
  routeOf req = Logout ->
  exists token w',
    getSessionToken req = Normal token
    /\ handleAuthRequest env req w = (Normal true, w')
    /\ r_status (res w') = Some 200%Z
    /\ r_body (res w') = Some (JObj [("success", JBool true)])
    /\ getHeader "Set-Cookie" (res w') = Some "session_token=; Max-Age=0; Path=/"
    /\ users (db w') = users (db w)
    /\ (forall r, In r (sessions (db w'))
                  <-> In r (sessions (db w)) /\ token <> Some (s_token r))
    /\ db (snd (handleAuthRequest env req w')) = db w'.
Proof.
  intros Hroute. rewrite handleAuthRequest_route, Hroute.
  destruct (getSessionToken_returns req) as [token Htoken]. exists token.
  unfold logout, bind, lift, clearSessionCookie, respond. rewrite Htoken.
  destruct token as [token|]; simpl; eexists; (split; [reflexivity|]);
    (split; [reflexivity|]); simpl; (split; [reflexivity|]); (split; [reflexivity|]).
  - split; [|split; [reflexivity|split]].
    + rewrite getHeader_sendJson by discriminate. apply getHeader_setHeader.
    + intros r. rewrite filter_In, negb_true_iff, String.eqb_neq.
      split; intros [Hin Hne]; (split; [assumption|]); congruence.
    + unfold Sql.deleteSessionByToken, Sql.withSessions. simpl.
      rewrite filter_filter_same. reflexivity.
  - split; [|split; [reflexivity|split]].
    + rewrite getHeader_sendJson by discriminate. apply getHeader_setHeader.
    + intros r. split; [intros Hin; split; [assumption|discriminate]|tauto].
    + reflexivity.
Qed.

(** X7.  The route me answers what [getCurrentUser] returns: 200 with the
    user, [password_hash] deleted, when it returns one, and 401
    [{error: "Not authenticated"}] when it returns null, as it does for a
    request without a Cookie header.  Neither touches the store. *)
Theorem me_answers_getCurrentUser (env : Env) (req : Request) (w : World) :
  routeOf req = Me ->
  exists current,
    getCurrentUser env req w = (Normal current, w)
    /\ handleAuthRequest env req w
       = (Normal true,
          match current with
          | Some user =>
              {| db := db w;
                 res := endJson (JObj (deleteProp "password_hash" user))
                          (writeHeadJson 200 (res w)) |}
          | None => answered 401 "Not authenticated" w
          end)
    /\ (req_cookie req = None -> current = None).
Proof.
  intros Hroute. rewrite handleAuthRequest_route, Hroute.
  destruct (getSessionToken_returns req) as [token Htoken].
  unfold getCurrentUser, me, bind, lift. rewrite Htoken.
  destruct token as [token|].
  - rewrite validateSession_run. exists (validated env token (db w)).
    split; [reflexivity|split].
    + destruct (validated env token (db w)); reflexivity.
    + intros Hnone. rewrite getSessionToken_no_header in Htoken by assumption. discriminate.
  - exists None. split; [reflexivity|split; [reflexivity|reflexivity]].
Qed.

(** X8.  Input validation of register and login: a body that does not
    parse is answered 400 [{error: "Invalid request"}], and a body without
    an email or without a password (absent or empty) is answered 400
    [{error: "Email and password are required"}]; in both cases nothing is
    looked up or written in the store and no cookie is set. *)
Theorem register_login_validate_input (env : Env) (req : Request) (w : World) :
  routeOf req = Register \/ routeOf req = Login ->
  match req_body req with
  | Malformed =>
      handleAuthRequest env req w = (Normal true, answered 400 "Invalid request" w)
  | Fields email password _ =>
      missing email || falsy password = true ->
      handleAuthRequest env req w
      = (Normal true, answered 400 "Email and password are required" w)
  end.
Proof.
  intros Hroute. rewrite handleAuthRequest_route.
  destruct (req_body req) as [|email password fullName] eqn:Hbody.
  - destruct Hroute as [-> | ->]; unfold register, login, tryCatch, bind; rewrite Hbody;
      reflexivity.
  - intros Hmissing.
    destruct Hroute as [-> | ->]; unfold register, login, tryCatch, bind;
      rewrite Hbody, Hmissing; reflexivity.
Qed.

End Endpoints.

Lemma handleAuthRequest_preserves_store_witness :
  exists handled w',
    handleAuthRequest Demo.env
      (Demo.POST "/api/auth/register" (Fields (Some "a@b.com") (Some (JStr "Secret123!")) None))
      (Demo.start Demo.emptyDB)
    = (Normal handled, w')
    /\ wellFormed (db w').
Proof.
  apply (handleAuthRequest_preserves_store Demo.env).
  - discriminate.
  - discriminate.
  - apply emptyDB_wellFormed.
Defined.

Lemma logout_always_succeeds_witness :
  exists token w',
    getSessionToken (Demo.POST "/api/auth/logout" Malformed) = Normal token
    /\ handleAuthRequest Demo.env (Demo.POST "/api/auth/logout" Malformed)
         (Demo.start (Sample.store 1 2000))
       = (Normal true, w')
    /\ r_status (res w') = Some 200%Z
    /\ r_body (res w') = Some (JObj [("success", JBool true)])
    /\ getHeader "Set-Cookie" (res w') = Some "session_token=; Max-Age=0; Path=/"
    /\ users (db w') = users (Sample.store 1 2000)
    /\ (forall r, In r (sessions (db w'))
                  <-> In r (sessions (Sample.store 1 2000)) /\ token <> Some (s_token r))
    /\ db (snd (handleAuthRequest Demo.env (Demo.POST "/api/auth/logout" Malformed) w'))
       = db w'.
Proof.
  apply (logout_always_succeeds Demo.env (Demo.POST "/api/auth/logout" Malformed)
           (Demo.start (Sample.store 1 2000))).
  reflexivity.
Defined.

Lemma me_answers_getCurrentUser_witness :
  exists current,
    getCurrentUser Demo.env (Demo.GET "/api/auth/me" None) (Demo.start (Sample.store 1 2000))
      = (Normal current, Demo.start (Sample.store 1 2000))
    /\ handleAuthRequest Demo.env (Demo.GET "/api/auth/me" None)
         (Demo.start (Sample.store 1 2000))
       = (Normal true,
          match current with
          | Some user =>
              {| db := Sample.store 1 2000;
                 res := endJson (JObj (deleteProp "password_hash" user))
                          (writeHeadJson 200 emptyResponse) |}
          | None => answered 401 "Not authenticated" (Demo.start (Sample.store 1 2000))
          end)
    /\ (req_cookie (Demo.GET "/api/auth/me" None) = None -> current = None).
Proof.
  apply (me_answers_getCurrentUser Demo.env (Demo.GET "/api/auth/me" None)
           (Demo.start (Sample.store 1 2000))).
  reflexivity.
Defined.

Lemma register_login_validate_input_witness :
  handleAuthRequest Demo.env (Demo.POST "/api/auth/login" (Fields (Some "a@b.com") None None))
    (Demo.start (Sample.store 1 2000))
  = (Normal true,
     answered 400 "Email and password are required" (Demo.start (Sample.store 1 2000))).
Proof.
  apply (register_login_validate_input Demo.env
           (Demo.POST "/api/auth/login" (Fields (Some "a@b.com") None None))
           (Demo.start (Sample.store 1 2000))).
  - right. reflexivity.
  - reflexivity.
Defined.

Section Credentials.
Context `{Platform}.


Lemma truthyProp_allColumns_is_active u user :
  parseMeta (allColumns u) = Normal user ->
  truthyProp user "is_active" = isActive u.
Proof.
  intros Hparse. unfold truthyProp.
  rewrite (parseMeta_getProp _ _ "is_active" Hparse) by discriminate.
  unfold isActive. simpl. destruct (u_is_active u); reflexivity.
Qed.

(** Login up to the check of the account: the user was found and the
    password verified. *)
Lemma login_verified env req w email password fullName u user :
  req_body req = Fields (Some email) (Some (JStr password)) fullName ->
  email <> EmptyString -> password <> EmptyString ->
  Sql.selectUserByEmail email (db w) = Some u ->
  parseMeta (allColumns u) = Normal user ->
  verifyPassword password (u_password_hash u) = Normal true ->
  login env req w
  = tryCatch (if isActive u then openSession env user
              else sendJson 403 (errorBody "Account is inactive"))
      (fun _ => sendJson 400 (errorBody "Invalid request")) w.
Proof.
  intros Hbody Hemail Hpassword Hfound Hparse Hverify.
  unfold login, tryCatch. rewrite Hbody.
  rewrite missing_present, falsy_present by assumption. simpl.
  unfold bind at 1. rewrite getUserByEmail_run, Hfound. simpl. rewrite Hparse.
  unfold bind at 1.
  rewrite (parseMeta_getProp _ _ "password_hash" Hparse) by discriminate.
  simpl. unfold lift. rewrite Hverify. simpl.
  rewrite (truthyProp_allColumns_is_active u user Hparse).
  destruct (isActive u); reflexivity.
Qed.

(** X9.  Login of a deactivated account: when the user exists and the
    password verifies but [is_active] is 0 or NULL, the answer is 403
    [{error: "Account is inactive"}]; no session is created, no cookie is
    set and [last_login] is not touched. *)
Theorem login_inactive_account (env : Env) (req : Request) (w : World)
    (email password : string) (fullName : option string) (u : UserRow) :
  routeOf req = Login ->
  req_body req = Fields (Some email) (Some (JStr password)) fullName ->
  email <> EmptyString -> password <> EmptyString ->
  Sql.selectUserByEmail email (db w) = Some u ->
  metaReadable u ->
  verifyPassword password (u_password_hash u) = Normal true ->
  isActive u = false ->
  handleAuthRequest env req w = (Normal true, answered 403 "Account is inactive" w).
Proof.
  intros Hroute Hbody Hemail Hpassword Hfound Hmeta Hverify Hinactive.
  destruct (parseMeta_returns u Hmeta) as [_ [user Hparse]].
  rewrite handleAuthRequest_route, Hroute. apply (handled _ _ tt).
  rewrite (login_verified env req w email password fullName u user) by assumption.
  rewrite Hinactive. reflexivity.
Qed.


End Credentials.

Lemma login_inactive_account_witness :
  handleAuthRequest Demo.env
    (Demo.POST "/api/auth/login" (Fields (Some "a@b.com") (Some (JStr "Secret123!")) None))
    (Demo.start (Sample.store 0 2000))
  = (Normal true, answered 403 "Account is inactive" (Demo.start (Sample.store 0 2000))).
Proof.
  apply (login_inactive_account Demo.env _ _ "a@b.com" "Secret123!" None (Sample.alice 0));
    try reflexivity; try discriminate.
  intros text [= <-] _. discriminate.
Defined.


Section Registration.
Context `{Platform}.

Lemma insertUser_run email passwordHash fullName metaJson ts d :
  Sql.selectUserByEmail email d = None ->
  Sql.insertUser email passwordHash fullName metaJson ts d
  = (Normal (users_seq d + 1)%Z,
     {| users := users d
                 ++ [ {| u_id := users_seq d + 1; u_email := email;
                         u_password_hash := passwordHash; u_full_name := fullName;
                         u_meta := Some metaJson; u_created_at := ts; u_updated_at := ts;
                         u_last_login := None; u_is_active := Some 1%Z;
                         u_role := "user" |} ];
        sessions := sessions d;
        users_seq := users_seq d + 1; sessions_seq := sessions_seq d |}).
Proof. intros Hnone. unfold Sql.insertUser. rewrite Hnone. reflexivity. Qed.

Lemma find_app_last {A} (p : A -> bool) (l : list A) x :
  p x = true -> exists y, List.find p (l ++ [x]) = Some y.
Proof.
  intros Hx. induction l as [|z l IH]; simpl.
  - rewrite Hx. eauto.
  - destruct (p z); eauto.
Qed.

(** Registration up to the creation of the session: the input is valid, no
    user has the email, and the insert gave a user id that is not 0. *)
Lemma register_inserted env req w email password fullName :
  req_body req = Fields (Some email) (Some (JStr password)) fullName ->
  email <> EmptyString -> password <> EmptyString ->
  Sql.selectUserByEmail email (db w) = None ->
  (0 <= users_seq (db w))%Z ->
  let row := registeredRow env (db w) email password fullName in
  let w1 := {| db := {| users := users (db w) ++ [row]; sessions := sessions (db w);
                       users_seq := users_seq (db w) + 1;
                       sessions_seq := sessions_seq (db w) |};
               res := res w |} in
  register env req w
  = tryCatch
      (let! token := createSession env (u_id row) in
       do! setSessionCookie env token noOptions in
       let! user := getUserByEmail email in
       let! user := deletePasswordHash user in
       sendJson 200 (successBody user))
      (fun _ => sendJson 400 (errorBody "Invalid request")) w1.
Proof.
  intros Hbody Hemail Hpassword Hnone Hseq row w1.
  unfold register, tryCatch. rewrite Hbody.
  rewrite missing_present, falsy_present by assumption. simpl.
  unfold bind at 1. rewrite getUserByEmail_run, Hnone. simpl.
  unfold bind at 1, lift. cbv beta iota.
  unfold registerUser. cbv zeta. unfold bind at 1.
  unfold createUser, tryCatch. unfold bind at 1. unfold execThrowing.
  rewrite insertUser_run by assumption. simpl.
  destruct (Z.eqb_spec (users_seq (db w) + 1) 0) as [Hzero|_]; [lia|].
  reflexivity.
Qed.

(** X11.  A successful registration.  When no user has the email, the
    counter of user ids is not negative, the token drawn is not in the
    table and [JSON.parse("{}")] gives [v], the answer is 200
    [{success: true, user}] with the new row, [meta] parsed and
    [password_hash] deleted; the cookie carries the token; the store gains
    one user (active, role "user", the id after the counter) and one session
    of that user; and the password verifies against the hash stored. *)
Theorem register_creates_account (env : Env) (req : Request) (w : World)
    (email password : string) (fullName : option string) (v : Json) :
  routeOf req = Register ->
  req_body req = Fields (Some email) (Some (JStr password)) fullName ->
  email <> EmptyString -> password <> EmptyString ->
  Sql.selectUserByEmail email (db w) = None ->
  (0 <= users_seq (db w))%Z ->
  (forall s, In s (sessions (db w)) -> s_token s <> Buffer.toHex (randomBytes env 32)) ->
  JSON_parse "{}" = Some v ->
  let row := registeredRow env (db w) email password fullName in
  exists w',
    handleAuthRequest env req w = (Normal true, w')
    /\ r_status (res w') = Some 200%Z
    /\ r_body (res w')
       = Some (successBody (deleteProp "password_hash" (setProp "meta" v (allColumns row))))
    /\ getHeader "Set-Cookie" (res w')
       = Some (sessionCookie env (Buffer.toHex (randomBytes env 32)) noOptions)
    /\ users (db w') = (users (db w) ++ [row])%list
    /\ sessions (db w') = (sessions (db w) ++ [openedSession env (db w) (u_id row)])%list
    /\ verifyPassword password (u_password_hash row) = Normal true.
Proof.
  intros Hroute Hbody Hemail Hpassword Hnone Hseq Hfresh Hparse row.
  set (d1 := {| users := users (db w) ++ [row]; sessions := sessions (db w);
                users_seq := users_seq (db w) + 1;
                sessions_seq := sessions_seq (db w) |}).
  destruct (find_app_last (fun u => (u_id u =? u_id row)%Z) (users (db w)) row
              (Z.eqb_refl _)) as [u' Hu'].
  pose proof (insertSession_run (u_id row) (Buffer.toHex (randomBytes env 32))
                (now env + SESSION_DURATION) (current_timestamp env) d1 u' Hu' Hfresh)
    as Hrun.
  eexists. split.
  - rewrite handleAuthRequest_route, Hroute. apply (handled _ _ tt).
    rewrite (register_inserted env req w email password fullName) by assumption.
    cbv zeta. fold row. fold d1. unfold tryCatch.
    unfold bind at 1. unfold createSession. cbv zeta. unfold bind at 1.
    unfold execThrowing. simpl db. rewrite Hrun. unfold ret at 1. cbv beta iota.
    unfold bind at 1. unfold setSessionCookie, respond. cbv beta iota.
    unfold bind at 1. rewrite getUserByEmail_run. cbv beta iota.
    unfold Sql.selectUserByEmail. simpl db. simpl users.
    rewrite find_app_second by exact Hnone. simpl List.find. rewrite String.eqb_refl.
    unfold loaded, parseMeta. simpl getProp. simpl Js.truthy. cbv iota.
    rewrite Hparse. reflexivity.
  - simpl. split; [reflexivity|]. split; [reflexivity|]. split; [|split; [|split]].
    + rewrite getHeader_sendJson by discriminate. apply getHeader_setHeader.
    + reflexivity.
    + reflexivity.
    + simpl.
      rewrite (verifyPassword_hashPassword (randomBytes env 16) password password).
      rewrite bool_decide_eq_true_2; reflexivity.
Qed.

(** X12.  Registration is not atomic.  When the user was inserted and
    the creation of the session then fails because the token drawn is
    already in the table, the answer is 400 [{error: "Invalid request"}]
    with no cookie set and no session added, and the user that was inserted
    stays in the store. *)
Theorem register_keeps_user_when_session_fails (env : Env) (req : Request) (w : World)
    (email password : string) (fullName : option string) (s : SessionRow) :
  routeOf req = Register ->
  req_body req = Fields (Some email) (Some (JStr password)) fullName ->
  email <> EmptyString -> password <> EmptyString ->
  Sql.selectUserByEmail email (db w) = None ->
  (0 <= users_seq (db w))%Z ->
  In s (sessions (db w)) -> s_token s = Buffer.toHex (randomBytes env 32) ->
  exists w',
    handleAuthRequest env req w = (Normal true, w')
    /\ res w' = res (answered 400 "Invalid request" w)
    /\ users (db w')
       = (users (db w) ++ [registeredRow env (db w) email password fullName])%list
    /\ sessions (db w') = sessions (db w).
Proof.
  intros Hroute Hbody Hemail Hpassword Hnone Hseq Hin Htoken.
  set (row := registeredRow env (db w) email password fullName).
  destruct (find_app_last (fun u => (u_id u =? u_id row)%Z) (users (db w)) row
              (Z.eqb_refl _)) as [u' Hu'].
  assert (existsb (fun r => String.eqb (s_token r) (Buffer.toHex (randomBytes env 32)))
            (sessions (db w)) = true) as Hstored.
  { apply existsb_exists. exists s. split; [assumption|]. apply String.eqb_eq. assumption. }
  eexists. split.
  - rewrite handleAuthRequest_route, Hroute. apply (handled _ _ tt).
    rewrite (register_inserted env req w email password fullName) by assumption.
    cbv zeta. fold row. unfold tryCatch.
    unfold bind at 1. unfold createSession. cbv zeta. unfold bind at 1.
    unfold execThrowing, Sql.insertSession. simpl db.
    unfold Sql.selectUserById at 1. simpl users. rewrite Hu'. simpl sessions.
    rewrite Hstored. reflexivity.
  - simpl. repeat split; reflexivity.
Qed.

End Registration.

Lemma register_creates_account_witness :
  let req := Demo.POST "/api/auth/register"
               (Fields (Some "c@d.org") (Some (JStr "Secret123!")) (Some "Carol")) in
  let w := Demo.start (Sample.store 1 2000) in
  let row := registeredRow Demo.env (db w) "c@d.org" "Secret123!" (Some "Carol") in
  exists w',
    handleAuthRequest Demo.env req w = (Normal true, w')
    /\ r_status (res w') = Some 200%Z
    /\ r_body (res w')
       = Some (successBody (deleteProp "password_hash"
                              (setProp "meta" (JObj []) (allColumns row))))
    /\ getHeader "Set-Cookie" (res w')
       = Some (sessionCookie Demo.env (Buffer.toHex (randomBytes Demo.env 32)) noOptions)
    /\ users (db w') = (users (db w) ++ [row])%list
    /\ sessions (db w')
       = (sessions (db w) ++ [openedSession Demo.env (db w) (u_id row)])%list
    /\ verifyPassword "Secret123!" (u_password_hash row) = Normal true.
Proof.
  apply (register_creates_account Demo.env _ _ "c@d.org" "Secret123!" (Some "Carol")
           (JObj []));
    try reflexivity; try discriminate.
  intros s [<-|[]]. vm_compute. discriminate.
Defined.

Lemma register_keeps_user_when_session_fails_witness :
  let req := Demo.POST "/api/auth/register"
               (Fields (Some "c@d.org") (Some (JStr "Secret123!")) None) in
  let taken := {| s_id := 1; s_user_id := 1;
                  s_token := Buffer.toHex (randomBytes Demo.env 32);
                  s_expires_at := 2000; s_created_at := "2024-01-01 00:00:00" |} in
  let w := Demo.start {| users := [Sample.alice 1]; sessions := [taken];
                         users_seq := 1; sessions_seq := 1 |} in
  exists w',
    handleAuthRequest Demo.env req w = (Normal true, w')
    /\ res w' = res (answered 400 "Invalid request" w)
    /\ users (db w')
       = (users (db w) ++ [registeredRow Demo.env (db w) "c@d.org" "Secret123!" None])%list
    /\ sessions (db w') = sessions (db w).
Proof.
  cbv zeta.
  apply (register_keeps_user_when_session_fails Demo.env _ _ "c@d.org" "Secret123!" None
           {| s_id := 1; s_user_id := 1;
              s_token := Buffer.toHex (randomBytes Demo.env 32);
              s_expires_at := 2000; s_created_at := "2024-01-01 00:00:00" |});
    try reflexivity; try discriminate.
  left. reflexivity.
Defined.

(* ================================================================== *)
(** * Further properties of the 'hex' encoding and of the hasher       *)
(* ================================================================== *)

Lemma length_append (a b : string) :
  String.length (a ++ b) = String.length a + String.length b.
Proof.
  induction a as [|c a IH]; [reflexivity|].
  rewrite append_cons. simpl. rewrite IH. reflexivity.
Qed.

Lemma length_toHex buf : String.length (Buffer.toHex buf) = 2 * length buf.
Proof. induction buf as [|b buf IH]; simpl; [reflexivity|]. rewrite IH. lia. Qed.

Lemma fromHex_toHex_append buf s :
  Buffer.fromHex (Buffer.toHex buf ++ s) = (buf ++ Buffer.fromHex s)%list.
Proof.
  induction buf as [|b buf IH]; [reflexivity|].
  rewrite toHex_cons, append_assoc, fromHex_toHex_cons, IH. reflexivity.
Qed.

Lemma toHex_everyChar buf : everyChar isLowerHexDigit (Buffer.toHex buf).
Proof.
  induction buf as [|b buf IH]; simpl; [exact I|].
  repeat split; try assumption; destruct b; reflexivity.
Qed.

Lemma everyChar_absent p c s : p c = false -> everyChar p s -> absent c s.
Proof.
  intros Hc. induction s as [|c' s IH]; simpl; [trivial|].
  intros [Hc' Hs]. split; [congruence|auto].
Qed.

Lemma everyChar_weaken (p q : ascii -> bool) s :
  (forall c, p c = true -> q c = true) -> everyChar p s -> everyChar q s.
Proof.
  intros Hpq. induction s as [|c s IH]; simpl; [trivial|].
  intros [Hc Hs]. auto.
Qed.

Lemma lowerHexDigit_not_delimiter c :
  isLowerHexDigit c = true -> isCookieDelimiter c = false.
Proof.
  destruct c as [[] [] [] [] [] [] [] []]; vm_compute; congruence.
Qed.

(** X13.  The 'hex' encoding round trip.  [toString('hex')] writes two
    lower-case digits per byte; [Buffer.from(_, 'hex')] reads them back, and
    when other text follows the digits it reads the bytes and goes on with
    that text, so two buffers never have the same encoding. *)
Theorem hex_round_trip (buf : Buffer.t) :
  String.length (Buffer.toHex buf) = 2 * length buf
  /\ everyChar isLowerHexDigit (Buffer.toHex buf)
  /\ Buffer.fromHex (Buffer.toHex buf) = buf
  /\ (forall s, Buffer.fromHex (Buffer.toHex buf ++ s) = (buf ++ Buffer.fromHex s)%list)
  /\ (forall c, Buffer.fromHex (Buffer.toHex buf ++ String c EmptyString) = buf)
  /\ (forall buf', Buffer.toHex buf = Buffer.toHex buf' -> buf = buf').
Proof.
  split; [apply length_toHex|]. split; [apply toHex_everyChar|].
  split; [apply fromHex_toHex|]. split; [intros s; apply fromHex_toHex_append|].
  split.
  - intros c. rewrite fromHex_toHex_append. simpl. apply app_nil_r.
  - intros buf' Heq. rewrite <- (fromHex_toHex buf), <- (fromHex_toHex buf'), Heq.
    reflexivity.
Qed.

Section Salt.
Context `{Platform}.

Lemma saltPart_hashPassword rnd password :
  saltPart (hashPassword rnd password) = Buffer.toHex rnd.
Proof. unfold saltPart. rewrite split_hashPassword. reflexivity. Qed.

Lemma digestPart_hashPassword rnd password :
  digestPart (hashPassword rnd password)
  = Some (Buffer.toHex (pbkdf2Sync password (Buffer.toHex rnd) 100000 64 "sha512")).
Proof. unfold digestPart. rewrite split_hashPassword. reflexivity. Qed.

(** X14.  The format of a stored hash.  With the 16 random bytes of
    [hashPassword], the result has 161 characters: the 32 hexadecimal
    digits of the salt, a ':', and the 128 hexadecimal digits of the
    64-byte key derived from the password under that salt. *)
Theorem hashPassword_format (rnd : Buffer.t) (password : string) :
  length rnd = 16 ->
  exists salt digest,
    hashPassword rnd password = salt ++ ":" ++ digest
    /\ saltPart (hashPassword rnd password) = salt
    /\ digestPart (hashPassword rnd password) = Some digest
    /\ String.length salt = 32 /\ Buffer.fromHex salt = rnd
    /\ String.length digest = 128
    /\ Buffer.fromHex digest = pbkdf2Sync password salt 100000 64 "sha512"
    /\ String.length (hashPassword rnd password) = 161.
Proof.
  intros Hrnd.
  exists (Buffer.toHex rnd),
         (Buffer.toHex (pbkdf2Sync password (Buffer.toHex rnd) 100000 64 "sha512")).
  split; [reflexivity|]. split; [apply saltPart_hashPassword|].
  split; [apply digestPart_hashPassword|].
  rewrite !fromHex_toHex. unfold hashPassword. cbv zeta.
  rewrite !length_append, !length_toHex, pbkdf2Sync_length, Hrnd.
  repeat split; reflexivity.
Qed.

(** X15.  Fresh salts give fresh hashes.  Two calls of [hashPassword]
    that drew different random bytes return different stored hashes,
    whatever the passwords, the same password included; the bytes drawn can
    be read back from the hash. *)
Theorem hashPassword_fresh_salt (rnd rnd' : Buffer.t) (password password' : string) :
  Buffer.fromHex (saltPart (hashPassword rnd password)) = rnd
  /\ (rnd <> rnd' -> hashPassword rnd password <> hashPassword rnd' password').
Proof.
  split.
  - rewrite saltPart_hashPassword. apply fromHex_toHex.
  - intros Hne Heq. apply Hne.
    rewrite <- (fromHex_toHex rnd), <- (fromHex_toHex rnd').
    rewrite <- (saltPart_hashPassword rnd password),
            <- (saltPart_hashPassword rnd' password'), Heq. reflexivity.
Qed.

End Salt.

Lemma hashPassword_format_witness :
  exists salt digest,
    hashPassword (randomBytes Demo.env 16) "Secret123!" = salt ++ ":" ++ digest
    /\ saltPart (hashPassword (randomBytes Demo.env 16) "Secret123!") = salt
    /\ digestPart (hashPassword (randomBytes Demo.env 16) "Secret123!") = Some digest
    /\ String.length salt = 32 /\ Buffer.fromHex salt = randomBytes Demo.env 16
    /\ String.length digest = 128
    /\ Buffer.fromHex digest = pbkdf2Sync "Secret123!" salt 100000 64 "sha512"
    /\ String.length (hashPassword (randomBytes Demo.env 16) "Secret123!") = 161.
Proof.
  apply (hashPassword_format (randomBytes Demo.env 16) "Secret123!"). reflexivity.
Defined.

(** X16.  [generateToken], when [randomBytes] returns as many bytes as it
    is asked for, returns twice as many lower-case hexadecimal digits as the
    byte length, 64 by default, which decode to the bytes drawn; a token
    [createSession] returns has the form of [generateToken()]: 64
    lower-case hexadecimal digits. *)
Theorem generateToken_hex `{Platform} (env : Env) (byteLength : option nat) :
  (forall n, length (randomBytes env n) = n) ->
  String.length (generateToken env byteLength) = 2 * default 32 byteLength
  /\ everyChar isLowerHexDigit (generateToken env byteLength)
  /\ Buffer.fromHex (generateToken env byteLength) = randomBytes env (default 32 byteLength)
  /\ String.length (generateToken env None) = 64
  /\ (forall userId w token w',
        createSession env userId w = (Normal token, w') ->
        String.length token = 64 /\ everyChar isLowerHexDigit token).
Proof.
  intros Hlen. unfold generateToken.
  rewrite !length_toHex, !Hlen, fromHex_toHex.
  split; [reflexivity|]. split; [apply toHex_everyChar|]. split; [reflexivity|].
  split; [reflexivity|]. intros userId w token w'. unfold createSession. cbv zeta.
  unfold bind, execThrowing, ret.
  destruct (Sql.insertSession _ _ _ _ _) as [[[]|e] d]; intros [= <- _].
  rewrite length_toHex, Hlen. split; [reflexivity|apply toHex_everyChar].
Qed.

Lemma generateToken_hex_witness :
  String.length (generateToken Demo.env (Some 8)) = 2 * default 32 (Some 8)
  /\ everyChar isLowerHexDigit (generateToken Demo.env (Some 8))
  /\ Buffer.fromHex (generateToken Demo.env (Some 8))
     = randomBytes Demo.env (default 32 (Some 8))
  /\ String.length (generateToken Demo.env None) = 64
  /\ (forall userId w token w',
        createSession Demo.env userId w = (Normal token, w') ->
        String.length token = 64 /\ everyChar isLowerHexDigit token).
Proof.
  apply (generateToken_hex Demo.env (Some 8)). intros n. apply repeat_length.
Defined.

(* ================================================================== *)
(** * Further properties of the cookie adapter                         *)
(* ================================================================== *)

Lemma fold_storeSegment_proto segments : forall cookies : gmap string string,
  fold_left storeSegment segments cookies !! "__proto__" = cookies !! "__proto__".
Proof.
  induction segments as [|seg segments IH]; intros cookies; simpl; [reflexivity|].
  rewrite IH. unfold storeSegment, setProperty.
  case_decide as Hk; [reflexivity|]. apply lookup_insert_ne. assumption.
Qed.

(** X17.  What [parseCookies] makes of a Cookie header: the header is cut
    at every ';', each segment at its first '='; under a name (trimmed) the
    object holds the value (trimmed) of the last segment with that name, and
    nothing under a name no segment has.  A segment named [__proto__] is
    not stored.  No header, or an empty one, gives the empty object. *)
Theorem parseCookies_last_segment_wins (req : Request) :
  exists cookies : gmap string string,
    parseCookies req = Normal cookies
    /\ cookies !! "__proto__" = None
    /\ match req_cookie req with
       | None | Some EmptyString => cookies = ∅
       | Some h =>
           forall name, name <> "__proto__" ->
             cookies !! name = segmentValue <$> lastNamed name (Js.split ";" h)
       end.
Proof.
  unfold parseCookies. destruct (req_cookie req) as [h|].
  - destruct h as [|c h].
    + exists ∅. repeat split.
    + change (Js.truthy (String c h)) with true. cbv iota.
      rewrite forEach_parseCookie. eexists. split; [reflexivity|]. split.
      * rewrite fold_storeSegment_proto. reflexivity.
      * intros name Hname. rewrite lookup_fold_storeSegment by assumption.
        destruct (lastNamed name _); reflexivity.
  - exists ∅. repeat split.
Qed.

Example parseCookies_proto :
  parseCookies (Demo.GET "/" (Some "__proto__=x; a = 1 ;a=2;b")) 
  = Normal (<["b" := ""]> (<["a" := "2"]> ∅)).
Proof. vm_compute. reflexivity. Qed.

Lemma split_append sep a b :
  Js.split sep (a ++ String sep b) = (Js.split sep a ++ Js.split sep b)%list.
Proof.
  induction a as [|c a IH].
  - simpl. rewrite Ascii.eqb_refl. reflexivity.
  - rewrite append_cons. simpl. rewrite IH.
    destruct (Ascii.eqb c sep); [reflexivity|].
    pose proof (split_nonempty sep a) as Hne.
    destruct (Js.split sep a); [contradiction|reflexivity].
Qed.

Lemma lastNamed_last name segments seg :
  segmentName seg = name -> lastNamed name (segments ++ [seg]) = Some seg.
Proof.
  intros Hname. induction segments as [|s segments IH]; simpl.
  - rewrite Hname, String.eqb_refl. reflexivity.
  - rewrite IH. reflexivity.
Qed.

Lemma trimStart_everyChar s :
  everyChar (fun c => negb (Js.isWhiteSpace c)) s -> Js.trimStart s = s.
Proof.
  destruct s as [|c s]; simpl; [reflexivity|].
  intros [Hc _]. apply negb_true_iff in Hc. rewrite Hc. reflexivity.
Qed.

Lemma trimEnd_everyChar s :
  everyChar (fun c => negb (Js.isWhiteSpace c)) s -> Js.trimEnd s = s.
Proof.
  induction s as [|c s IH]; simpl; [reflexivity|].
  intros [Hc Hs]. apply negb_true_iff in Hc. rewrite (IH Hs), Hc.
  destruct s; reflexivity.
Qed.

Lemma trim_everyChar s :
  everyChar (fun c => negb (Js.isWhiteSpace c)) s -> Js.trim s = s.
Proof.
  intros Hs. unfold Js.trim. rewrite (trimStart_everyChar s Hs). apply trimEnd_everyChar, Hs.
Qed.

(** A token without ';', '=' and white space, such as the hexadecimal
    tokens of [createSession]. *)
Lemma cookie_pair_segment token :
  everyChar (fun c => negb (isCookieDelimiter c)) token ->
  Js.split ";" (COOKIE_NAME ++ "=" ++ token) = [COOKIE_NAME ++ "=" ++ token]
  /\ segmentName (COOKIE_NAME ++ "=" ++ token) = COOKIE_NAME
  /\ segmentValue (COOKIE_NAME ++ "=" ++ token) = token.
Proof.
  intros Htoken.
  assert (forall c, isCookieDelimiter c = true -> absent c token) as Habsent.
  { intros c Hc. apply (everyChar_absent (fun c => negb (isCookieDelimiter c))); [|assumption].
    rewrite Hc. reflexivity. }
  assert (Js.trim token = token) as Htrim.
  { apply trim_everyChar. revert Htoken. apply everyChar_weaken.
    intros c Hc. apply negb_true_iff in Hc. apply negb_true_iff.
    unfold isCookieDelimiter in Hc. apply orb_false_iff in Hc as [_ Hc]. exact Hc. }
  assert (Js.split "=" (COOKIE_NAME ++ "=" ++ token) = [COOKIE_NAME; token]) as Hsplit.
  { change (COOKIE_NAME ++ "=" ++ token) with (COOKIE_NAME ++ String "=" token).
    rewrite split_at_first by (vm_compute; repeat split; discriminate).
    rewrite split_absent by (apply Habsent; reflexivity). reflexivity. }
  split; [|split].
  - apply split_absent.
    change (COOKIE_NAME ++ "=" ++ token) with ("session_token=" ++ token).
    rewrite !append_cons, append_empty. simpl.
    repeat (split; [discriminate|]). apply Habsent. reflexivity.
  - unfold segmentName. rewrite Hsplit. reflexivity.
  - unfold segmentValue. rewrite Hsplit. simpl. exact Htrim.
Qed.

Lemma trimStart_padding pad s :
  everyChar Js.isWhiteSpace pad -> Js.trimStart (pad ++ s) = Js.trimStart s.
Proof.
  induction pad as [|c pad IH]; [reflexivity|].
  intros [Hc Hpad]. rewrite append_cons. simpl. rewrite Hc. auto.
Qed.

(** The pair after the white space a Cookie header puts between cookies. *)
Lemma cookie_pair_segment_padded pad token :
  everyChar Js.isWhiteSpace pad ->
  everyChar (fun c => negb (isCookieDelimiter c)) token ->
  Js.split ";" (pad ++ COOKIE_NAME ++ "=" ++ token) = [pad ++ COOKIE_NAME ++ "=" ++ token]
  /\ segmentName (pad ++ COOKIE_NAME ++ "=" ++ token) = COOKIE_NAME
  /\ segmentValue (pad ++ COOKIE_NAME ++ "=" ++ token) = token.
Proof.
  intros Hpad Htoken.
  destruct (cookie_pair_segment token Htoken) as (Hpair & _ & _).
  assert (forall c, isCookieDelimiter c = true -> absent c token) as Habsent.
  { intros c Hc. apply (everyChar_absent (fun c => negb (isCookieDelimiter c))); [|assumption].
    rewrite Hc. reflexivity. }
  assert (forall c, Js.isWhiteSpace c = false -> absent c pad) as Hclear.
  { intros c Hc. apply (everyChar_absent Js.isWhiteSpace); assumption. }
  assert (Js.trim token = token) as Htrim.
  { apply trim_everyChar. revert Htoken. apply everyChar_weaken.
    intros c Hc. apply negb_true_iff in Hc. apply negb_true_iff.
    unfold isCookieDelimiter in Hc. apply orb_false_iff in Hc as [_ Hc]. exact Hc. }
  assert (Js.split "=" (pad ++ COOKIE_NAME ++ "=" ++ token) = [pad ++ COOKIE_NAME; token])
    as Hsplit.
  { change (pad ++ COOKIE_NAME ++ "=" ++ token)
      with (pad ++ COOKIE_NAME ++ String "=" token).
    rewrite <- append_assoc.
    rewrite split_at_first
      by (apply absent_append; [apply Hclear; reflexivity
                               |vm_compute; repeat split; discriminate]).
    rewrite split_absent by (apply Habsent; reflexivity). reflexivity. }
  split; [|split].
  - apply split_absent, absent_append; [apply Hclear; reflexivity|].
    change (COOKIE_NAME ++ "=" ++ token) with ("session_token=" ++ token).
    rewrite !append_cons, append_empty. simpl.
    repeat (split; [discriminate|]). apply Habsent. reflexivity.
  - unfold segmentName. rewrite Hsplit. unfold Js.trim.
    rewrite (trimStart_padding pad COOKIE_NAME Hpad). reflexivity.
  - unfold segmentValue. rewrite Hsplit. simpl. exact Htrim.
Qed.

(** X18.  The cookie round trip.  [setSessionCookie] writes a header that
    starts with the pair session_token=<token>; when the token has no ';',
    no '=' and no white space and is not empty (the hexadecimal tokens of
    [createSession] are such), a request that sends the pair back, alone or
    as the last cookie after any others, gives [getSessionToken] the token.
    The last cookie follows the ';' directly or after white space, as in
    "theme=dark; session_token=<token>". *)
Theorem session_cookie_round_trip (env : Env) (token : string) (options : CookieOptions) :
  everyChar (fun c => negb (isCookieDelimiter c)) token ->
  token <> EmptyString ->
  let pair := COOKIE_NAME ++ "=" ++ token in
  head (Js.split ";" (sessionCookie env token options)) = Some pair
  /\ (forall req, req_cookie req = Some pair -> getSessionToken req = Normal (Some token))
  /\ (forall req others pad,
        everyChar Js.isWhiteSpace pad ->
        req_cookie req = Some (others ++ ";" ++ pad ++ pair) ->
        getSessionToken req = Normal (Some token))
  /\ (forall req others,
        req_cookie req = Some (others ++ "; " ++ pair) ->
        getSessionToken req = Normal (Some token)).
Proof.
  intros Htoken Hne pair.
  destruct (cookie_pair_segment token Htoken) as (Hsplit & Hname & Hvalue).
  fold pair in Hsplit, Hname, Hvalue.
  assert (Js.truthy token = true) as Htruthy.
  { destruct (Js.truthy token) eqn:Ht; [reflexivity|].
    apply truthy_false in Ht. contradiction. }
  assert (forall req others pad,
            everyChar Js.isWhiteSpace pad ->
            req_cookie req = Some (others ++ ";" ++ pad ++ pair) ->
            getSessionToken req = Normal (Some token)) as Hpadded.
  { intros req others pad Hpad Hreq.
    destruct (cookie_pair_segment_padded pad token Hpad Htoken) as (Hsplit' & Hname' & Hvalue').
    fold pair in Hsplit', Hname', Hvalue'.
    rewrite (getSessionToken_header req _ Hreq).
    change (others ++ ";" ++ pad ++ pair) with (others ++ String ";" (pad ++ pair)).
    rewrite split_append, Hsplit', (lastNamed_last COOKIE_NAME _ (pad ++ pair) Hname').
    rewrite Hvalue', Htruthy. reflexivity. }
  split; [|split; [|split]].
  - unfold sessionCookie. cbv zeta.
    change (COOKIE_NAME ++ "=" ++ token ++ "; Max-Age=" ++ ?rest)
      with (COOKIE_NAME ++ "=" ++ token ++ String ";" (" Max-Age=" ++ rest)).
    rewrite <- !append_assoc. rewrite (append_assoc COOKIE_NAME "=" token). fold pair.
    rewrite split_append, Hsplit. reflexivity.
  - intros req Hreq. rewrite (getSessionToken_header req pair Hreq), Hsplit.
    rewrite (lastNamed_last COOKIE_NAME [] pair Hname : lastNamed COOKIE_NAME [pair] = _).
    rewrite Hvalue, Htruthy. reflexivity.
  - exact Hpadded.
  - intros req others Hreq. apply (Hpadded req others " "); [|exact Hreq].
    split; [reflexivity|exact I].
Qed.

Lemma session_cookie_round_trip_witness :
  let token := Buffer.toHex (randomBytes Demo.env 32) in
  let pair := COOKIE_NAME ++ "=" ++ token in
  head (Js.split ";" (sessionCookie Demo.env token noOptions)) = Some pair
  /\ (forall req, req_cookie req = Some pair -> getSessionToken req = Normal (Some token))
  /\ (forall req others pad,
        everyChar Js.isWhiteSpace pad ->
        req_cookie req = Some (others ++ ";" ++ pad ++ pair) ->
        getSessionToken req = Normal (Some token))
  /\ (forall req others,
        req_cookie req = Some (others ++ "; " ++ pair) ->
        getSessionToken req = Normal (Some token)).
Proof.
  apply (session_cookie_round_trip Demo.env (Buffer.toHex (randomBytes Demo.env 32))
           noOptions).
  - apply (everyChar_weaken isLowerHexDigit); [|apply toHex_everyChar].
    intros c Hc. apply negb_true_iff, lowerHexDigit_not_delimiter, Hc.
  - discriminate.
Defined.

(** The header a browser sends when it holds another cookie as well. *)
Example getSessionToken_after_other_cookie :
  getSessionToken
    (Demo.GET "/api/auth/me" (Some ("theme=dark; session_token=" ++ Sample.token)))
  = Normal (Some Sample.token).
Proof. vm_compute. reflexivity. Qed.

(* ================================================================== *)
(** * Properties of updateUser                                         *)
(* ================================================================== *)

Lemma map_unmatched id (f : UserRow -> UserRow) (rows : list UserRow) :
  (forall u, In u rows -> u_id u <> id) ->
  map (fun u => if (u_id u =? id)%Z then f u else u) rows = rows.
Proof.
  intros Hnone. induction rows as [|u rows IH]; simpl; [reflexivity|].
  rewrite IH by (intros; apply Hnone; right; assumption).
  destruct (Z.eqb_spec (u_id u) id) as [Heq|_]; [|reflexivity].
  exfalso. apply (Hnone u); [left; reflexivity|assumption].
Qed.

Lemma existsb_unmatched id (p : UserRow -> bool) (rows : list UserRow) :
  (forall u, In u rows -> u_id u <> id) ->
  existsb (fun u => (u_id u =? id)%Z && p u) rows = false.
Proof.
  intros Hnone. induction rows as [|u rows IH]; simpl; [reflexivity|].
  rewrite IH by (intros; apply Hnone; right; assumption).
  destruct (Z.eqb_spec (u_id u) id) as [Heq|_]; [|reflexivity].
  exfalso. apply (Hnone u); [left; reflexivity|assumption].
Qed.

Lemma updateUser_throwing env id data w e :
  assignments data <> [] ->
  SqlUpdate.statement id (assignments data) (current_timestamp env) (db w) = (Throw e, db w) ->
  updateUser env id data w = (Normal false, w).
Proof.
  intros Hsets Hrun. unfold updateUser, tryCatch.
  destruct (assignments data) as [|a sets]; [contradiction|].
  unfold bind, execThrowing. rewrite Hrun. destruct w. reflexivity.
Qed.

Lemma updateUser_running env id data w d :
  assignments data <> [] ->
  SqlUpdate.statement id (assignments data) (current_timestamp env) (db w) = (Normal tt, d) ->
  updateUser env id data w = (Normal true, {| db := d; res := res w |}).
Proof.
  intros Hsets Hrun. unfold updateUser, tryCatch.
  destruct (assignments data) as [|a sets]; [contradiction|].
  unfold bind, execThrowing. rewrite Hrun. reflexivity.
Qed.

Lemma updated_id sets ts u : u_id (SqlUpdate.updated sets ts u) = u_id u.
Proof.
  unfold SqlUpdate.updated. simpl. revert u.
  induction sets as [|a sets IH]; intros u; simpl; [reflexivity|]. rewrite IH. reflexivity.
Qed.

(** X19.  When [updateUser] changes nothing.  With no column to write
    ([data] has no email and no role, or empty ones, and nothing else) it
    returns false; with an id no row has it runs the statement and returns
    true although no row was written.  In both cases the store is as it
    was. *)
Theorem updateUser_writes_nothing (env : Env) (id : Z) (data : UserData) (w : World) :
  (assignments data = [] -> updateUser env id data w = (Normal false, w))
  /\ (assignments data <> [] -> Sql.selectUserById id (db w) = None ->
        updateUser env id data w = (Normal true, w)).
Proof.
  split.
  - intros Hsets. unfold updateUser, tryCatch. rewrite Hsets. reflexivity.
  - intros Hsets Hnone.
    assert (forall u, In u (users (db w)) -> u_id u <> id) as Hrows
      by (intros u Hin; apply (selectUserById_none id (db w) u Hnone Hin)).
    rewrite (updateUser_running env id data w (db w) Hsets); [destruct w; reflexivity|].
    unfold SqlUpdate.statement. cbv zeta.
    rewrite (map_unmatched id _ _ Hrows), !(existsb_unmatched id _ _ Hrows), !andb_false_r.
    destruct (db w). reflexivity.
Qed.

Example updateUser_empty_strings :
  assignments {| data_email := Some ""; data_full_name := None; data_meta := None;
                 data_is_active := None; data_role := Some "" |} = [].
Proof. reflexivity. Qed.

Lemma updated_role env data role u :
  data_role data = Some role -> Js.truthy role = true ->
  u_role (rewritten env data u) = role.
Proof.
  intros Hrole Htruthy. unfold rewritten, assignments. rewrite Hrole, Htruthy.
  destruct (data_email data) as [email|]; [destruct (Js.truthy email)|];
    destruct (data_full_name data), (data_meta data), (data_is_active data); reflexivity.
Qed.

Lemma updated_email env data email u :
  data_email data = Some email -> Js.truthy email = true ->
  u_email (rewritten env data u) = email.
Proof.
  intros Hemail Htruthy. unfold rewritten, assignments. rewrite Hemail, Htruthy.
  destruct (data_role data) as [role|]; [destruct (Js.truthy role)|];
    destruct (data_full_name data), (data_meta data), (data_is_active data); reflexivity.
Qed.

Lemma setsRole_assignments data role :
  data_role data = Some role -> Js.truthy role = true ->
  SqlUpdate.setsRole (assignments data) = true /\ assignments data <> [].
Proof.
  intros Hrole Htruthy. unfold assignments. rewrite Hrole, Htruthy.
  destruct (data_email data) as [email|]; [destruct (Js.truthy email)|];
    destruct (data_full_name data), (data_meta data), (data_is_active data);
    split; (reflexivity || discriminate).
Qed.

Lemma setsEmail_assignments data email :
  data_email data = Some email -> Js.truthy email = true ->
  SqlUpdate.setsEmail (assignments data) = true /\ assignments data <> [].
Proof.
  intros Hemail Htruthy. unfold assignments. rewrite Hemail, Htruthy.
  split; [reflexivity|discriminate].
Qed.

Lemma filter_two {A} (p : A -> bool) (l : list A) a b :
  In a l -> In b l -> a <> b -> p a = true -> p b = true ->
  (1 <? length (List.filter p l))%nat = true.
Proof.
  intros Ha Hb Hne Hpa Hpb. apply Nat.ltb_lt.
  assert (List.NoDup [a; b]) as Hnd.
  { constructor; [intros [Heq|[]]; congruence|]. constructor; [intros []|constructor]. }
  pose proof (List.NoDup_incl_length Hnd (l' := List.filter p l)) as Hlen.
  simpl in Hlen. apply Hlen.
  intros x [<-|[<-|[]]]; apply filter_In; auto.
Qed.

Lemma statement_rewritten env id data d :
  SqlUpdate.statement id (assignments data) (current_timestamp env) d
  = let rows := map (fun r => if (u_id r =? id)%Z then rewritten env data r else r)
                  (users d) in
    if SqlUpdate.setsRole (assignments data)
       && existsb (fun u => (u_id u =? id)%Z && negb (SqlUpdate.roleAllowed (u_role u))) rows
    then (Throw (SqliteError "CHECK constraint failed: role"), d)
    else if SqlUpdate.setsEmail (assignments data)
            && existsb (fun u => (u_id u =? id)%Z
                                 && (1 <? SqlUpdate.rowsWithEmail (u_email u) rows)%nat) rows
    then (Throw (SqliteError "UNIQUE constraint failed: users.email"), d)
    else (Normal tt,
          {| users := rows; sessions := sessions d;
             users_seq := users_seq d; sessions_seq := sessions_seq d |}).
Proof. reflexivity. Qed.

Lemma rewritten_id env data u : u_id (rewritten env data u) = u_id u.
Proof. apply updated_id. Qed.

(** X20.  The constraints [updateUser] meets.  For a user that exists, a
    [role] outside 'user', 'admin', 'moderator', or an [email] that another
    user has, makes the statement fail; [updateUser] catches the failure
    and returns false, and neither the row nor anything else is changed. *)
Theorem updateUser_constraint_failures (env : Env) (id : Z) (data : UserData) (w : World)
    (u : UserRow) :
  In u (users (db w)) -> u_id u = id ->
  (forall role, data_role data = Some role -> Js.truthy role = true ->
     SqlUpdate.roleAllowed role = false ->
     updateUser env id data w = (Normal false, w))
  /\ (forall email other, data_email data = Some email -> Js.truthy email = true ->
        In other (users (db w)) -> u_id other <> id -> u_email other = email ->
        updateUser env id data w = (Normal false, w)).
Proof.
  intros Hin Hid.
  pose proof (statement_rewritten env id data (db w)) as Hstatement. cbv zeta in Hstatement.
  set (f := fun r => if (u_id r =? id)%Z then rewritten env data r else r) in Hstatement.
  assert (In (f u) (map f (users (db w)))) as Hfu by (apply in_map; assumption).
  assert (f u = rewritten env data u) as Hu
    by (unfold f; rewrite Hid, Z.eqb_refl; reflexivity).
  assert ((u_id (f u) =? id)%Z = true) as Hfid
    by (rewrite Hu, rewritten_id, Hid; apply Z.eqb_refl).
  split.
  - intros role Hrole Htruthy Hbad.
    destruct (setsRole_assignments data role Hrole Htruthy) as [Hsets Hne].
    apply (updateUser_throwing env id data w
             (SqliteError "CHECK constraint failed: role")); [assumption|].
    rewrite Hstatement, Hsets.
    assert (existsb (fun r => (u_id r =? id)%Z && negb (SqlUpdate.roleAllowed (u_role r)))
              (map f (users (db w))) = true) as ->; [|reflexivity].
    apply existsb_exists. exists (f u). split; [assumption|].
    rewrite Hfid, Hu, (updated_role env data role u Hrole Htruthy), Hbad. reflexivity.
  - intros email other Hemail Htruthy Hother Hoid Hoemail.
    destruct (setsEmail_assignments data email Hemail Htruthy) as [Hsets Hne].
    assert (exists e, SqlUpdate.statement id (assignments data) (current_timestamp env) (db w)
                      = (Throw e, db w)) as [e He];
      [|apply (updateUser_throwing env id data w e Hne He)].
    rewrite Hstatement.
    destruct (SqlUpdate.setsRole (assignments data) && _); [eauto|].
    rewrite Hsets.
    assert (existsb (fun r => (u_id r =? id)%Z
                              && (1 <? SqlUpdate.rowsWithEmail (u_email r)
                                         (map f (users (db w))))%nat)
              (map f (users (db w))) = true) as ->; [|simpl; eauto].
    apply existsb_exists. exists (f u). split; [assumption|].
    rewrite Hfid. simpl. unfold SqlUpdate.rowsWithEmail.
    assert (f other = other) as Hfo
      by (unfold f; destruct (Z.eqb_spec (u_id other) id); [contradiction|reflexivity]).
    assert (u_email (f u) = email) as Hfe
      by (rewrite Hu; apply (updated_email env data email u Hemail Htruthy)).
    apply (filter_two _ _ (f u) (f other)).
    + assumption.
    + apply in_map. assumption.
    + rewrite Hfo. intros Heq. apply Hoid. rewrite <- Heq, Hu, rewritten_id. assumption.
    + apply String.eqb_refl.
    + rewrite Hfo, Hfe, Hoemail. apply String.eqb_refl.
Qed.

Lemma updateUser_constraint_failures_witness :
  let w := Demo.start {| users := [Sample.alice 1;
                                    {| u_id := 2; u_email := "c@d.org";
                                       u_password_hash := "2a:2a"; u_full_name := None;
                                       u_meta := Some "{}";
                                       u_created_at := "2024-01-01 00:00:00";
                                       u_updated_at := "2024-01-01 00:00:00";
                                       u_last_login := None; u_is_active := Some 1%Z;
                                       u_role := "user" |}];
                         sessions := []; users_seq := 2; sessions_seq := 0 |} in
  let data := onlyEmail "c@d.org" in
  (forall role, data_role data = Some role -> Js.truthy role = true ->
     SqlUpdate.roleAllowed role = false ->
     updateUser Demo.env 1 data w = (Normal false, w))
  /\ (forall email other, data_email data = Some email -> Js.truthy email = true ->
        In other (users (db w)) -> u_id other <> 1%Z -> u_email other = email ->
        updateUser Demo.env 1 data w = (Normal false, w)).
Proof.
  cbv zeta.
  apply (updateUser_constraint_failures Demo.env 1 (onlyEmail "c@d.org") _ (Sample.alice 1)).
  - left. reflexivity.
  - reflexivity.
Defined.

Example updateUser_email_taken :
  let other := {| u_id := 2; u_email := "c@d.org"; u_password_hash := "2a:2a";
                  u_full_name := None; u_meta := Some "{}";
                  u_created_at := "2024-01-01 00:00:00";
                  u_updated_at := "2024-01-01 00:00:00";
                  u_last_login := None; u_is_active := Some 1%Z; u_role := "user" |} in
  let w := Demo.start {| users := [Sample.alice 1; other];
                         sessions := []; users_seq := 2; sessions_seq := 0 |} in
  updateUser Demo.env 1 (onlyEmail "c@d.org") w = (Normal false, w)
  /\ fst (updateUser Demo.env 2 (onlyEmail "c@d.org") w) = Normal true.
Proof. vm_compute. split; reflexivity. Qed.

Section Deactivation.
Context `{Platform}.

Lemma statement_onlyActive env id flag d :
  SqlUpdate.statement id (assignments (onlyActive flag)) (current_timestamp env) d
  = (Normal tt,
     {| users := map (fun r => if (u_id r =? id)%Z
                               then rewritten env (onlyActive flag) r else r) (users d);
        sessions := sessions d;
        users_seq := users_seq d; sessions_seq := sessions_seq d |}).
Proof. reflexivity. Qed.

(** X21.  Deactivation takes the sessions with it.  [updateUser] with
    [{is_active: 0}] (or null) always returns true, touches no session row,
    and from then on no token validates to the user with that id, although
    the sessions of that user are still in the table. *)
Theorem updateUser_deactivates (env later : Env) (id : Z) (flag : option Z) (w : World) :
  flag = None \/ flag = Some 0%Z ->
  exists w',
    updateUser env id (onlyActive flag) w = (Normal true, w')
    /\ res w' = res w
    /\ sessions (db w') = sessions (db w)
    /\ map u_id (users (db w')) = map u_id (users (db w))
    /\ (forall token user,
          fst (validateSession later token w') = Normal (Some user) ->
          exists id', getProp user "id" = Some (JNum id') /\ id' <> id).
Proof.
  intros Hflag. eexists. split.
  - apply updateUser_running; [discriminate|]. apply statement_onlyActive.
  - simpl. split; [reflexivity|]. split; [reflexivity|]. split.
    + rewrite map_map. apply map_ext. intros r.
      destruct (u_id r =? id)%Z; [apply rewritten_id|reflexivity].
    + intros token user. rewrite validateSession_run. simpl. intros [= Hv].
      apply validated_some in Hv as (s & u & _ & _ & Hu & _ & Hactive & Hparse).
      exists (u_id u). split.
      * rewrite (parseMeta_getProp _ _ "id" Hparse) by discriminate. reflexivity.
      * intros Hid. simpl in Hu. apply in_map_iff in Hu as (r & Hr & _).
        destruct (Z.eqb_spec (u_id r) id) as [_|Hne].
        -- subst u. unfold isActive, rewritten in Hactive. simpl in Hactive.
           destruct Hflag as [-> | ->]; discriminate.
        -- subst u. contradiction.
Qed.

End Deactivation.

Lemma updateUser_deactivates_witness :
  exists w',
    updateUser Demo.env 1 (onlyActive (Some 0%Z)) (Demo.start (Sample.store 1 2000))
      = (Normal true, w')
    /\ res w' = res (Demo.start (Sample.store 1 2000))
    /\ sessions (db w') = sessions (Sample.store 1 2000)
    /\ map u_id (users (db w')) = map u_id (users (Sample.store 1 2000))
    /\ (forall token user,
          fst (validateSession Demo.env token w') = Normal (Some user) ->
          exists id', getProp user "id" = Some (JNum id') /\ id' <> 1%Z).
Proof.
  apply (updateUser_deactivates Demo.env Demo.env 1 (Some 0%Z)
           (Demo.start (Sample.store 1 2000))).
  right. reflexivity.
Defined.

Example deactivated_session_still_stored :
  let w' := snd (updateUser Demo.env 1 (onlyActive (Some 0%Z))
                   (Demo.start (Sample.store 1 2000))) in
  fst (validateSession Demo.env Sample.token (Demo.start (Sample.store 1 2000)))
    <> Normal None
  /\ fst (validateSession Demo.env Sample.token w') = Normal None
  /\ sessions (db w') = [Sample.session 2000].
Proof. vm_compute. repeat split; try reflexivity. discriminate. Qed.

Lemma filter_map_commute {A B} (f : A -> B) (p : B -> bool) (l : list A) :
  List.filter p (map f l) = map f (List.filter (fun x => p (f x)) l).
Proof.
  induction l as [|x l IH]; simpl; [reflexivity|].
  destruct (p (f x)); simpl; rewrite IH; reflexivity.
Qed.

Lemma find_map_commute {A B} (f : A -> B) (p : B -> bool) (l : list A) :
  List.find p (map f l) = option_map f (List.find (fun x => p (f x)) l).
Proof.
  induction l as [|x l IH]; simpl; [reflexivity|].
  destruct (p (f x)); [reflexivity|assumption].
Qed.

Lemma find_ext_in {A} (p q : A -> bool) (l : list A) :
  (forall x, In x l -> p x = q x) -> List.find p l = List.find q l.
Proof.
  intros Hpq. induction l as [|x l IH]; simpl; [reflexivity|].
  rewrite (Hpq x) by (left; reflexivity).
  rewrite IH by (intros; apply Hpq; right; assumption). reflexivity.
Qed.

Lemma filter_by_id_unique id (rows : list UserRow) :
  List.NoDup (map u_id rows) ->
  length (List.filter (fun r => (u_id r =? id)%Z) rows) <= 1.
Proof.
  induction rows as [|r rows IH]; simpl; intros Hnd; [lia|].
  apply List.NoDup_cons_iff in Hnd as [Hr Hnd].
  destruct (Z.eqb_spec (u_id r) id) as [Heq|_]; [|auto].
  assert (List.filter (fun r => (u_id r =? id)%Z) rows = []) as ->; [|simpl; lia].
  destruct (List.filter _ rows) as [|r' rest] eqn:Hf; [reflexivity|].
  assert (In r' (List.filter (fun r => (u_id r =? id)%Z) rows)) as Hin
    by (rewrite Hf; left; reflexivity).
  apply filter_In in Hin as [Hin Hid]. apply Z.eqb_eq in Hid.
  exfalso. apply Hr. rewrite Heq, <- Hid. apply in_map. assumption.
Qed.

Section EmailChange.
Context `{Platform}.

(** X22.  Changing the email.  For a user that exists, on a table with
    unique ids, [updateUser] with a new email no row has returns true; the
    lookup by the new email then finds that user, with the id and the
    password hash it had and [updated_at] set by the trigger; the lookup by
    the old email no longer finds that user; and no session is touched. *)
Theorem updateUser_changes_email (env : Env) (id : Z) (email : string) (w : World)
    (u : UserRow) :
  In u (users (db w)) -> u_id u = id ->
  List.NoDup (map u_id (users (db w))) ->
  Js.truthy email = true ->
  Sql.selectUserByEmail email (db w) = None ->
  exists w' u',
    updateUser env id (onlyEmail email) w = (Normal true, w')
    /\ res w' = res w
    /\ sessions (db w') = sessions (db w)
    /\ Sql.selectUserByEmail email (db w') = Some u'
    /\ u_id u' = id /\ u_email u' = email
    /\ u_password_hash u' = u_password_hash u
    /\ u_updated_at u' = current_timestamp env
    /\ (forall r, Sql.selectUserByEmail (u_email u) (db w') = Some r -> u_id r <> id).
Proof.
  intros Hin Hid Hnd Htruthy Hfree.
  set (data := onlyEmail email).
  set (f := fun r => if (u_id r =? id)%Z then rewritten env data r else r).
  assert (forall r, In r (users (db w)) -> String.eqb (u_email r) email = false) as Hold.
  { intros r Hr. unfold Sql.selectUserByEmail in Hfree.
    apply (find_none _ _ Hfree r Hr). }
  assert (forall r, In r (users (db w)) ->
            String.eqb (u_email (f r)) email = (u_id r =? id)%Z) as Hnew.
  { intros r Hr. unfold f. destruct (u_id r =? id)%Z.
    - unfold data. rewrite (updated_email env (onlyEmail email) email r eq_refl Htruthy).
      apply String.eqb_refl.
    - apply Hold. assumption. }
  assert (SqlUpdate.statement id (assignments data) (current_timestamp env) (db w)
          = (Normal tt,
             {| users := map f (users (db w)); sessions := sessions (db w);
                users_seq := users_seq (db w); sessions_seq := sessions_seq (db w) |}))
    as Hrun.
  { rewrite statement_rewritten. cbv zeta. fold f.
    assert (SqlUpdate.setsRole (assignments data) = false) as ->
      by (unfold data, assignments; simpl; rewrite Htruthy; reflexivity).
    simpl andb.
    assert (existsb (fun r => (u_id r =? id)%Z
                              && (1 <? SqlUpdate.rowsWithEmail (u_email r)
                                         (map f (users (db w))))%nat)
              (map f (users (db w))) = false) as ->;
      [|rewrite andb_false_r; reflexivity].
    destruct (existsb _ (map f (users (db w)))) eqn:Hex; [|reflexivity].
    apply existsb_exists in Hex as (r' & Hr' & Hbad).
    apply in_map_iff in Hr' as (r & <- & Hr).
    apply andb_true_iff in Hbad as [Hrid Hcount]. apply Nat.ltb_lt in Hcount.
    assert (u_email (f r) = email) as Hemail.
    { apply String.eqb_eq. rewrite (Hnew r Hr). unfold f in Hrid.
      destruct (u_id r =? id)%Z eqn:Hr0; [reflexivity|]. rewrite Hr0 in Hrid. discriminate. }
    unfold SqlUpdate.rowsWithEmail in Hcount.
    rewrite Hemail, filter_map_commute, length_map in Hcount.
    rewrite (filter_ext_in _ (fun r => (u_id r =? id)%Z)) in Hcount by exact Hnew.
    pose proof (filter_by_id_unique id (users (db w)) Hnd). lia. }
  assert (Sql.selectUserById id (db w) = Some u) as Hfound.
  { destruct (selectUserById_found id (db w) u Hin Hid) as [u0 Hu0].
    rewrite Hu0. f_equal. apply selectUserById_some in Hu0 as [Hin0 Hid0].
    apply (NoDup_map_eq u_id (users (db w))); try assumption. congruence. }
  exists {| db := {| users := map f (users (db w)); sessions := sessions (db w);
                     users_seq := users_seq (db w);
                     sessions_seq := sessions_seq (db w) |};
            res := res w |}, (rewritten env data u).
  split; [apply updateUser_running; [|exact Hrun];
          unfold data, assignments; simpl; rewrite Htruthy; discriminate|].
  simpl. split; [reflexivity|]. split; [reflexivity|]. split; [|split; [|split; [|split]]].
  - unfold Sql.selectUserByEmail. simpl. rewrite find_map_commute.
    rewrite (find_ext_in _ (fun r => (u_id r =? id)%Z)) by exact Hnew.
    unfold Sql.selectUserById in Hfound. rewrite Hfound. simpl.
    unfold f. rewrite Hid, Z.eqb_refl. reflexivity.
  - exact (eq_trans (rewritten_id env data u) Hid).
  - exact (updated_email env data email u eq_refl Htruthy).
  - unfold rewritten, data, assignments. simpl. rewrite Htruthy. reflexivity.
  - split; [reflexivity|].
    intros r Hr. unfold Sql.selectUserByEmail in Hr. simpl in Hr.
    apply find_some in Hr as [Hr Hemail]. apply in_map_iff in Hr as (r0 & <- & Hr0).
    apply String.eqb_eq in Hemail. intros Hrid.
    assert ((u_id r0 =? id)%Z = true) as Hr0id.
    { unfold f in Hrid. destruct (Z.eqb_spec (u_id r0) id); [reflexivity|contradiction]. }
    pose proof (Hnew r0 Hr0) as Hn. rewrite Hr0id in Hn. apply String.eqb_eq in Hn.
    pose proof (Hold u Hin) as Ho. apply String.eqb_neq in Ho. congruence.
Qed.

End EmailChange.

Lemma updateUser_changes_email_witness :
  exists w' u',
    updateUser Demo.env 1 (onlyEmail "alice@b.com") (Demo.start (Sample.store 1 2000))
      = (Normal true, w')
    /\ res w' = res (Demo.start (Sample.store 1 2000))
    /\ sessions (db w') = sessions (Sample.store 1 2000)
    /\ Sql.selectUserByEmail "alice@b.com" (db w') = Some u'
    /\ u_id u' = 1%Z /\ u_email u' = "alice@b.com"
    /\ u_password_hash u' = u_password_hash (Sample.alice 1)
    /\ u_updated_at u' = current_timestamp Demo.env
    /\ (forall r, Sql.selectUserByEmail (u_email (Sample.alice 1)) (db w') = Some r ->
                  u_id r <> 1%Z).
Proof.
  apply (updateUser_changes_email Demo.env 1 "alice@b.com"
           (Demo.start (Sample.store 1 2000)) (Sample.alice 1)).
  - left. reflexivity.
  - reflexivity.
  - repeat constructor. intros [].
  - reflexivity.
  - reflexivity.
Defined.
